(** * CATHe: shallow embedding of the 3Di pipeline and of the training helpers

    The development follows five scripts of the repository:
    - [src/all/get_3Di/get_3Di_sequences.py]  (module [Get3Di]),
    - [src/all/models/TM_Vec/ann_TM_Vec.py]   (modules [AnnTMVec], [Labels]),
    - [src/all/models/t5/logreg_prott5.py]    (modules [LogregProtT5], [Labels]),
    - [src/cathe-predict/predict_embed.py]    (modules [PredictEmbed], [Predict3Di]),
    - [src/all/models/all_models/run_ann_tests.py] (module [RunAnnTests]).

    Python values are modelled as the scripts use them: [str] as [string],
    character by character, [int] as [Z] (or [nat] for lengths and indices),
    lists as [list], the file system as a finite map from paths to file
    contents together with the directories that were made.  Library calls
    whose behaviour is not part of the repository (Bio.PDB, requests, pandas,
    the foldseek binary, the thread scheduler) are fields of a class of
    external collaborators. *)

From Stdlib Require Import ZArith String Ascii List Lia.
From stdpp Require Import base tactics option list gmap strings pretty relations sorting.

Local Open Scope string_scope.

(** ** Python primitives *)

Module Py.

(** Exception classes the scripts raise or catch; an exception of a class
    below is an instance of that class or of one of its subclasses.  Every
    class derives from Python's [Exception]; [PyError name] stands for a
    class that derives from [Exception] and from none of the others (for
    instance [ConnectionError], or plain [Exception], which is what
    [run_command] raises). *)
Inductive exn_class :=
| HTTPError
| ValueError
| IndexError
| AttributeError
| FileNotFoundError
| FileExistsError
| PyError (name : string).

Record exn := Raise { exn_cls : exn_class; exn_msg : string }.

(** [s[:n]]: slicing clamps to the length of the string. *)
Fixpoint slice_to (n : nat) (s : string) : string :=
  match n, s with
  | S n', String c s' => String c (slice_to n' s')
  | _, _ => EmptyString
  end.

(** [s[n:]] *)
Fixpoint slice_from (n : nat) (s : string) : string :=
  match n, s with
  | S n', String _ s' => slice_from n' s'
  | _, _ => s
  end.

(** [s[n]] for [0 <= n]: a one-character string, or [IndexError]. *)
Definition index (s : string) (n : nat) : exn + string :=
  match String.get n s with
  | Some c => inr (String c EmptyString)
  | None => inl (Raise IndexError "string index out of range")
  end.

(** [s.replace(old, new)]: all non-overlapping occurrences, scanning from
    the left.  [skip] counts the characters of a matched occurrence that
    remain to be dropped.  For an empty [old] Python puts [new] before every
    character and at the end. *)
Fixpoint replace_go (skip : nat) (old new s : string) : string :=
  match s with
  | EmptyString => EmptyString
  | String c s' =>
      match skip with
      | S k => replace_go k old new s'
      | O =>
          if String.prefix old s
          then new ++ replace_go (String.length old - 1) old new s'
          else String c (replace_go 0 old new s')
      end
  end.

Fixpoint intersperse_before (new s : string) : string :=
  match s with
  | EmptyString => new
  | String c s' => new ++ String c (intersperse_before new s')
  end.

Definition replace (s old new : string) : string :=
  match old with
  | EmptyString => intersperse_before new s
  | _ => replace_go 0 old new s
  end.

(** The ASCII whitespace [int] skips around a literal: tab, line feed,
    vertical tab, form feed, carriage return and space. *)
Definition is_space (c : ascii) : bool :=
  let n := nat_of_ascii c in
  (Nat.leb 9 n && Nat.leb n 13) || Nat.eqb n 32.

Definition is_digit (c : ascii) : bool :=
  let n := nat_of_ascii c in Nat.leb 48 n && Nat.leb n 57.

Definition digit_val (c : ascii) : Z := Z.of_nat (nat_of_ascii c - 48).

Fixpoint lstrip (s : string) : string :=
  match s with
  | String c s' => if is_space c then lstrip s' else s
  | EmptyString => EmptyString
  end.

Definition strip (s : string) : string :=
  String.rev (lstrip (String.rev (lstrip s))).

(** The digits of a decimal literal; single underscores may separate
    digits.  [after_digit] tells whether the previous character was a
    digit. *)
Fixpoint int_digits (acc : Z) (after_digit : bool) (s : string) : option Z :=
  match s with
  | EmptyString => if after_digit then Some acc else None
  | String c s' =>
      if is_digit c then int_digits (10 * acc + digit_val c) true s'
      else if Ascii.eqb c "_"
           then (if after_digit then int_digits acc false s' else None)
           else None
  end.

(** [int(s)] on a string of ASCII characters: surrounding whitespace, an
    optional sign, then decimal digits.  On other text Python's [int] also
    accepts the spaces and the decimal digits of other scripts, which this
    function rejects. *)
Definition int_opt (s : string) : option Z :=
  match strip s with
  | String "+" d => int_digits 0 false d
  | String "-" d => Z.opp <$> int_digits 0 false d
  | d => int_digits 0 false d
  end.

Definition int (s : string) : exn + Z :=
  match int_opt s with
  | Some z => inr z
  | None =>
      inl (Raise ValueError ("invalid literal for int() with base 10: '" ++ s ++ "'"))
  end.

(** [os.path.join(a, b)] on POSIX paths. *)
Definition path_join (a b : string) : string :=
  if String.prefix "/" b then b
  else match String.rev a with
       | EmptyString => b
       | String "/" _ => a ++ b
       | _ => a ++ "/" ++ b
       end.

(** The part of [s] before the first occurrence of [c] ([s.split(c)[0]]). *)
Fixpoint before_char (c : ascii) (s : string) : string :=
  match s with
  | EmptyString => EmptyString
  | String d s' => if Ascii.eqb d c then EmptyString else String d (before_char c s')
  end.

(** [os.path.basename(p)]: what follows the last slash. *)
Fixpoint basename_go (acc s : string) : string :=
  match s with
  | EmptyString => acc
  | String c s' =>
      if Ascii.eqb c "/" then basename_go s' s' else basename_go acc s'
  end.
Definition basename (p : string) : string := basename_go p p.

(** [s.rstrip('/')] *)
Fixpoint rstrip_slash (s : string) : string :=
  match s with
  | EmptyString => EmptyString
  | String c rest =>
      match rstrip_slash rest with
      | EmptyString => if Ascii.eqb c "/" then EmptyString else String c EmptyString
      | r => String c r
      end
  end.

(** [os.path.dirname(p)]: what precedes the last component, without the
    slashes that end it unless it is made of slashes only. *)
Definition dirname (p : string) : string :=
  let head := slice_to (String.length p - String.length (basename p)) p in
  match rstrip_slash head with
  | EmptyString => head
  | stripped => stripped
  end.

(** What a file opened in text mode delivers for its content: every
    carriage return followed by a line feed, and every other carriage
    return, is read as one line feed. *)
Fixpoint universal_newlines (content : string) : string :=
  match content with
  | EmptyString => EmptyString
  | String c rest =>
      if Ascii.eqb c "013"
      then String "010"
                  match rest with
                  | String d rest' =>
                      if Ascii.eqb d "010" then universal_newlines rest'
                      else universal_newlines rest
                  | EmptyString => EmptyString
                  end
      else String c (universal_newlines rest)
  end.

End Py.

Export Py.

(** ** The world the scripts act on, and the monad of effects *)

Module Os.

(** Files are text, the keys of [fs] are their paths.  A directory exists
    when [os.makedirs] made it ([dirs] holds those) and while a file or
    such a directory lies under it; the current directory and the root
    exist.  [stdout] holds what [print] wrote, [requests] the URLs of the
    HTTP GETs issued so far, both oldest first.  The message of an
    [OSError] is written as the path alone. *)
Record World := mkWorld {
  fs : gmap string string;
  dirs : gset string;
  stdout : list string;
  requests : list string;
}.

Definition set_fs (f : gmap string string → gmap string string) (w : World) : World :=
  {| fs := f (fs w); dirs := dirs w; stdout := stdout w; requests := requests w |}.

(** A computation either returns a value or raises, and changes the world
    in both cases. *)
Definition M (A : Type) : Type := World → (exn + A) * World.

Definition ret {A} (a : A) : M A := λ w, (inr a, w).
Definition bind {A B} (m : M A) (k : A → M B) : M B :=
  λ w, match m w with
       | (inl e, w') => (inl e, w')
       | (inr a, w') => k a w'
       end.
Definition raise {A} (e : exn) : M A := λ w, (inl e, w).
Definition lift {A} (r : exn + A) : M A := λ w, (r, w).

(** [try: body except Exception as e: handler e] *)
Definition try_except {A} (body : M A) (handler : exn → M A) : M A :=
  λ w, match body w with
       | (inl e, w') => handler e w'
       | (inr a, w') => (inr a, w')
       end.

Definition print (line : string) : M unit :=
  λ w, (inr tt, {| fs := fs w; dirs := dirs w; stdout := stdout w ++ [line];
                   requests := requests w |}).

(** The content of the file at [path], as it is stored: what a library
    is given to parse ([PDBParser], [pd.read_csv]). *)
Definition read_file (path : string) : M string :=
  λ w, match fs w !! path with
       | Some content => (inr content, w)
       | None => (inl (Raise FileNotFoundError path), w)
       end.

(** A write that goes through: by a library into a directory that holds
    the file it was given ([PDBIO.save]) or that the script has just made
    ([DataFrame.to_csv]), or through a handle the script has opened. *)
Definition write_file (path content : string) : M unit :=
  λ w, (inr tt, set_fs (insert path content) w).

(** [path] lies under the directory [dir]. *)
Definition under (dir path : string) : bool := String.prefix (dir ++ "/") path.

(** [dir], a name without a slash at its end, is a directory of the
    world. *)
Definition is_dir (w : World) (dir : string) : bool :=
  if String.eqb dir "" || String.eqb dir "." then true
  else bool_decide (dir ∈ dirs w)
       || existsb (λ kv : string * string, under dir kv.1) (map_to_list (fs w))
       || existsb (under dir) (elements (dirs w)).

(** The directory that [path] names exists; the empty path names the
    current directory, as in the result of [os.path.dirname]. *)
Definition dir_exists (w : World) (path : string) : bool :=
  is_dir w (rstrip_slash path).

(** A path component above [path] is a file.  [fuel] bounds the number of
    components. *)
Fixpoint file_above (fuel : nat) (w : World) (path : string) : bool :=
  match fuel with
  | O => false
  | S fuel' =>
      let parent := dirname path in
      if String.eqb parent path then false
      else bool_decide (is_Some (fs w !! parent)) || file_above fuel' w parent
  end.

(** The exception of a system call on a path that does not lead to what
    it needs. *)
Definition no_entry (w : World) (path : string) : exn :=
  if file_above (String.length path) w path
  then Raise (PyError "NotADirectoryError") path
  else Raise FileNotFoundError path.

(** The exception of opening for reading a path that is not a file. *)
Definition missing_file (w : World) (path : string) : exn :=
  if String.eqb path "" then Raise FileNotFoundError path
  else if dir_exists w path then Raise (PyError "IsADirectoryError") path
  else if bool_decide (is_Some (fs w !! rstrip_slash path))
  then Raise (PyError "NotADirectoryError") path
  else no_entry w path.

(** [open(path, 'r').read()] by the script: the content in text mode. *)
Definition read_text (path : string) : M string :=
  λ w, match fs w !! path with
       | Some content => (inr (universal_newlines content), w)
       | None => (inl (missing_file w path), w)
       end.

(** A file can be opened for writing at [path], a path that does not end
    with a slash: the file is there already, or its directory is and no
    directory stands in its place. *)
Definition writable (w : World) (path : string) : bool :=
  bool_decide (is_Some (fs w !! path))
  || (dir_exists w (dirname path) && negb (is_dir w path)).

(** [open(path, 'w').write(content)] by the script, and
    [np.savez_compressed(path, ...)]. *)
Definition open_w (path content : string) : M unit :=
  λ w, if String.eqb path "" then (inl (Raise FileNotFoundError path), w)
       else if String.eqb (basename path) ""
       then if dir_exists w (dirname (rstrip_slash path))
            then (inl (Raise (PyError "IsADirectoryError") path), w)
            else (inl (no_entry w path), w)
       else if writable w path then (inr tt, set_fs (insert path content) w)
       else if dir_exists w (dirname path)
       then (inl (Raise (PyError "IsADirectoryError") path), w)
       else (inl (no_entry w path), w).

(** [os.remove(path)] *)
Definition remove (path : string) : M unit :=
  λ w, match fs w !! path with
       | Some _ => (inr tt, set_fs (delete path) w)
       | None => (inl (Raise FileNotFoundError path), w)
       end.

(** [os.makedirs(path, exist_ok=True)]: fails only when [path] is a file. *)
Definition makedirs (path : string) : M unit :=
  λ w, match fs w !! path with
       | Some _ => (inl (Raise FileExistsError path), w)
       | None => (inr tt, {| fs := fs w; dirs := {[ rstrip_slash path ]} ∪ dirs w;
                              stdout := stdout w; requests := requests w |})
       end.

(** The entry of directory [dir] through which [path] is reached, if any. *)
Definition entry_of (dir path : string) : option string :=
  let d := path_join dir "" in
  if String.prefix d path
  then Some (before_char "/" (slice_from (String.length d) path))
  else None.

(** The names [os.listdir(dir)] returns: the entries that lead to a file,
    and those that lead to a directory [os.makedirs] made. *)
Definition entries (dir : string) (w : World) : list string :=
  remove_dups
    (omap (λ kv : string * string, entry_of dir kv.1) (map_to_list (fs w))
     ++ List.filter (λ name, negb (String.eqb name ""))
          (omap (λ made, entry_of dir (made ++ "/")) (elements (dirs w)))).

(** [os.listdir(dir)] *)
Definition listdir (dir : string) : M (list string) :=
  λ w, if String.eqb dir "" then (inl (Raise FileNotFoundError dir), w)
       else if bool_decide (is_Some (fs w !! rstrip_slash dir))
       then (inl (Raise (PyError "NotADirectoryError") dir), w)
       else if dir_exists w dir then (inr (entries dir w), w)
       else (inl (no_entry w dir), w).

(** [for x in xs: body x] *)
Fixpoint for_each {A} (xs : list A) (body : A → M unit) : M unit :=
  match xs with
  | [] => ret tt
  | x :: xs' => bind (body x) (λ _, for_each xs' body)
  end.

End Os.

Export Os.

Declare Scope py_scope.
Delimit Scope py_scope with py.
Notation "'let*' x ':=' m 'in' k" := (Os.bind m (λ x, k))
  (at level 10, x name, m at level 100, k at level 200, only parsing) : py_scope.
Notation "m ;; k" := (Os.bind m (λ _, k))
  (at level 100, k at level 200, only parsing, right associativity) : py_scope.
Local Open Scope py_scope.

(** ** get_3Di_sequences.py *)

Module Get3Di.

(** *** Data *)

(** A cell as [pd.read_csv] delivers it: a [str], or a value of another
    type, given by the name of its type - the float NaN where the cell is
    empty or holds an NA marker, a number where the whole column reads as
    numbers. *)
Inductive Cell :=
| Str (s : string)
| Other (type_name : string).

Definition NaN : Cell := Other "float".

(** One row of the dataset CSV: the columns ['Unnamed: 0'], ['Sequence']
    and ['Domain'], an integer and two cells of text. *)
Record Row := mkRow {
  row_id : Z;
  Sequence : Cell;
  Domain : Cell;
}.

(** The record [download_and_trim_pdb] returns; [pdb_file = None] is the
    missing result. *)
Record Result := mkResult {
  sequence_id : Z;
  pdb_file : option string;
}.

(** Bio.PDB entities.  A residue id is (hetero flag, sequence number,
    insertion code); the hetero flag of a standard residue is one blank. *)
Definition ResidueId : Type := string * Z * string.
Record Residue := mkResidue { r_id : ResidueId; resname : string }.
Record Chain := mkChain { c_id : string; c_residues : list Residue }.
Record Model := mkModel { m_id : Z; m_chains : list Chain }.
Abbreviation Structure := (list Model).

(** A residue inside a structure is identified by its full id. *)
Definition FullId : Type := Z * string * ResidueId.

(** What [requests.get] returns: the status, its reason phrase, the URL
    the answer came from and the body. *)
Record Response := mkResponse {
  status_code : Z;
  reason : string;
  response_url : string;
  text : string;
}.

Record CompletedProcess := mkCompleted {
  returncode : Z;
  cp_stdout : string;
  cp_stderr : string;
}.

(** *** The thread pool *)

(** Tasks are numbered by the position of their row.  [queue] holds the
    submitted tasks no worker has taken yet (in submission order),
    [running] the tasks a worker is executing, [completed] the finished
    futures with their outcome, in completion order. *)
Record Pool := mkPool {
  queue : list nat;
  running : list nat;
  completed : list (nat * (exn + Result));
  world : World;
}.

Inductive Action :=
| Start
| Finish (k : nat).

Definition max_workers : nat := 20.

(** *** External collaborators *)

Class Externals := {
  (** [Bio.SeqUtils.seq1] *)
  seq1 : string → string;
  (** [PDBParser().get_structure] on the text of a file *)
  pdb_parse : string → exn + Structure;
  (** the text [PDBIO.save] writes for a structure and a residue filter *)
  pdb_save : Structure → (FullId → bool) → string;
  (** [requests.get url]; the first argument counts the earlier requests *)
  http_get : nat → string → exn + Response;
  (** [subprocess.run(command, shell=True, ...)] on a file system *)
  shell : string → gmap string string → CompletedProcess * gmap string string;
  (** [pd.read_csv] on the text of a file, [DataFrame.to_csv] *)
  read_csv : string → exn + list Row;
  to_csv : list Result → string;
  (** the operating system's choice of the next pool event *)
  scheduler : Pool → Action;
}.

Section Pipeline.
Context `{Ext : Externals}.

Definition nl : string := String (ascii_of_nat 10) EmptyString.

(** Function to remove 'X' from sequences *)
Definition clean_sequence (sequence : string) : string :=
  Py.replace sequence "X" "".

(** Function to compare sequences *)
Definition compare_sequences (csv_sequence pdb_sequence : string) : bool :=
  bool_decide (csv_sequence = pdb_sequence).

(** [TrimSelect(residues).accept_residue] *)
Definition TrimSelect (residues : gset FullId) (residue : FullId) : bool :=
  bool_decide (residue ∈ residues).

Definition get_structure (pdb_file_path : string) : M Structure :=
  let* content := read_file pdb_file_path in
  lift (pdb_parse content).

(** The state of the residue scan of [trim_pdb]. *)
Record Scan := mkScan {
  seq_residues : gset FullId;
  seq_index : nat;
  untrimmed_sequence : string;
}.

(** [for residue in chain: ...], with its [break]. *)
Fixpoint scan_chain (sequence : string) (model : Z) (chain : string)
         (residues : list Residue) (st : Scan) : Scan :=
  match residues with
  | [] => st
  | residue :: rest =>
      let res_name := seq1 (resname residue) in
      let untrimmed := untrimmed_sequence st ++ res_name in
      let st' :=
        if Nat.ltb (seq_index st) (String.length sequence)
           && match String.get (seq_index st) sequence with
              | Some c => bool_decide (res_name = String c EmptyString)
              | None => false
              end
        then {| seq_residues := {[ (model, chain, r_id residue) ]} ∪ seq_residues st;
                seq_index := seq_index st + 1;
                untrimmed_sequence := untrimmed |}
        else {| seq_residues := seq_residues st;
                seq_index := seq_index st;
                untrimmed_sequence := untrimmed |} in
      if Nat.eqb (seq_index st') (String.length sequence)
      then st'
      else scan_chain sequence model chain rest st'
  end.

Definition scan_model (sequence chain_id : string) (model : Model) (st : Scan) : Scan :=
  fold_left (λ st chain,
               if bool_decide (c_id chain = chain_id)
               then scan_chain sequence (m_id model) (c_id chain) (c_residues chain) st
               else st)
            (m_chains model) st.

Definition scan_structure (structure : Structure) (sequence chain_id : string)
           (model_id : Z) : Scan :=
  fold_left (λ st model,
               if bool_decide (m_id model = model_id)
               then scan_model sequence chain_id model st
               else st)
            structure
            {| seq_residues := ∅; seq_index := 0; untrimmed_sequence := "" |}.

(** The sequence and the [chain_model_found] flag of
    [extract_sequence_from_pdb]. *)
Definition extract_chain (chain : Chain) (acc : string) : string :=
  fold_left (λ sequence residue,
               if bool_decide ((r_id residue).1.1 = " ")
               then sequence ++ seq1 (resname residue)
               else sequence)
            (c_residues chain) acc.

Definition extract_structure (structure : Structure) (chain_id : string)
           (model_id : Z) : string * bool :=
  fold_left (λ st model,
               if bool_decide (m_id model = model_id)
               then fold_left (λ st chain,
                                 if bool_decide (c_id chain = chain_id)
                                 then (extract_chain chain st.1, true)
                                 else st)
                              (m_chains model) st
               else st)
            structure ("", false).

(** Function to extract sequence from PDB file *)
Definition extract_sequence_from_pdb (pdb_file_path chain_id : string)
           (model_id : Z) : M string :=
  let* structure := get_structure pdb_file_path in
  let '(sequence, chain_model_found) := extract_structure structure chain_id model_id in
  if negb chain_model_found
  then raise (Raise ValueError
                ("Chain " ++ chain_id ++ " of model " ++ pretty model_id
                 ++ " not found in PDB file " ++ pdb_file_path))
  else ret sequence.

Definition trim_pdb (pdb_file_path sequence chain_id : string) (model_id : Z) : M string :=
  let* structure := get_structure pdb_file_path in
  let scan := scan_structure structure sequence chain_id model_id in
  let trimmed_pdb_file_path := Py.replace pdb_file_path ".pdb" "_trimmed.pdb" in
  write_file trimmed_pdb_file_path
             (pdb_save structure (TrimSelect (seq_residues scan))) ;;
  let* pdb_sequence := extract_sequence_from_pdb trimmed_pdb_file_path chain_id model_id in
  if negb (compare_sequences (clean_sequence sequence) pdb_sequence)
  then raise (Raise ValueError
                ("Sequence mismatch for PDB ID " ++ pdb_file_path ++ "." ++ nl
                 ++ "CSV sequence: " ++ sequence ++ nl
                 ++ "PDB trimmed sequence: " ++ pdb_sequence ++ nl
                 ++ "Untrimmed PDB sequence: " ++ untrimmed_sequence scan))
  else ret trimmed_pdb_file_path.

(** [requests.get(url)]: the request is issued, then answered. *)
Definition requests_get (url : string) : M Response :=
  λ w, (http_get (length (requests w)) url,
        {| fs := fs w; dirs := dirs w; stdout := stdout w;
           requests := requests w ++ [url] |}).

(** [response.raise_for_status()] *)
Definition raise_for_status (response : Response) : M unit :=
  if Z.leb 400 (status_code response) && Z.ltb (status_code response) 500
  then raise (Raise HTTPError (pretty (status_code response) ++ " Client Error: "
                               ++ reason response ++ " for url: " ++ response_url response))
  else if Z.leb 500 (status_code response) && Z.ltb (status_code response) 600
  then raise (Raise HTTPError (pretty (status_code response) ++ " Server Error: "
                               ++ reason response ++ " for url: " ++ response_url response))
  else ret tt.

Definition pdb_url (pdb_id : string) : string :=
  "https://files.rcsb.org/download/" ++ pdb_id ++ ".pdb".

(** The body of the [try] statement of [download_and_trim_pdb]. *)
Definition download_body (sequence_id : Z) (sequence pdb_id chain : string)
           (model_id : Z) (url output_dir : string) : M Result :=
  let* response := requests_get url in
  raise_for_status response ;;
  let pdb_file_path :=
    path_join output_dir (pretty sequence_id ++ "_" ++ pdb_id ++ ".pdb") in
  open_w pdb_file_path (text response) ;;
  let* trimmed_pdb_file_path := trim_pdb pdb_file_path sequence chain model_id in
  Os.remove pdb_file_path ;;
  ret {| sequence_id := sequence_id; pdb_file := Some trimmed_pdb_file_path |}.

(** Its three [except] clauses, in order. *)
Definition download_handler (sequence_id : Z) (e : exn) : M Result :=
  match exn_cls e with
  | HTTPError =>
      print ("HTTP request failed: " ++ exn_msg e) ;;
      ret {| sequence_id := sequence_id; pdb_file := None |}
  | ValueError =>
      print (exn_msg e) ;;
      ret {| sequence_id := sequence_id; pdb_file := None |}
  | _ =>
      print ("Other error occurred: " ++ exn_msg e) ;;
      ret {| sequence_id := sequence_id; pdb_file := None |}
  end.

(** [clean_sequence(row['Sequence'])]: only a [str] has [replace]. *)
Definition clean_sequence_cell (cell : Cell) : exn + string :=
  match cell with
  | Str sequence => inr (clean_sequence sequence)
  | Other type_name =>
      inl (Raise AttributeError
             ("'" ++ type_name ++ "' object has no attribute 'replace'"))
  end.

(** Function to download and trim a PDB file given a PDB ID and chain *)
Definition download_and_trim_pdb (row : Row) (output_dir : string) : M Result :=
  let sequence_id := row_id row in
  let* sequence := lift (clean_sequence_cell (Sequence row)) in
  match Domain row with
  | Other type_name =>
      raise (Raise (PyError "TypeError") ("'" ++ type_name ++ "' object is not subscriptable"))
  | Str domain =>
      let pdb_id := slice_to 4 domain in
      let* chain := lift (Py.index domain 4) in
      let* model_id := lift (Py.int (slice_from 5 domain)) in
      let url := pdb_url pdb_id in
      try_except
        (download_body sequence_id sequence pdb_id chain model_id url output_dir)
        (download_handler sequence_id)
  end.

(** *** The pool of download tasks *)

(** [executor.submit] once per row: every task is queued. *)
Definition pool_init (data : list Row) (w : World) : Pool :=
  {| queue := seq 0 (length data); running := []; completed := []; world := w |}.

(** A free worker takes the oldest queued task. *)
Definition start (p : Pool) : option Pool :=
  match queue p with
  | t :: q =>
      if Nat.ltb (length (running p)) max_workers
      then Some {| queue := q; running := running p ++ [t];
                   completed := completed p; world := world p |}
      else None
  | [] => None
  end.

(** The [k]-th running task runs [download_and_trim_pdb] on its row; its
    future completes with what the call returned or raised.  A task's
    effects on the world are taken as one step. *)
Definition finish (data : list Row) (output_dir : string) (k : nat) (p : Pool)
  : option Pool :=
  match running p !! k with
  | Some t =>
      match data !! t with
      | Some row =>
          let '(outcome, w') := download_and_trim_pdb row output_dir (world p) in
          Some {| queue := queue p; running := delete k (running p);
                  completed := completed p ++ [(t, outcome)]; world := w' |}
      | None => None
      end
  | None => None
  end.

Inductive pool_step (data : list Row) (output_dir : string) : Pool → Pool → Prop :=
| step_start p p' :
    start p = Some p' → pool_step data output_dir p p'
| step_finish k p p' :
    finish data output_dir k p = Some p' → pool_step data output_dir p p'.

Definition pool_idle (p : Pool) : Prop := queue p = [] ∧ running p = [].

(** One event, chosen by the scheduler; a choice that is not enabled falls
    back on an enabled event. *)
Definition pool_next (data : list Row) (output_dir : string) (p : Pool) : option Pool :=
  match scheduler p with
  | Start =>
      match start p with
      | Some p' => Some p'
      | None => finish data output_dir 0 p
      end
  | Finish k =>
      match finish data output_dir k p with
      | Some p' => Some p'
      | None =>
          match finish data output_dir 0 p with
          | Some p' => Some p'
          | None => start p
          end
      end
  end.

Fixpoint pool_run (data : list Row) (output_dir : string) (fuel : nat) (p : Pool) : Pool :=
  match fuel with
  | O => p
  | S fuel' =>
      match pool_next data output_dir p with
      | Some p' => pool_run data output_dir fuel' p'
      | None => p
      end
  end.

(** [for future in as_completed(futures): results.append(future.result())]:
    [future.result()] re-raises what the task raised. *)
Fixpoint collect (futures : list (nat * (exn + Result))) (results : list Result)
  : exn + list Result :=
  match futures with
  | [] => inr results
  | (_, inl e) :: _ => inl e
  | (_, inr result) :: rest => collect rest (results ++ [result])
  end.

(** The [with ThreadPoolExecutor(max_workers=20)] block: leaving it waits
    for every task, also when [future.result()] raised.  Each task needs
    one [Start] and one [Finish]. *)
Definition download_all (data : list Row) (output_dir : string) : M (list Result) :=
  λ w, let p := pool_run data output_dir (2 * length data) (pool_init data w) in
       (collect (completed p) [], world p).

(** *** process_dataset *)

Definition subprocess_run (command : string) : M CompletedProcess :=
  λ w, let '(result, fs') := shell command (fs w) in
       (inr result, set_fs (λ _, fs') w).

(** Function to run a shell command and check for errors *)
Definition run_command (command : string) : M string :=
  let* result := subprocess_run command in
  if negb (Z.eqb (returncode result) 0)
  then print ("Error running command: " ++ command) ;;
       print (cp_stderr result) ;;
       raise (Raise (PyError "Exception") "Command failed")
  else ret (cp_stdout result).

Definition output_csv_path (output_dir : string) : string :=
  path_join output_dir "directly_saved_pdb_idx.csv".

(** Lines 134-147: the downloads and the results CSV. *)
Definition download_phase (data : list Row) (output_dir : string) : M unit :=
  makedirs output_dir ;;
  let* results := download_all data output_dir in
  let output_csv := output_csv_path output_dir in
  write_file output_csv (to_csv results) ;;
  print ("Download completed and results saved to " ++ output_csv).

(** Lines 150-153: the body of the [try] around the foldseek commands. *)
Definition foldseek_commands (output_dir query_db query_db_ss_fasta : string) : M unit :=
  run_command ("foldseek createdb " ++ output_dir ++ " " ++ query_db) ;;
  run_command ("foldseek lndb " ++ query_db ++ "_h " ++ query_db ++ "_ss_h") ;;
  run_command ("foldseek convert2fasta " ++ query_db ++ "_ss " ++ query_db_ss_fasta) ;;
  print ("FASTA file created at " ++ query_db_ss_fasta).

(** Lines 149-156 *)
Definition foldseek_phase (output_dir query_db query_db_ss_fasta : string) : M unit :=
  try_except (foldseek_commands output_dir query_db query_db_ss_fasta)
             (λ e, print ("An error occurred: " ++ exn_msg e)).

(** Lines 158-165: remove intermediate and PDB files. *)
Definition cleanup_phase (output_dir query_db : string) : M unit :=
  Os.remove (query_db ++ "_a3m") ;;
  Os.remove (query_db ++ "_ss") ;;
  Os.remove (query_db ++ "_ss_h") ;;
  Os.remove (query_db ++ "_h") ;;
  let* files := listdir output_dir in
  for_each files (λ file, Os.remove (path_join output_dir file)).

Definition process_dataset (data : list Row)
           (output_dir query_db query_db_ss_fasta : string) : M unit :=
  download_phase data output_dir ;;
  foldseek_phase output_dir query_db query_db_ss_fasta ;;
  cleanup_phase output_dir query_db.

(** *** main *)

(** The values [argparse] accepts for [--dataset]. *)
Inductive DatasetArg := All | Test | Train | Validation.

Definition dataset_map (d : DatasetArg) : list string :=
  match d with
  | Test => ["./data/Dataset/csv/Test.csv"]
  | Train => ["./data/Dataset/csv/Train.csv"]
  | Validation => ["./data/Dataset/csv/Validation.csv"]
  | All => ["./data/Dataset/csv/Test.csv"; "./data/Dataset/csv/Train.csv";
            "./data/Dataset/csv/Validation.csv"]
  end.

Definition pd_read_csv (csv_file : string) : M (list Row) :=
  let* content := read_file csv_file in
  lift (read_csv content).

(** The branch [if dataset_name == 'Train'] of the loop body. *)
Definition process_train (dataset_name : string) (data : list Row) : M unit :=
  let half_index := length data / 2 in
  let data_first_half := take half_index data in
  let data_second_half := drop half_index data in
  let output_dir_first := "./data/pdb_files/" ++ dataset_name ++ "_first" in
  let query_db_first := "./data/pdb_files/" ++ dataset_name ++ "_first_queryDB" in
  let query_db_ss_fasta_first := "./data/Dataset/3Di/" ++ dataset_name ++ "_first.fasta" in
  let output_dir_second := "./data/pdb_files/" ++ dataset_name ++ "_second" in
  let query_db_second := "./data/pdb_files/" ++ dataset_name ++ "_second_queryDB" in
  let query_db_ss_fasta_second := "./data/Dataset/3Di/" ++ dataset_name ++ "_second.fasta" in
  process_dataset data_first_half output_dir_first query_db_first query_db_ss_fasta_first ;;
  process_dataset data_second_half output_dir_second query_db_second query_db_ss_fasta_second ;;
  let final_fasta_path := "./data/Dataset/3Di/" ++ dataset_name ++ ".fasta" in
  open_w final_fasta_path "" ;;
  let* first_fasta := read_text query_db_ss_fasta_first in
  write_file final_fasta_path first_fasta ;;
  let* second_fasta := read_text query_db_ss_fasta_second in
  write_file final_fasta_path (first_fasta ++ second_fasta) ;;
  Os.remove query_db_ss_fasta_first ;;
  Os.remove query_db_ss_fasta_second ;;
  print ("Merged FASTA file created at " ++ final_fasta_path).

Definition process_csv (csv_file : string) : M unit :=
  let* data := pd_read_csv csv_file in
  let dataset_name := before_char "." (basename csv_file) in
  if bool_decide (dataset_name = "Train")
  then process_train dataset_name data
  else
    let output_dir := "./data/pdb_files/" ++ dataset_name in
    let query_db := "./data/pdb_files/" ++ dataset_name ++ "_queryDB" in
    let query_db_ss_fasta := "./data/Dataset/3Di/" ++ dataset_name ++ ".fasta" in
    process_dataset data output_dir query_db query_db_ss_fasta.

Definition main (dataset : DatasetArg) : M unit :=
  for_each (dataset_map dataset) process_csv.

End Pipeline.

End Get3Di.

(** ** ann_TM_Vec.py: the batch generator *)

Module AnnTMVec.

Section Generator.
Context {Sample : Type}.
(** The global [num_classes]. *)
Variable num_classes : nat.

(** [l[i]] for an index [0 <= i]. *)
Definition get_item {A} (l : list A) (i : nat) : exn + A :=
  match l !! i with
  | Some x => inr x
  | None => inl (Raise IndexError "index out of range")
  end.

(** [y_enc = np.zeros((num_classes)); y_enc[label] = 1].  The floats 0.0
    and 1.0 are written 0 and 1; labels are the class numbers the label
    encoder produced. *)
Definition encode (label : nat) : exn + list Z :=
  let y_enc := replicate num_classes 0%Z in
  if Nat.ltb label (length y_enc)
  then inr (<[label := 1%Z]> y_enc)
  else inl (Raise IndexError "index out of bounds").

(** The [for j in range(batch_size)] loop; [j] counts the iterations
    left.  Returns the two batches and the new value of [val]. *)
Fixpoint fill_batch (X_t : list Sample) (y_t : list nat) (j : nat) (val : nat)
         (X_batch : list Sample) (y_batch : list (list Z))
  : exn + (list Sample * list (list Z) * nat) :=
  match j with
  | O => inr (X_batch, y_batch, val)
  | S j' =>
      let val := if Nat.eqb val (length X_t) then 0 else val in
      match get_item X_t val with
      | inl e => inl e
      | inr x =>
          match get_item y_t val with
          | inl e => inl e
          | inr label =>
              match encode label with
              | inl e => inl e
              | inr y_enc =>
                  fill_batch X_t y_t j' (val + 1)
                             (X_batch ++ [x]) (y_batch ++ [y_enc])
              end
          end
      end
  end.

(** The generator resumed [k] times after its first [yield], from the
    state [val]: what the last [next] returns. *)
Fixpoint resume (X_t : list Sample) (y_t : list nat) (batch_size : nat)
         (k : nat) (val : nat) : exn + (list Sample * list (list Z)) :=
  match fill_batch X_t y_t batch_size val [] [] with
  | inl e => inl e
  | inr (X_batch, y_batch, val') =>
      match k with
      | O => inr (X_batch, y_batch)
      | S k' => resume X_t y_t batch_size k' val'
      end
  end.

(** The [k]-th batch (from 0) of [bm_generator(X_t, y_t, batch_size)]. *)
Definition bm_generator (X_t : list Sample) (y_t : list nat) (batch_size : nat)
           (k : nat) : exn + (list Sample * list (list Z)) :=
  resume X_t y_t batch_size k 0.

End Generator.

End AnnTMVec.

(** ** logreg_prott5.py: loading the three splits *)

Module LogregProtT5.

Section Load.
Context {Float : Type}.

(** A two-dimensional array: its second dimension and its rows. *)
Record ndarray := mkArray { ncols : nat; rows : list (list Float) }.

(** [len(X)] *)
Definition len (X : ndarray) : nat := length (rows X).

(** [np.concatenate((a, b), axis=0)] *)
Definition np_concatenate (a b : ndarray) : exn + ndarray :=
  if Nat.eqb (ncols a) (ncols b)
  then inr {| ncols := ncols a; rows := rows a ++ rows b |}
  else inl (Raise ValueError "all the input array dimensions except for the concatenation axis must match exactly").

(** [for i in range(n): y.append('other')] *)
Definition append_other (n : nat) (y : list string) : list string :=
  fold_left (λ y _, (y ++ ["other"])%list) (seq 0 n) y.

(** One split: the label column of the CSV, the SF archive and the
    archive of the 'other' class. *)
Definition load_split (y_csv : list string) (X_sf X_other : ndarray)
  : exn + (ndarray * list string) :=
  match np_concatenate X_sf X_other with
  | inl e => inl e
  | inr X => inr (X, append_other (len X_other) y_csv)
  end.

(** What the script reads from disk. *)
Record Inputs := mkInputs {
  Y_Train_SF : list string;  SF_Train_ProtT5 : ndarray;  Other_Train_US : ndarray;
  Y_Val_SF : list string;    SF_Val_ProtT5 : ndarray;    Other_Val_US : ndarray;
  Y_Test_SF : list string;   SF_Test_ProtT5 : ndarray;   Other_Test_US : ndarray;
}.

Record Splits := mkSplits {
  X_train : ndarray;  y_train : list string;
  X_val : ndarray;    y_val : list string;
  X_test : ndarray;   y_test : list string;
}.

(** Lines 14-55 *)
Definition load (i : Inputs) : exn + Splits :=
  match load_split (Y_Train_SF i) (SF_Train_ProtT5 i) (Other_Train_US i) with
  | inl e => inl e
  | inr (Xtr, ytr) =>
      match load_split (Y_Val_SF i) (SF_Val_ProtT5 i) (Other_Val_US i) with
      | inl e => inl e
      | inr (Xv, yv) =>
          match load_split (Y_Test_SF i) (SF_Test_ProtT5 i) (Other_Test_US i) with
          | inl e => inl e
          | inr (Xte, yte) =>
              inr {| X_train := Xtr; y_train := ytr; X_val := Xv; y_val := yv;
                     X_test := Xte; y_test := yte |}
          end
      end
  end.

End Load.

Arguments ndarray : clear implicits.
Arguments Inputs : clear implicits.
Arguments Splits : clear implicits.

End LogregProtT5.

(** ** predict_embed.py *)

Module PredictEmbed.

(** What [parse_args] returns: the attributes the parser defines. *)
Abbreviation Namespace := (gmap string string).

(** [args.name] *)
Definition getattr (args : Namespace) (name : string) : exn + string :=
  match args !! name with
  | Some v => inr v
  | None => inl (Raise AttributeError
                   ("'Namespace' object has no attribute '" ++ name ++ "'"))
  end.

(** The two [add_argument] calls: option string, destination, choices,
    default. *)
Definition arguments : list (string * (string * (list string * string))) :=
  [ ("--model", ("model", (["ProtT5"; "ProstT5"], "ProtT5")));
    ("--input_type", ("input_type", (["AA"; "AA+3Di"], "AA"))) ].

Definition defaults : Namespace :=
  list_to_map ((λ a, (a.2.1, a.2.2.2)) <$> arguments).

(** The long option strings of the parser, [--help] included. *)
Definition option_strings : list string := "--help" :: (fst <$> arguments).

(** The argument an option string selects: the one it names, or the only
    one it abbreviates; none for [--help], which prints the help and
    exits. *)
Definition find_argument (opt : string) : option (string * (list string * string)) :=
  match List.find (λ a, bool_decide (a.1 = opt)) arguments with
  | Some a => Some a.2
  | None =>
      if String.prefix "--" opt
      then match List.filter (λ o, String.prefix opt o) option_strings with
           | [o] => snd <$> List.find (λ a, bool_decide (a.1 = o)) arguments
           | _ => None
           end
      else None
  end.

(** [arg.split('=', 1)] *)
Fixpoint split_eq (arg : string) : string * option string :=
  match arg with
  | EmptyString => (EmptyString, None)
  | String c rest =>
      if Ascii.eqb c "="
      then (EmptyString, Some rest)
      else let '(opt, value) := split_eq rest in (String c opt, value)
  end.

(** [parser.parse_args()] on command lines made of options written
    [--option value] or [--option=value], the option in full or
    abbreviated; [None] when argparse prints a message and exits (the help,
    an option it does not know, a value outside the choices, a missing
    value, anything else on the command line). *)
Fixpoint parse (argv : list string) (ns : Namespace) : option Namespace :=
  match argv with
  | [] => Some ns
  | arg :: rest =>
      let '(opt, explicit) := split_eq arg in
      match find_argument opt with
      | Some (dest, (choices, _)) =>
          match explicit with
          | Some value =>
              if bool_decide (value ∈ choices)
              then parse rest (<[dest := value]> ns)
              else None
          | None =>
              match rest with
              | value :: rest' =>
                  if bool_decide (value ∈ choices)
                  then parse rest' (<[dest := value]> ns)
                  else None
              | [] => None
              end
          end
      | None => None
      end
  end.

Definition parse_args (argv : list string) : option Namespace :=
  parse argv defaults.

Class Externals := {
  Embedding : Type;
  (** [ProtTransT5BFDEmbedder()] *)
  load_embedder : exn + unit;
  (** the ["Sequence"] column [pd.read_csv] finds in the text of a file *)
  read_sequences : string → exn + list string;
  (** [np.mean(np.asarray(embedder.embed(seq)), axis=0)] *)
  embed_mean : string → exn + Embedding;
  (** the bytes [np.savez_compressed] writes *)
  savez : list Embedding → string;
}.

Section Script.
Context `{Ext : Externals}.
(** The 3Di step; the properties below hold whatever it does. *)
Variable embed_3Di : string → M unit.

(** [for seq in sequences: embeddings.append(...)] *)
Fixpoint embed_each (sequences : list string) (embeddings : list Embedding)
  : exn + list Embedding :=
  match sequences with
  | [] => inr embeddings
  | seq :: rest =>
      match embed_mean seq with
      | inl e => inl e
      | inr v => embed_each rest (embeddings ++ [v])
      end
  end.

(** The [while i < num_seq] loop.  [i] grows by [length] at each
    iteration, so [num_seq] iterations are enough; [fuel] bounds them.
    [start / length] is a float division of a multiple of 1000 by 1000,
    printed with one decimal. *)
Fixpoint embed_loop (fuel : nat) (sequences_Example : list string) (i : nat) : M unit :=
  let num_seq := length sequences_Example in
  let length := 1000 in
  match fuel with
  | O => ret tt
  | S fuel' =>
      if Nat.ltb i num_seq then
        print ("Doing " ++ pretty i ++ " " ++ pretty num_seq) ;;
        let start := i in
        let end_ := i + length in
        let sequences := take (end_ - start) (drop start sequences_Example) in
        let* embeddings := lift (embed_each sequences []) in
        let s_no := pretty (start / length) ++ ".0" in
        let filename := "./src/cathe-predict/Embeddings/" ++ "T5_" ++ s_no ++ ".npz" in
        open_w filename (savez embeddings) ;;
        embed_loop fuel' sequences_Example (i + length)
      else ret tt
  end.

Definition yellow : string := String (ascii_of_nat 27) "[93m".
Definition reset : string := String (ascii_of_nat 27) "[0m".

Definition embed_sequence : M unit :=
  print (yellow ++ "Loading ProtT5 model. (can take a few minutes)" ++ reset) ;;
  lift load_embedder ;;
  let* ds := read_file "./src/cathe-predict/Dataset.csv" in
  let* sequences_Example := lift (read_sequences ds) in
  embed_loop (length sequences_Example) sequences_Example 0.

(** Lines 138-148 of [main], once the arguments are parsed. *)
Definition run (args : Namespace) : M unit :=
  let* input_type := lift (getattr args "input_type") in
  if bool_decide (input_type = "AA") then
    embed_sequence
  else if bool_decide (input_type = "AA+3Di") then
    embed_sequence ;;
    let* pdb_path := lift (getattr args "pdb_path") in
    embed_3Di pdb_path
  else
    print "Invalid input type".

(** [main]: [None] when argparse exits before anything runs. *)
Definition main (argv : list string) (w : World) : option ((exn + unit) * World) :=
  match parse_args argv with
  | Some args => Some (run args w)
  | None => None
  end.

End Script.

End PredictEmbed.

(** ** A small concrete environment

    Structure files are written as a run of three-letter residue names (one
    model numbered 0, one chain named A, residues numbered from 1; HOH is a
    hetero residue).  It serves to run the scripts on concrete inputs. *)

Module Demo.
Import Get3Di.

Definition seq1 (name : string) : string :=
  if bool_decide (name = "ALA") then "A"
  else if bool_decide (name = "CYS") then "C"
  else if bool_decide (name = "GLY") then "G"
  else if bool_decide (name = "SER") then "S"
  else "X".

Fixpoint residues_of (n : Z) (text : string) : list Residue :=
  match text with
  | String a (String b (String c rest)) =>
      let name := String a (String b (String c EmptyString)) in
      {| r_id := (if bool_decide (name = "HOH") then "W" else " ", n, " ");
         resname := name |} :: residues_of (n + 1) rest
  | _ => []
  end.

Definition pdb_parse (text : string) : exn + Structure :=
  match text with
  | EmptyString => inr []
  | _ => inr [ {| m_id := 0; m_chains := [ {| c_id := "A"; c_residues := residues_of 1 text |} ] |} ]
  end.

Definition pdb_save (structure : Structure) (accept : FullId → bool) : string :=
  foldr String.append ""
    (model ← structure; chain ← m_chains model;
     residue ← c_residues chain;
     if accept (m_id model, c_id chain, r_id residue) then [resname residue] else []).

Definition http_get (n : nat) (url : string) : exn + Response :=
  if bool_decide (url = pdb_url "1abc")
  then inr {| status_code := 200; reason := "OK"; response_url := url;
              text := "SERALAHOHCYSGLY" |}
  else if bool_decide (url = pdb_url "2xyz")
  then inr {| status_code := 404; reason := "Not Found"; response_url := url;
              text := "Not Found" |}
  else inl (Raise (PyError "ConnectionError") url).

(** A foldseek that works: [createdb] makes the database files,
    [lndb] links one to another, [convert2fasta] writes the FASTA file. *)
Definition foldseek (command : string) (files : gmap string string)
  : CompletedProcess * gmap string string :=
  let ok := {| returncode := 0; cp_stdout := ""; cp_stderr := "" |} in
  match String.words command with
  | ["foldseek"; "createdb"; dir; db] =>
      (ok, <[db ++ "_a3m" := ""]> (<[db ++ "_ss" := ">" ++ dir ++ nl]> (<[db ++ "_h" := dir]> files)))
  | ["foldseek"; "lndb"; a; b] =>
      (ok, <[b := default "" (files !! a)]> files)
  | ["foldseek"; "convert2fasta"; a; out] =>
      (ok, <[out := default "" (files !! a)]> files)
  | _ => ({| returncode := 2; cp_stdout := ""; cp_stderr := "usage" |}, files)
  end.

(** A machine without foldseek. *)
Definition no_foldseek (command : string) (files : gmap string string)
  : CompletedProcess * gmap string string :=
  ({| returncode := 127; cp_stdout := ""; cp_stderr := "foldseek: command not found" |},
   files).

Definition row_ok : Row :=
  {| row_id := 0; Sequence := Str "AXC"; Domain := Str "1abcA00" |}.
Definition row_404 : Row :=
  {| row_id := 1; Sequence := Str "GG"; Domain := Str "2xyzA00" |}.
Definition row_short : Row :=
  {| row_id := 2; Sequence := Str "AC"; Domain := Str "1abc" |}.
Definition row_model : Row :=
  {| row_id := 3; Sequence := Str "AG"; Domain := Str "1abcA0x" |}.
Definition row_mismatch : Row :=
  {| row_id := 4; Sequence := Str "CA"; Domain := Str "1abcA00" |}.
Definition row_no_sequence_short : Row :=
  {| row_id := 6; Sequence := NaN; Domain := Str "1abc" |}.
Definition row_no_domain : Row :=
  {| row_id := 7; Sequence := Str "AC"; Domain := NaN |}.

Definition read_csv (content : string) : exn + list Row :=
  if bool_decide (content = "train") then inr [row_ok; row_404; row_mismatch]
  else if bool_decide (content = "bad") then inr [row_ok; row_short]
  else inl (Raise (PyError "ParserError") content).

Definition to_csv (results : list Result) : string :=
  foldr String.append ""
    (("sequence_id,pdb_file" ++ nl)
       :: ((λ r, pretty (sequence_id r) ++ "," ++ default "" (pdb_file r) ++ nl) <$> results)).

(** Two schedulers: one task at a time in submission order; or all tasks
    started, the last started finishing first. *)
Definition one_at_a_time (p : Pool) : Action := Finish 0.
Definition last_first (p : Pool) : Action :=
  match queue p with
  | [] => Finish (length (running p) - 1)
  | _ => Start
  end.

Definition env (sched : Pool → Action)
           (sh : string → gmap string string → CompletedProcess * gmap string string)
  : Externals :=
  {| Get3Di.seq1 := seq1; Get3Di.pdb_parse := pdb_parse; Get3Di.pdb_save := pdb_save;
     Get3Di.http_get := http_get; Get3Di.shell := sh;
     Get3Di.read_csv := read_csv; Get3Di.to_csv := to_csv;
     Get3Di.scheduler := sched |}.

Definition empty_world : World :=
  {| fs := ∅; dirs := ∅; stdout := []; requests := [] |}.

Definition world_with (files : list (string * string)) : World :=
  {| fs := list_to_map files; dirs := ∅; stdout := []; requests := [] |}.

(** A world with directories and files. *)
Definition world_in (made : list string) (files : list (string * string)) : World :=
  {| fs := list_to_map files; dirs := list_to_set made; stdout := []; requests := [] |}.

(** For predict_embed.py: an embedding is the length of the sequence. *)
Definition embedder : PredictEmbed.Externals :=
  {| PredictEmbed.Embedding := nat;
     PredictEmbed.load_embedder := inr tt;
     PredictEmbed.read_sequences := λ content, inr (String.words content);
     PredictEmbed.embed_mean := λ seq, inr (String.length seq);
     PredictEmbed.savez := λ l, foldr String.append "" ((λ n, pretty n ++ ";") <$> l) |}.

End Demo.

(** ** The label encoding of ann_TM_Vec.py and logreg_prott5.py *)

Module Labels.

Section Encoding.
(** [LabelEncoder().fit(y).classes_] and [np.unique(y)]: the distinct labels
    of [y], in the order the library gives them. *)
Variables (classes_ np_unique : list string → list string).

(** The three loops [for i in range(len(y)): y_tot.append(y[i])]. *)
Definition append_all (y : list string) (y_tot : list string) : exn + list string :=
  foldl (λ acc i,
           match acc with
           | inl e => inl e
           | inr y_tot =>
               match y !! i with
               | Some label => inr (y_tot ++ [label])%list
               | None => inl (Raise IndexError "list index out of range")
               end
           end)
        (inr y_tot) (seq 0 (length y)).

Definition y_process (y_train y_val y_test : list string) : exn + list string :=
  match append_all y_train []%list with
  | inl e => inl e
  | inr y_tot =>
      match append_all y_val y_tot with
      | inl e => inl e
      | inr y_tot => append_all y_test y_tot
      end
  end.

(** The position of a label among the classes. *)
Fixpoint position (label : string) (classes : list string) : option nat :=
  match classes with
  | [] => None
  | c :: rest => if bool_decide (c = label) then Some 0 else S <$> position label rest
  end.

(** [le.transform(y)]: the position of each label among the classes;
    [ValueError] for a label that was not fitted. *)
Fixpoint transform (classes : list string) (y : list string) : exn + list nat :=
  match y with
  | [] => inr []
  | label :: rest =>
      match position label classes with
      | None => inl (Raise ValueError ("y contains previously unseen labels: " ++ label))
      | Some code =>
          match transform classes rest with
          | inl e => inl e
          | inr codes => inr (code :: codes)
          end
      end
  end.

Record Encoded := mkEncoded {
  enc_train : list nat;
  enc_val : list nat;
  enc_test : list nat;
  num_classes : nat;
}.

(** Lines 81-100 of ann_TM_Vec.py, 57-76 of logreg_prott5.py; the two
    [print]s are left out. *)
Definition encode (y_train y_val y_test : list string) : exn + Encoded :=
  match y_process y_train y_val y_test with
  | inl e => inl e
  | inr y_tot =>
      let classes := classes_ y_tot in
      match transform classes y_train with
      | inl e => inl e
      | inr train =>
          match transform classes y_val with
          | inl e => inl e
          | inr val =>
              match transform classes y_test with
              | inl e => inl e
              | inr test =>
                  inr {| enc_train := train; enc_val := val; enc_test := test;
                         num_classes := length (np_unique y_tot) |}
              end
          end
      end
  end.

(** [math.ceil(len(X_train) / bs)], the [steps_per_epoch] of [model.fit],
    for lengths a float holds exactly. *)
Definition steps_per_epoch (n bs : nat) : nat := (n + bs - 1) / bs.

End Encoding.

End Labels.

(** ** run_ann_tests.py *)

Module RunAnnTests.

Section Script.
Context {Value : Type}.
(** [x == y] on parameter values, and the text an f-string gives them. *)
Variables (py_eq : Value → Value → bool) (format : Value → string).
(** [os.system(command)] on a file system: the exit status and the files
    it leaves. *)
Variable system : string → gmap string string → Z * gmap string string.

Definition Combination : Type := Value * Value * Value * Value * Value * Value.

(** [itertools.product] of six lists: the last list varies fastest. *)
Definition product (dropout_values layer_size_values nb_layer_block_values
                    input_type_values pLDDT_threshold_values model_values : list Value)
  : list Combination :=
  concat (map (λ dropout,
  concat (map (λ layer_size,
  concat (map (λ nb_layer_block,
  concat (map (λ input_type,
  concat (map (λ pLDDT_threshold,
          map (λ model,
                 (dropout, layer_size, nb_layer_block, input_type, pLDDT_threshold, model))
              model_values)
    pLDDT_threshold_values))
    input_type_values))
    nb_layer_block_values))
    layer_size_values))
    dropout_values).

Definition tuple_eq (t u : Combination) : bool :=
  let '(t1, t2, t3, t4, t5, t6) := t in
  let '(u1, u2, u3, u4, u5, u6) := u in
  py_eq t1 u1 && py_eq t2 u2 && py_eq t3 u3 && py_eq t4 u4 && py_eq t5 u5 && py_eq t6 u6.

(** [combination in combinations_to_skip] *)
Definition skipped (combination : Combination) (combinations_to_skip : list Combination) : bool :=
  existsb (λ entry, tuple_eq entry combination) combinations_to_skip.

Definition command (script_path : string) (combination : Combination) : string :=
  let '(dropout, layer_size, nb_layer_block, input_type, pLDDT_threshold, model) :=
    combination in
  "python " ++ script_path ++ " --classifier_input " ++ format input_type ++
  " --dropout " ++ format dropout ++ " " ++
  "--layer_size " ++ format layer_size ++
  " --nb_layer_block " ++ format nb_layer_block ++ " " ++
  "--pLDDT_threshold " ++ format pLDDT_threshold ++ " --model " ++ format model.

Definition os_system (cmd : string) : M Z :=
  λ w, let '(status, files) := system cmd (fs w) in
       (inr status, set_fs (λ _, files) w).

Definition run_script_with_combinations (script_path : string)
           (dropout_values layer_size_values nb_layer_block_values
            input_type_values pLDDT_threshold_values model_values : list Value)
           (combinations_to_skip : option (list Combination)) : M unit :=
  let combinations_to_skip :=
    match combinations_to_skip with
    | None => nil
    | Some l => l
    end in
  let combinations :=
    product dropout_values layer_size_values nb_layer_block_values
            input_type_values pLDDT_threshold_values model_values in
  for_each combinations
    (λ combination,
       if skipped combination combinations_to_skip
       then ret tt
       else
         let command := command script_path combination in
         print ("Running: " ++ command) ;;
         let* _ := os_system command in
         ret tt).

End Script.

End RunAnnTests.

(** ** predict_embed.py: the 3Di step *)

Module Predict3Di.

(** [s.endswith(suffix)] *)
Definition endswith (s suffix : string) : bool :=
  let n := String.length s in
  let m := String.length suffix in
  Nat.leb m n && String.eqb (slice_from (n - m) s) suffix.

(** [s.rfind(c)] for a character [c]; [None] stands for -1. *)
Fixpoint rfind (c : ascii) (s : string) : option nat :=
  match s with
  | EmptyString => None
  | String a rest =>
      match rfind c rest with
      | Some i => Some (S i)
      | None => if Ascii.eqb a c then Some 0 else None
      end
  end.

Fixpoint all_dots (s : string) : bool :=
  match s with
  | EmptyString => true
  | String c rest => Ascii.eqb c "." && all_dots rest
  end.

(** [os.path.splitext(p)[0]]: [p] without its extension; the dots a file
    name starts with do not begin an extension. *)
Definition splitext_root (p : string) : string :=
  match rfind "." p with
  | None => p
  | Some dotIndex =>
      let filenameIndex :=
        match rfind "/" p with
        | None => 0
        | Some sepIndex => S sepIndex
        end in
      if Nat.leb filenameIndex dotIndex
      then if all_dots (slice_to (dotIndex - filenameIndex) (slice_from filenameIndex p))
           then p
           else slice_to dotIndex p
      else p
  end.

(** [f.readlines()] on the text of a file: its lines, each with the line
    feed that ends it. *)
Fixpoint readlines (content : string) : list string :=
  match content with
  | EmptyString => nil
  | String c rest =>
      if Ascii.eqb c "010" then String c EmptyString :: readlines rest
      else match readlines rest with
           | nil => String c EmptyString :: nil
           | line :: lines => String c line :: lines
           end
  end.

(** Lines 91-92: spaces become underscores in header lines. *)
Definition rewrite_line (line : string) : string :=
  if String.prefix ">" line then replace line " " "_" else line.

(** Lines 89-93: what the loop writes to the file it opened. *)
Definition rewrite_headers (fasta_content : list string) : string :=
  fold_left (λ written line, written ++ rewrite_line line) fasta_content "".

(** [shutil.rmtree(path, ignore_errors=True)]: the directory [path] goes
    with what lies under it; a [path] that is a file stays, the error being
    ignored. *)
Definition rmtree (path : string) : M unit :=
  λ w, (inr tt,
        {| fs := filter (λ kv : string * string, String.prefix (path ++ "/") kv.1 = false)
                        (fs w);
           dirs := filter (λ made, made ≠ path ∧ String.prefix (path ++ "/") made = false)
                          (dirs w);
           stdout := stdout w; requests := requests w |}).

(** [handle.write(text)] on the handle opened for writing at [path]: the
    text is appended to the file, unless the file was removed since. *)
Definition handle_write (path text : string) : M unit :=
  λ w, match fs w !! path with
       | Some content => (inr tt, set_fs (insert path (content ++ text)) w)
       | None => (inr tt, w)
       end.

Definition is_CalledProcessError (e : exn) : bool :=
  match exn_cls e with
  | PyError name => String.eqb name "CalledProcessError"
  | _ => false
  end.

(** [try: body except subprocess.CalledProcessError as e: handler e] *)
Definition try_except_CalledProcessError {A} (body : M A) (handler : exn → M A) : M A :=
  λ w, match body w with
       | (inl e, w') => if is_CalledProcessError e then handler e w' else (inl e, w')
       | (inr a, w') => (inr a, w')
       end.

Section Script.
(** A shell command on a file system: its exit status and the files it
    leaves. *)
Variable shell : string → gmap string string → Z * gmap string string.
(** [str(e)] for the [CalledProcessError] of a command and its exit
    status. *)
Variable error_text : string → Z → string.

(** [subprocess.run(command, shell=True, check=True, ...)] *)
Definition subprocess_run_check (command : string) : M unit :=
  λ w, let '(returncode, files) := shell command (fs w) in
       let w' := set_fs (λ _, files) w in
       if Z.eqb returncode 0 then (inr tt, w')
       else (inl (Raise (PyError "CalledProcessError") (error_text command returncode)), w').

Definition createdb_command (pdb_file_path db_output : string) : string :=
  "foldseek createdb " ++ pdb_file_path ++ " " ++ db_output.

Definition convert2fasta_command (db_output fasta_output : string) : string :=
  "foldseek convert2fasta " ++ db_output ++ " " ++ fasta_output.

(** The body of the loop over the PDB files, lines 70-106. *)
Definition extract_one (pdb_folder_path output_dir combined_fasta_output
                        pdb_filename : string) : M unit :=
  let pdb_file_path := path_join pdb_folder_path pdb_filename in
  let file_name_3Di_sequence := splitext_root pdb_filename ++ ".fasta" in
  let fasta_output := path_join output_dir file_name_3Di_sequence in
  let db_output := path_join output_dir "pdb_db" in
  try_except_CalledProcessError
    (subprocess_run_check (createdb_command pdb_file_path db_output) ;;
     subprocess_run_check (convert2fasta_command db_output fasta_output) ;;
     let* content := read_text fasta_output in
     let fasta_content := readlines content in
     open_w fasta_output (rewrite_headers fasta_content) ;;
     let* text := read_text fasta_output in
     handle_write combined_fasta_output text ;;
     remove fasta_output ;;
     rmtree db_output ;;
     print ("3Di sequence for " ++ pdb_filename ++
            " extracted and added to combined file."))
    (λ e, print ("An error occurred during 3Di computation for " ++ pdb_filename ++
                 ": " ++ exn_msg e)).

Definition get_3di_sequences (pdb_folder_path output_dir : string) : M unit :=
  makedirs output_dir ;;
  let* entries := listdir pdb_folder_path in
  let pdb_files := List.filter (λ f, endswith f ".pdb") entries in
  match pdb_files with
  | nil =>
      raise (Raise FileNotFoundError
        "No PDB files found. If the selected input_type is AA+3Di, provide PDB files in ./src/cathe-predict/pdb_folder, from which 3Di sequences will be extracted.")
  | _ =>
      let combined_fasta_output := path_join output_dir "combined_3di_sequences.fasta" in
      open_w combined_fasta_output "" ;;
      for_each pdb_files
        (extract_one pdb_folder_path output_dir combined_fasta_output) ;;
      print ("All 3Di sequences have been combined into " ++ combined_fasta_output ++ ".")
  end.

Definition embed_command (output_dir : string) : string :=
  "python ./src/all/models/all_models/embed_all_models.py --model ProstT5_full --is_3Di 1 --embed_path ./src/cathe-predict/Embeddings/3Di_embeddings.npz --seq_path " ++ output_dir.

Definition embed_3Di (pdb_path : string) : M unit :=
  let output_dir := "./src/cathe-predict/3Di_sequence_folder" in
  get_3di_sequences pdb_path output_dir ;;
  try_except_CalledProcessError
    (subprocess_run_check (embed_command output_dir) ;;
     print "Embedding 3Di sequence with ProstT5_full completed successfully.")
    (λ e, print ("An error occurred during 3Di embedding: " ++ exn_msg e)).

End Script.

End Predict3Di.

(** * Vocabulary of the properties *)

Local Open Scope nat_scope.
Local Open Scope list_scope.

(** ** Tactics for the monad of effects *)

Ltac unfold_M :=
  unfold Os.bind, Os.ret, Os.raise, Os.lift, Os.try_except, Os.print,
    Os.read_file, Os.write_file, Os.remove, Os.makedirs in *.

(** ** Batches *)

Section GeneratorSpec.
Context {Sample : Type}.
Variable num_classes : nat.

(** A vector of [num_classes] entries, all 0 except a single 1 at [pos]. *)
Definition one_hot (v : list Z) (pos : nat) : Prop :=
  length v = num_classes ∧
  ∀ p, p < num_classes → v !! p = Some (if decide (p = pos) then 1%Z else 0%Z).

(** The position read at an iteration: [val] after its reset. *)
Definition wrap (n val : nat) : nat := if Nat.eqb val n then 0 else val.

(** The [i]-th sample appended by the loop, counted from the [g]-th
    sample the generator ever produced. *)
Definition sample_ok (X_t : list Sample) (y_t : list nat) (g : nat)
           (X_new : list Sample) (y_new : list (list Z)) (i : nat) : Prop :=
  ∃ x label y_enc,
    X_t !! ((g + i) mod length X_t) = Some x ∧
    y_t !! ((g + i) mod length X_t) = Some label ∧
    X_new !! i = Some x ∧ y_new !! i = Some y_enc ∧ one_hot y_enc label.

End GeneratorSpec.

(** ** Splits *)

Section LoadSpec.
Import LogregProtT5.
Context {Float : Type}.

(** [X], [y] hold the SF embeddings with their CSV labels, in CSV order,
    followed by the embeddings of the 'other' archive, each labelled
    'other'. *)
Definition aligned (y_csv : list string) (X_sf X_other X : ndarray Float) y : Prop :=
  len X = length y ∧
  len X = len X_sf + len X_other ∧
  (∀ i, i < len X_sf →
        rows X !! i = rows X_sf !! i ∧ y !! i = y_csv !! i) ∧
  (∀ i, i < len X_other →
        rows X !! (len X_sf + i) = rows X_other !! i ∧
        y !! (len X_sf + i) = Some "other"%string).

End LoadSpec.

(** ** The 3Di pipeline *)

Section PipelineSpec.
Import Get3Di.
Context `{Ext : Externals}.

(** [sequence] with every 'X' character removed. *)
Fixpoint remove_X (sequence : string) : string :=
  match sequence with
  | EmptyString => EmptyString
  | String c s => if Ascii.eqb c "X" then remove_X s else String c (remove_X s)
  end.

(** The one-letter codes of the standard residues of a chain, in chain
    order. *)
Definition is_standard (residue : Residue) : Prop := (r_id residue).1.1 = " "%string.

Definition join (l : list string) : string := foldr String.append EmptyString l.

Definition chain_codes (chain : Chain) : string :=
  join ((λ residue, seq1 (resname residue)) <$> filter is_standard (c_residues chain)).

(** The chains named [chain_id] of the models numbered [model_id]. *)
Definition selected_chains (structure : Structure) (chain_id : string) (model_id : Z)
  : list Chain :=
  concat ((λ model, filter (λ chain, c_id chain = chain_id) (m_chains model))
            <$> filter (λ model, m_id model = model_id) structure).

Definition standard_codes (structure : Structure) (chain_id : string) (model_id : Z)
  : string :=
  join (chain_codes <$> selected_chains structure chain_id model_id).

(** The path and the text of the file [trim_pdb] writes. *)
Definition trimmed_path (pdb_file_path : string) : string :=
  Py.replace pdb_file_path ".pdb" "_trimmed.pdb".

Definition trimmed_text (structure : Structure) (sequence chain_id : string)
           (model_id : Z) : string :=
  pdb_save structure
           (TrimSelect (seq_residues (scan_structure structure sequence chain_id model_id))).

(** The [Domain] field has a fifth character and an integer after it. *)
Definition well_formed (domain : string) : bool :=
  bool_decide (is_Some (String.get 4 domain))
  && bool_decide (is_Some (Py.int_opt (slice_from 5 domain))).

(** The text of the [Domain] cell, none for NaN. *)
Definition domain_text (row : Row) : string :=
  match Domain row with
  | Str domain => domain
  | Other _ => ""
  end.

(** The row reaches the [try] of [download_and_trim_pdb]: both cells are
    text and the [Domain] is well-formed. *)
Definition enters_try (row : Row) : bool :=
  match Sequence row, Domain row with
  | Str _, Str domain => well_formed domain
  | _, _ => false
  end.

(** Text of ASCII characters, for which the characters of a [str] are the
    characters of the model. *)
Fixpoint ascii_text (s : string) : bool :=
  match s with
  | EmptyString => true
  | String c rest => Nat.ltb (nat_of_ascii c) 128 && ascii_text rest
  end.

Definition row_url (row : Row) : string := pdb_url (slice_to 4 (domain_text row)).

Definition missing (row : Row) : Result :=
  {| sequence_id := row_id row; pdb_file := None |}.

Definition add_line (line : string) (w : World) : World :=
  {| fs := fs w; dirs := dirs w; stdout := stdout w ++ [line]; requests := requests w |}.

Definition add_request (url : string) (w : World) : World :=
  {| fs := fs w; dirs := dirs w; stdout := stdout w; requests := requests w ++ [url] |}.

(** The world once [os.makedirs] has made [path]. *)
Definition add_dir (path : string) (w : World) : World :=
  {| fs := fs w; dirs := {[ rstrip_slash path ]} ∪ dirs w; stdout := stdout w;
     requests := requests w |}.

(** Both cells of the row are text. *)
Definition text_cells (row : Row) : Prop :=
  ∃ sequence domain, Sequence row = Str sequence ∧ Domain row = Str domain.

(** The exception of the field extraction for a row that does not reach
    the [try]: [AttributeError] for a Sequence that is not text,
    [TypeError] for a Domain that is not text, [IndexError] or [ValueError]
    for a Domain that is text. *)
Definition field_error (row : Row) (e : exn) : Prop :=
  match Sequence row, Domain row with
  | Other _, _ => exn_cls e = AttributeError
  | Str _, Other _ => exn_cls e = PyError "TypeError"
  | Str _, Str _ => exn_cls e = IndexError ∨ exn_cls e = ValueError
  end.

(** The message of the [HTTPError] of [raise_for_status]. *)
Definition http_error_message (response : Response) : string :=
  (pretty (status_code response)
   ++ (if Z.ltb (status_code response) 500 then " Client Error: " else " Server Error: ")
   ++ reason response ++ " for url: " ++ response_url response)%string.

(** What the future of a row's task holds: a result carrying the row's id
    for a row that reaches the [try], the exception of the field extraction
    otherwise. *)
Definition outcome_of (row : Row) (o : exn + Result) : Prop :=
  if enters_try row
  then ∃ r, o = inr r ∧ sequence_id r = row_id row
  else ∃ e, o = inl e ∧ field_error row e.

(** The GET a row's task issues: one for a row that reaches the [try],
    none otherwise. *)
Definition urls_of (row : Row) : list string :=
  if enters_try row then [row_url row] else [].

(** The line the [except] clause for [e] prints. *)
Definition logged (e : exn) : string :=
  match exn_cls e with
  | HTTPError => ("HTTP request failed: " ++ exn_msg e)%string
  | ValueError => exn_msg e
  | _ => ("Other error occurred: " ++ exn_msg e)%string
  end.

(** The GET was answered by an exception or by an error status. *)
Definition get_failed (answer : exn + Response) : Prop :=
  match answer with
  | inl _ => True
  | inr response => (400 ≤ status_code response < 600)%Z
  end.


Definition keeps_requests {A} (m : M A) : Prop :=
  ∀ w r w', m w = (r, w') → requests w' = requests w.

(** The events still to come: a start and a finish per queued task, a
    finish per running one. *)
Definition pending (p : Pool) : nat := 2 * length (queue p) + length (running p).

Section PoolSpec.
Variable data : list Row.

(** The requests of the tasks [ts], in that order. *)
Definition task_urls (ts : list nat) : list string :=
  concat ((λ t, from_option urls_of [] (data !! t)) <$> ts).

(** What holds of every state the pool reaches from [pool_init data w0]. *)
Record pool_inv (w0 : World) (p : Pool) : Prop := mk_pool_inv {
  inv_tasks : queue p ++ running p ++ (completed p).*1 ≡ₚ seq 0 (length data);
  inv_workers : length (running p) ≤ max_workers;
  inv_outcomes :
    Forall (λ f, ∃ row, data !! f.1 = Some row ∧ outcome_of row f.2) (completed p);
  inv_requests : requests (world p) = requests w0 ++ task_urls (completed p).*1;
}.

End PoolSpec.

Definition train_csv : string := "./data/Dataset/csv/Train.csv".
Definition first_dir : string := "./data/pdb_files/Train_first".
Definition first_db : string := "./data/pdb_files/Train_first_queryDB".
Definition first_fasta : string := "./data/Dataset/3Di/Train_first.fasta".
Definition second_dir : string := "./data/pdb_files/Train_second".
Definition second_db : string := "./data/pdb_files/Train_second_queryDB".
Definition second_fasta : string := "./data/Dataset/3Di/Train_second.fasta".
Definition final_fasta : string := "./data/Dataset/3Di/Train.fasta".

(** The merge of the two FASTA files (lines 201-211). *)
Definition merge_fasta : M unit :=
  open_w final_fasta "" ;;
  let* first := read_text first_fasta in
  write_file final_fasta first ;;
  let* second := read_text second_fasta in
  write_file final_fasta (first ++ second)%string ;;
  Os.remove first_fasta ;;
  Os.remove second_fasta ;;
  print ("Merged FASTA file created at " ++ final_fasta)%string.

End PipelineSpec.

(** ** predict_embed.py *)

Section PredictSpec.
Import PredictEmbed.

(** The attributes of a parsed namespace are those of [add_argument]. *)
Definition only_declared (ns : Namespace) : Prop :=
  ∀ name, name ≠ "model"%string → name ≠ "input_type"%string → ns !! name = None.

End PredictSpec.

(** ** Concrete environments *)

Definition demo_env : Get3Di.Externals := Demo.env Demo.one_at_a_time Demo.foldseek.
Definition demo_env_last_first : Get3Di.Externals := Demo.env Demo.last_first Demo.foldseek.


(** ** Vocabulary of the further properties *)

Section ScanSpec.
Import Get3Di.
Context `{Ext : Externals}.

(** The characters of a string, each as a one-character string. *)
Fixpoint letters (s : string) : list string :=
  match s with
  | EmptyString => []
  | String c s' => String c EmptyString :: letters s'
  end.

(** The one-letter codes of all residues of a chain, hetero residues
    included, as [trim_pdb] reads them. *)
Definition codes_of (residues : list Residue) : list string :=
  (λ residue, seq1 (resname residue)) <$> residues.

(** A scan state that selected residues of one chain of one model only, and
    no more residues than it matched characters. *)
Definition scan_ok (sequence chain_id : string) (model_id : Z) (st : Scan) : Prop :=
  seq_index st ≤ String.length sequence ∧
  size (seq_residues st) ≤ seq_index st ∧
  ∀ id, id ∈ seq_residues st → id.1.1 = model_id ∧ id.1.2 = chain_id.

(** One iteration of the loop over the residues of a chain. *)
Definition scan_residue (sequence : string) (model : Z) (chain : string)
           (residue : Residue) (st : Scan) : Scan :=
  let res_name := seq1 (resname residue) in
  if Nat.ltb (seq_index st) (String.length sequence)
     && match String.get (seq_index st) sequence with
        | Some c => bool_decide (res_name = String c EmptyString)
        | None => false
        end
  then {| seq_residues := {[ (model, chain, r_id residue) ]} ∪ seq_residues st;
          seq_index := seq_index st + 1;
          untrimmed_sequence := (untrimmed_sequence st ++ res_name)%string |}
  else {| seq_residues := seq_residues st;
          seq_index := seq_index st;
          untrimmed_sequence := (untrimmed_sequence st ++ res_name)%string |}.

(** Shell commands run one after the other until one exits with a non-zero
    code: the command that failed, if any, with what it returned, and the
    files left. *)
Fixpoint run_commands (commands : list string) (files : gmap string string)
  : option (string * CompletedProcess) * gmap string string :=
  match commands with
  | [] => (None, files)
  | command :: rest =>
      let '(result, files') := shell command files in
      if Z.eqb (returncode result) 0
      then run_commands rest files'
      else (Some (command, result), files')
  end.

(** The three foldseek commands of [process_dataset]. *)
Definition foldseek_command_lines (output_dir query_db query_db_ss_fasta : string)
  : list string :=
  [ "foldseek createdb " ++ output_dir ++ " " ++ query_db;
    "foldseek lndb " ++ query_db ++ "_h " ++ query_db ++ "_ss_h";
    "foldseek convert2fasta " ++ query_db ++ "_ss " ++ query_db_ss_fasta ]%string.

(** [old] occurs in [s]. *)
Definition occurs (old s : string) : Prop :=
  ∃ a b, s = (a ++ old ++ b)%string.

(** The path of the file a row is downloaded to. *)
Definition download_path (row : Row) (output_dir : string) : string :=
  path_join output_dir
            (pretty (row_id row) ++ "_" ++ slice_to 4 (domain_text row) ++ ".pdb")%string.

(** The GET was answered, and not by an error status. *)
Definition get_ok (answer : exn + Response) (response : Response) : Prop :=
  answer = inr response ∧ (status_code response < 400 ∨ 600 ≤ status_code response)%Z.

(** A name without a slash. *)
Definition plain_name (name : string) : Prop :=
  before_char "/" name = name ∧ String.prefix "/" name = false.

End ScanSpec.

Section EmbedSpec.
Import PredictEmbed.
Context `{Ext : PredictEmbed.Externals}.

(** The archive [embed_sequence] writes for the [k]-th block of 1000
    sequences: [T5_0.0.npz], [T5_1.0.npz], ... *)
Definition chunk_file (k : nat) : string :=
  ("./src/cathe-predict/Embeddings/" ++ "T5_" ++ (pretty k ++ ".0") ++ ".npz")%string.

(** The directory of the archives. *)
Definition embeddings_dir : string := "./src/cathe-predict/Embeddings".

(** Strings of decimal digits, strings without a slash. *)
Fixpoint all_digits (s : string) : bool :=
  match s with
  | EmptyString => true
  | String c rest => is_digit c && all_digits rest
  end.

Fixpoint no_slash (s : string) : bool :=
  match s with
  | EmptyString => true
  | String c rest => negb (Ascii.eqb c "/") && no_slash rest
  end.

(** The [k]-th block of 1000 sequences. *)
Definition chunk (sequences : list string) (k : nat) : list string :=
  take 1000 (drop (1000 * k) sequences).

(** Every sequence of the list has an embedding, and [vs] are they. *)
Definition embedded (sequences : list string) (vs : list Embedding) : Prop :=
  Forall2 (λ seq v, embed_mean seq = inr v) sequences vs.

End EmbedSpec.

Section LabelSpec.

(** What the scripts rely on from [LabelEncoder.fit] and [np.unique]: the
    distinct values of the list, each once. *)
Definition distinct_values (unique : list string → list string) : Prop :=
  ∀ y, NoDup (unique y) ∧ ∀ label, label ∈ unique y ↔ label ∈ y.

(** [codes] gives, position by position, the class number of the labels
    of [y]. *)
Definition encodes (classes : list string) (y : list string) (codes : list nat) : Prop :=
  length codes = length y ∧
  ∀ i label, y !! i = Some label →
    ∃ code, codes !! i = Some code ∧ classes !! code = Some label.

(** The distinct values in ascending order, as both library functions
    return them. *)
Definition sorted_unique (y : list string) : list string :=
  merge_sort String.le (remove_dups y).

End LabelSpec.

Section SweepSpec.
Import RunAnnTests.
Context {Value : Type}.
Variables (py_eq : Value → Value → bool) (format : Value → string).
Variable system : string → gmap string string → Z * gmap string string.

(** The combinations that are run: those of the product that are not in
    the skip list, in the order of the product. *)
Definition runs (combinations_to_skip : list Combination)
           (combinations : list Combination) : list Combination :=
  filter (λ combination, skipped py_eq combination combinations_to_skip = false)
         combinations.

(** The files after the commands of [combinations] ran one after another. *)
Definition files_after (script_path : string) (combinations : list Combination)
           (files : gmap string string) : gmap string string :=
  foldl (λ files combination, (system (command format script_path combination) files).2)
        files combinations.

End SweepSpec.

Section Spec3Di.
Import Predict3Di.

(** [t] is [s] with some of its spaces turned into underscores. *)
Fixpoint underscored (s t : string) : Prop :=
  match s, t with
  | EmptyString, EmptyString => True
  | String a s', String b t' =>
      (b = a ∨ (a = " "%char ∧ b = "_"%char)) ∧ underscored s' t'
  | _, _ => False
  end.


(** Text without a carriage return. *)
Fixpoint no_cr (s : string) : bool :=
  match s with
  | EmptyString => true
  | String c rest => negb (Ascii.eqb c "013") && no_cr rest
  end.

(** What follows a carriage return, without the line feed that goes with
    it. *)
Definition skip_lf (rest : string) : string :=
  match rest with
  | String d rest' => if Ascii.eqb d "010" then rest' else rest
  | EmptyString => EmptyString
  end.


(** The paths the loop works on for one PDB file. *)
Definition fasta_path (output_dir pdb_filename : string) : string :=
  path_join output_dir (splitext_root pdb_filename ++ ".fasta")%string.
Definition db_path (output_dir : string) : string := path_join output_dir "pdb_db".
Definition combined_path (output_dir : string) : string :=
  path_join output_dir "combined_3di_sequences.fasta".

(** A foldseek that succeeds: [createdb] leaves a database file,
    [convert2fasta] a FASTA file with one record. *)
Definition demo_foldseek (command : string) (files : gmap string string)
  : Z * gmap string string :=
  if String.prefix "foldseek createdb " command
  then (0%Z, <["out/pdb_db"%string := "db"%string]> files)
  else if String.prefix "foldseek convert2fasta " command
       then (0%Z, <["out/a.fasta"%string := ">a chain A
DVLV
"%string]> files)
       else (1%Z, files).

(** A foldseek whose FASTA file has carriage returns before its line
    feeds. *)
Definition demo_foldseek_crlf (command : string) (files : gmap string string)
  : Z * gmap string string :=
  if String.prefix "foldseek createdb " command
  then (0%Z, <["out/pdb_db"%string := "db"%string]> files)
  else if String.prefix "foldseek convert2fasta " command
       then (0%Z, <["out/a.fasta"%string :=
                      (">a chain A" ++ String "013" (String "010" "DVLV")
                       ++ String "013" (String "010" ""))%string]> files)
       else (1%Z, files).

(** A shell on which every command fails. *)
Definition failing_shell (command : string) (files : gmap string string)
  : Z * gmap string string := (1%Z, files).

Definition demo_error_text (command : string) (returncode : Z) : string :=
  ("Command '" ++ command ++ "' returned non-zero exit status " ++ pretty returncode ++ ".")%string.

Definition demo_pdb_world : World :=
  {| fs := {[ "pdbs/a.pdb"%string := "ATOM"%string;
              "out/combined_3di_sequences.fasta"%string := ""%string ]};
     dirs := ∅; stdout := []; requests := [] |}.

End Spec3Di.

(** * Properties *)

(** ** The Python primitives on examples *)

Example replace_X : Py.replace "AXXCDX" "X" "" = "ACD"%string.
Proof. reflexivity. Qed.

Example replace_ext :
  Py.replace "d/7_1abc.pdb" ".pdb" "_trimmed.pdb" = "d/7_1abc_trimmed.pdb"%string.
Proof. reflexivity. Qed.

Example replace_all_occurrences :
  Py.replace "a.pdb.pdb" ".pdb" "_trimmed.pdb" = "a_trimmed.pdb_trimmed.pdb"%string ∧
  Py.replace "aaa" "aa" "b" = "ba"%string ∧
  Py.replace "abc" "" "-" = "-a-b-c-"%string.
Proof. repeat split; reflexivity. Qed.

Example int_accepts :
  Py.int_opt "02" = Some 2%Z ∧ Py.int_opt " 2 " = Some 2%Z ∧
  Py.int_opt "+2" = Some 2%Z ∧ Py.int_opt "-02" = Some (-2)%Z ∧
  Py.int_opt "0_2" = Some 2%Z ∧ Py.int_opt "1_000" = Some 1000%Z ∧
  Py.int_opt "00" = Some 0%Z.
Proof. repeat split; reflexivity. Qed.

Example int_rejects :
  Py.int_opt "" = None ∧ Py.int_opt "_2" = None ∧ Py.int_opt "2_" = None ∧
  Py.int_opt "2__3" = None ∧ Py.int_opt "2a" = None ∧ Py.int_opt "1.0" = None ∧
  Py.int_opt "+" = None ∧ Py.int_opt "- 2" = None ∧ Py.int_opt "--1" = None ∧
  Py.int_opt "0x10" = None.
Proof. repeat split; reflexivity. Qed.

Example slices :
  slice_to 4 "1abcA00" = "1abc"%string ∧ slice_to 4 "ab" = "ab"%string ∧
  slice_from 5 "1abcA00" = "00"%string ∧ slice_from 5 "abc" = ""%string ∧
  Py.index "1abcA00" 4 = inr "A"%string.
Proof. repeat split; reflexivity. Qed.

Example path_joins :
  path_join "a" "b" = "a/b"%string ∧ path_join "a/" "b" = "a/b"%string ∧
  path_join "a" "/b" = "/b"%string ∧ path_join "" "b" = "b"%string ∧
  path_join "a" "" = "a/"%string.
Proof. repeat split; reflexivity. Qed.

Example basename_train :
  Py.before_char "." (Py.basename "./data/Dataset/csv/Train.csv") = "Train"%string ∧
  Py.basename "Train.csv" = "Train.csv"%string ∧ Py.basename "a/" = ""%string ∧
  Py.before_char "." "abc" = "abc"%string.
Proof. repeat split; reflexivity. Qed.

(** ** The batch generator *)

Section GeneratorProperties.
Import AnnTMVec.
Context {Sample : Type}.
Variable num_classes : nat.

Lemma encode_one_hot label :
  label < num_classes →
  ∃ v, encode num_classes label = inr v ∧ one_hot num_classes v label.
Proof.
  intros Hlt. unfold encode. rewrite length_replicate.
  destruct (Nat.ltb_spec label num_classes) as [_|?]; [|lia].
  eexists; split; [reflexivity|]. split.
  - by rewrite length_insert, length_replicate.
  - intros p Hp. destruct (decide (p = label)) as [->|Hne].
    + rewrite list_lookup_insert_eq; [done|]. by rewrite length_replicate.
    + rewrite list_lookup_insert_ne by done.
      by apply lookup_replicate_2.
Qed.

Lemma wrap_next n g val :
  0 < n → val ≤ n → wrap n val = g mod n →
  wrap n val + 1 ≤ n ∧ wrap n (wrap n val + 1) = (g + 1) mod n.
Proof.
  intros Hn Hle Hw.
  assert (g mod n < n) by (apply Nat.mod_upper_bound; lia).
  assert ((g + 1) mod n = (wrap n val + 1) mod n) as ->.
  { rewrite Hw. by rewrite Nat.Div0.add_mod_idemp_l. }
  split; [lia|].
  unfold wrap at 1. destruct (Nat.eqb_spec (wrap n val + 1) n) as [->|Hne].
  - by rewrite Nat.Div0.mod_same.
  - rewrite Nat.mod_small; lia.
Qed.

Section Batches.
Variables (X_t : list Sample) (y_t : list nat).
Hypothesis nonempty : 0 < length X_t.
Hypothesis same_length : length y_t = length X_t.
Hypothesis labels_in_range : ∀ l, l ∈ y_t → l < num_classes.

Let n := length X_t.

Lemma fill_batch_spec j : ∀ g val X_batch y_batch,
  val ≤ n → wrap n val = g mod n →
  ∃ X_new y_new val',
    fill_batch num_classes X_t y_t j val X_batch y_batch
      = inr (X_batch ++ X_new, y_batch ++ y_new, val') ∧
    length X_new = j ∧ length y_new = j ∧
    val' ≤ n ∧ wrap n val' = (g + j) mod n ∧
    ∀ i, i < j → sample_ok num_classes X_t y_t g X_new y_new i.
Proof using nonempty same_length labels_in_range.
  induction j as [|j IH]; intros g val X_batch y_batch Hle Hw.
  - exists [], [], val. rewrite !app_nil_r, Nat.add_0_r.
    repeat split; auto. intros i Hi; lia.
  - cbn [fill_batch]. fold n. fold (wrap n val).
    assert (Hlt : wrap n val < n).
    { rewrite Hw. apply Nat.mod_upper_bound. unfold n; lia. }
    destruct (lookup_lt_is_Some_2 X_t (wrap n val) Hlt) as [x Hx].
    destruct (lookup_lt_is_Some_2 y_t (wrap n val)) as [label Hl].
    { rewrite same_length. exact Hlt. }
    unfold get_item. rewrite Hx, Hl.
    destruct (encode_one_hot label) as (y_enc & Henc & Hhot).
    { apply labels_in_range. by eapply list_elem_of_lookup_2. }
    rewrite Henc.
    destruct (wrap_next n g val) as [Hle' Hw']; [done..|].
    destruct (IH (g + 1) (wrap n val + 1) (X_batch ++ [x]) (y_batch ++ [y_enc]) Hle' Hw')
      as (X_new & y_new & val' & Heq & HlX & Hly & Hv & Hwv & Hall).
    exists (x :: X_new), (y_enc :: y_new), val'.
    rewrite Heq, <- !app_assoc. cbn [app length].
    repeat split; auto.
    + by replace (g + S j) with (g + 1 + j) by lia.
    + intros [|i] Hi.
      * exists x, label, y_enc. fold n. rewrite Nat.add_0_r, <- Hw.
        by do 4 (split; [done|]).
      * destruct (Hall i ltac:(lia)) as (x' & l' & e' & ? & ? & ? & ? & ?).
        exists x', l', e'. replace (g + S i) with (g + 1 + i) by lia.
        by do 4 (split; [done|]).
Qed.

Lemma resume_spec batch_size k : ∀ g val,
  val ≤ n → wrap n val = g mod n →
  ∃ X_batch y_batch,
    resume num_classes X_t y_t batch_size k val = inr (X_batch, y_batch) ∧
    length X_batch = batch_size ∧ length y_batch = batch_size ∧
    ∀ j, j < batch_size → sample_ok num_classes X_t y_t (g + k * batch_size) X_batch y_batch j.
Proof using nonempty same_length labels_in_range.
  induction k as [|k IH]; intros g val Hle Hw; cbn [resume];
    destruct (fill_batch_spec batch_size g val [] [] Hle Hw)
      as (X_new & y_new & val' & -> & HlX & Hly & Hv & Hwv & Hall);
    cbn [app].
  - exists X_new, y_new. by rewrite Nat.add_0_r.
  - destruct (IH (g + batch_size) val' Hv Hwv) as (Xb & yb & -> & ? & ? & Hok).
    exists Xb, yb. repeat split; auto.
    intros j Hj.
    replace (g + S k * batch_size) with (g + batch_size + k * batch_size) by lia.
    by apply Hok.
Qed.

End Batches.

(** C9. For a non-empty [X_t], labels [y_t] of the same length [n], all
    below [num_classes], and a batch size [b >= 1], the [k]-th batch the
    generator yields exists, holds exactly [b] samples, and its [j]-th
    sample is [X_t[(k*b + j) mod n]] with the one-hot encoding of
    [y_t[(k*b + j) mod n]] as its label vector. *)
Theorem bm_generator_batches (X_t : list Sample) (y_t : list nat) (b k : nat) :
  X_t ≠ [] →
  length y_t = length X_t →
  (∀ l, l ∈ y_t → l < num_classes) →
  1 ≤ b →
  ∃ X_batch y_batch,
    bm_generator num_classes X_t y_t b k = inr (X_batch, y_batch) ∧
    length X_batch = b ∧ length y_batch = b ∧
    ∀ j, j < b →
      ∃ x label y_enc,
        X_t !! ((k * b + j) mod length X_t) = Some x ∧
        y_t !! ((k * b + j) mod length X_t) = Some label ∧
        X_batch !! j = Some x ∧
        y_batch !! j = Some y_enc ∧
        one_hot num_classes y_enc label.
Proof.
  intros Hne Hlen Hlab _.
  assert (0 < length X_t) as Hpos by (destruct X_t; [done | cbn; lia]).
  unfold bm_generator.
  destruct (resume_spec X_t y_t Hpos Hlen Hlab b k 0 0) as (Xb & yb & Hr & ? & ? & Hok).
  { lia. }
  { unfold wrap. destruct (Nat.eqb_spec 0 (length X_t)); [lia|].
    by rewrite Nat.Div0.mod_0_l. }
  exists Xb, yb. repeat split; auto.
Qed.

End GeneratorProperties.

(** ** Row alignment of the loaded splits *)

Section LoadProperties.
Import LogregProtT5.
Context {Float : Type}.
Implicit Types (X : ndarray Float) (y : list string).

Lemma append_other_replicate n y :
  append_other n y = y ++ replicate n "other"%string.
Proof.
  unfold append_other.
  assert (∀ l y, fold_left (λ y (_ : nat), y ++ ["other"%string]) l y
                 = y ++ replicate (length l) "other"%string) as H.
  { induction l as [|a l IH]; intros y0; cbn.
    - by rewrite app_nil_r.
    - by rewrite IH, <- app_assoc. }
  by rewrite H, length_seq.
Qed.

Lemma load_split_aligned y_csv X_sf X_other X y :
  length y_csv = len X_sf →
  load_split y_csv X_sf X_other = inr (X, y) →
  aligned y_csv X_sf X_other X y.
Proof.
  unfold aligned, load_split, np_concatenate, len. intros Hlen Hload.
  destruct (Nat.eqb (ncols X_sf) (ncols X_other)); [|discriminate].
  injection Hload as <- <-. cbn [rows].
  rewrite append_other_replicate. split_and!.
  - by rewrite !length_app, length_replicate, Hlen.
  - by rewrite length_app.
  - intros i Hi. split; rewrite lookup_app_l; auto. lia.
  - intros i Hi. split.
    + rewrite lookup_app_r by lia. f_equal. lia.
    + rewrite <- Hlen, lookup_app_r by lia.
      apply lookup_replicate_2. lia.
Qed.

(** The loading succeeds exactly when the archives of each split have the
    same second dimension. *)
Lemma load_succeeds (i : Inputs Float) :
  ncols (SF_Train_ProtT5 i) = ncols (Other_Train_US i) →
  ncols (SF_Val_ProtT5 i) = ncols (Other_Val_US i) →
  ncols (SF_Test_ProtT5 i) = ncols (Other_Test_US i) →
  ∃ s, load i = inr s.
Proof.
  intros H1 H2 H3. unfold load, load_split, np_concatenate.
  rewrite H1, H2, H3, !Nat.eqb_refl. eauto.
Qed.

(** C6. If the label column of each split's CSV has one row per embedding
    of the split's SF archive, then, once the script has concatenated the
    'other' archive and appended its labels, every split has as many labels
    as embeddings, and the i-th label belongs to the i-th embedding: the SF
    labels in CSV order, then 'other' for each row of the 'other'
    archive. *)
Theorem logreg_splits_aligned (i : Inputs Float) (s : Splits Float) :
  length (Y_Train_SF i) = len (SF_Train_ProtT5 i) →
  length (Y_Val_SF i) = len (SF_Val_ProtT5 i) →
  length (Y_Test_SF i) = len (SF_Test_ProtT5 i) →
  load i = inr s →
  aligned (Y_Train_SF i) (SF_Train_ProtT5 i) (Other_Train_US i) (X_train s) (y_train s) ∧
  aligned (Y_Val_SF i) (SF_Val_ProtT5 i) (Other_Val_US i) (X_val s) (y_val s) ∧
  aligned (Y_Test_SF i) (SF_Test_ProtT5 i) (Other_Test_US i) (X_test s) (y_test s).
Proof.
  intros Htr Hv Hte Hload. unfold load in Hload.
  destruct (load_split (Y_Train_SF i) _ _) as [|[Xtr ytr]] eqn:E1; [discriminate|].
  destruct (load_split (Y_Val_SF i) _ _) as [|[Xv yv]] eqn:E2; [discriminate|].
  destruct (load_split (Y_Test_SF i) _ _) as [|[Xte yte]] eqn:E3; [discriminate|].
  injection Hload as <-. cbn.
  split_and!; by apply load_split_aligned.
Qed.

End LoadProperties.

(** ** The 3Di pipeline *)

(** *** Sequencing in the monad of effects *)

Lemma bind_inr {A B} (m : M A) (k : A → M B) w a w' :
  m w = (inr a, w') → Os.bind m k w = k a w'.
Proof. unfold Os.bind. by intros ->. Qed.

Lemma bind_inl {A B} (m : M A) (k : A → M B) w e w' :
  m w = (inl e, w') → Os.bind m k w = (inl e, w').
Proof. unfold Os.bind. by intros ->. Qed.

(** A computation that returned through a [bind] returned from both parts. *)
Lemma bind_returns {A B} (m : M A) (k : A → M B) w b w' :
  Os.bind m k w = (inr b, w') →
  ∃ a w1, m w = (inr a, w1) ∧ k a w1 = (inr b, w').
Proof.
  unfold Os.bind. destruct (m w) as [[e|a] w1]; [discriminate|eauto].
Qed.

Section TrimProperties.
Import Get3Di.
Context `{Ext : Externals}.

Lemma clean_sequence_remove_X sequence : clean_sequence sequence = remove_X sequence.
Proof.
  unfold clean_sequence, Py.replace.
  induction sequence as [|c s IH]; [done|].
  cbn [replace_go remove_X String.prefix String.length].
  destruct (ascii_dec "X" c) as [<-|Hne].
  - assert (String.prefix "" s = true) as -> by (by destruct s).
    cbn. exact IH.
  - destruct (Ascii.eqb_spec c "X") as [->|_]; [done|]. by rewrite IH.
Qed.

Lemma append_assoc (a b c : string) : ((a ++ b) ++ c = a ++ (b ++ c))%string.
Proof.
  induction a as [|x a IH]; [done|].
  change (String x ((a ++ b) ++ c) = String x (a ++ (b ++ c)))%string.
  by rewrite IH.
Qed.

Lemma append_nil_r (a : string) : (a ++ "")%string = a.
Proof.
  induction a as [|x a IH]; [done|].
  change (String x (a ++ "") = String x a)%string. by rewrite IH.
Qed.

Lemma join_app (l1 l2 : list string) : join (l1 ++ l2) = (join l1 ++ join l2)%string.
Proof.
  induction l1 as [|x l1 IH]; [done|].
  change (x ++ join (l1 ++ l2) = (x ++ join l1) ++ join l2)%string.
  by rewrite IH, append_assoc.
Qed.

Lemma extract_chain_codes chain acc :
  extract_chain chain acc = (acc ++ chain_codes chain)%string.
Proof.
  unfold extract_chain, chain_codes.
  revert acc. induction (c_residues chain) as [|r l IH]; intros acc.
  - cbn. by rewrite append_nil_r.
  - cbn [fold_left]. rewrite IH, filter_cons.
    destruct (decide (is_standard r)) as [Hs|Hs].
    + rewrite bool_decide_true by exact Hs. cbn. by rewrite append_assoc.
    + by rewrite bool_decide_false by exact Hs.
Qed.

Lemma extract_model_codes chain_id (chains : list Chain) acc found :
  fold_left (λ st chain,
               if bool_decide (c_id chain = chain_id)
               then (extract_chain chain st.1, true) else st)
            chains (acc, found)
  = let sel := filter (λ chain, c_id chain = chain_id) chains in
    ((acc ++ join (chain_codes <$> sel))%string,
     found || bool_decide (sel ≠ [])).
Proof.
  revert acc found. induction chains as [|ch chains IH]; intros acc found.
  - cbn. by rewrite append_nil_r, orb_false_r.
  - cbn [fold_left]. rewrite filter_cons.
    destruct (decide (c_id ch = chain_id)) as [Hc|Hc].
    + rewrite bool_decide_true by exact Hc.
      rewrite IH, extract_chain_codes. cbn.
      rewrite append_assoc, orb_true_r. by destruct found.
    + rewrite bool_decide_false by exact Hc. by rewrite IH.
Qed.

Lemma extract_structure_codes_from (structure : Structure) chain_id model_id acc found :
  fold_left (λ st model,
               if bool_decide (m_id model = model_id)
               then fold_left (λ st chain,
                                 if bool_decide (c_id chain = chain_id)
                                 then (extract_chain chain st.1, true) else st)
                              (m_chains model) st
               else st)
            structure (acc, found)
  = ((acc ++ standard_codes structure chain_id model_id)%string,
     found || bool_decide (selected_chains structure chain_id model_id ≠ [])).
Proof.
  unfold standard_codes, selected_chains.
  revert acc found. induction structure as [|model structure IH]; intros acc found.
  - cbn. by rewrite append_nil_r, orb_false_r.
  - cbn [fold_left]. rewrite filter_cons.
    destruct (decide (m_id model = model_id)) as [Hm|Hm].
    + rewrite bool_decide_true by exact Hm.
      rewrite extract_model_codes. cbn zeta. rewrite IH.
      rewrite fmap_cons. cbn [concat]. rewrite fmap_app, join_app, append_assoc.
      f_equal. rewrite <- orb_assoc. f_equal.
      destruct (filter _ (m_chains model)); [|done].
      cbn [app]. by rewrite bool_decide_false by (intros H; by apply H).
    + rewrite bool_decide_false by exact Hm. by rewrite IH.
Qed.

(** [extract_sequence_from_pdb] computes the codes of the standard residues
    of the selected chain, and finds the chain when there is one. *)
Lemma extract_structure_spec structure chain_id model_id :
  extract_structure structure chain_id model_id
  = (standard_codes structure chain_id model_id,
     bool_decide (selected_chains structure chain_id model_id ≠ [])).
Proof. unfold extract_structure. by rewrite extract_structure_codes_from. Qed.

(** [trim_pdb], step by step. *)
Lemma trim_pdb_unfold pdb_file_path sequence chain_id model_id w :
  trim_pdb pdb_file_path sequence chain_id model_id w =
  match fs w !! pdb_file_path with
  | None => (inl (Raise FileNotFoundError pdb_file_path), w)
  | Some content =>
      match pdb_parse content with
      | inl e => (inl e, w)
      | inr structure =>
          let text := trimmed_text structure sequence chain_id model_id in
          let w1 := set_fs (insert (trimmed_path pdb_file_path) text) w in
          match pdb_parse text with
          | inl e => (inl e, w1)
          | inr structure' =>
              if bool_decide (selected_chains structure' chain_id model_id ≠ [])
              then
                if bool_decide (clean_sequence sequence
                                = standard_codes structure' chain_id model_id)
                then (inr (trimmed_path pdb_file_path), w1)
                else (inl (Raise ValueError
                             ("Sequence mismatch for PDB ID " ++ pdb_file_path ++ "." ++ nl
                              ++ "CSV sequence: " ++ sequence ++ nl
                              ++ "PDB trimmed sequence: "
                              ++ standard_codes structure' chain_id model_id ++ nl
                              ++ "Untrimmed PDB sequence: "
                              ++ untrimmed_sequence
                                   (scan_structure structure sequence chain_id model_id))%string),
                      w1)
              else (inl (Raise ValueError
                           ("Chain " ++ chain_id ++ " of model " ++ pretty model_id
                            ++ " not found in PDB file "
                            ++ trimmed_path pdb_file_path)%string), w1)
          end
      end
  end.
Proof.
  unfold trim_pdb, extract_sequence_from_pdb, get_structure, compare_sequences.
  fold (trimmed_path pdb_file_path). unfold_M.
  destruct (fs w !! pdb_file_path) as [content|]; [|done].
  destruct (pdb_parse content) as [e|structure]; [done|].
  fold (trimmed_text structure sequence chain_id model_id).
  cbn [fs set_fs]. rewrite lookup_insert_eq.
  destruct (pdb_parse (trimmed_text _ _ _ _)) as [e|structure']; [done|].
  rewrite extract_structure_spec.
  destruct (bool_decide (selected_chains structure' chain_id model_id ≠ []));
    cbn [negb]; [|done].
  by destruct (bool_decide (clean_sequence sequence = _)).
Qed.

(** C1. When [trim_pdb] returns, the file it wrote parses to a structure
    that has the chain, and the one-letter codes of the standard residues
    of that chain, in chain order, are [sequence] without its 'X'
    characters.  When the file it wrote parses and those codes differ from
    that string, [trim_pdb] raises [ValueError]. *)
Theorem trim_pdb_verified pdb_file_path sequence chain_id model_id w :
  (∀ path w',
      trim_pdb pdb_file_path sequence chain_id model_id w = (inr path, w') →
      ∃ text structure',
        path = trimmed_path pdb_file_path ∧
        fs w' !! path = Some text ∧
        pdb_parse text = inr structure' ∧
        selected_chains structure' chain_id model_id ≠ [] ∧
        standard_codes structure' chain_id model_id = remove_X sequence) ∧
  (∀ content structure structure',
      fs w !! pdb_file_path = Some content →
      pdb_parse content = inr structure →
      pdb_parse (trimmed_text structure sequence chain_id model_id) = inr structure' →
      standard_codes structure' chain_id model_id ≠ remove_X sequence →
      ∃ e w',
        trim_pdb pdb_file_path sequence chain_id model_id w = (inl e, w') ∧
        exn_cls e = ValueError ∧
        fs w' !! trimmed_path pdb_file_path
          = Some (trimmed_text structure sequence chain_id model_id)).
Proof.
  rewrite trim_pdb_unfold. split.
  - intros path w' Hret.
    destruct (fs w !! pdb_file_path) as [content|]; [|discriminate].
    destruct (pdb_parse content) as [e|structure]; [discriminate|].
    cbn zeta in Hret.
    destruct (pdb_parse (trimmed_text _ _ _ _)) as [e|structure'] eqn:Hparse;
      [discriminate|].
    repeat case_bool_decide; try discriminate.
    injection Hret as <- <-.
    eexists _, structure'. split_and!; try done.
    + cbn. by rewrite lookup_insert_eq.
    + by rewrite <- clean_sequence_remove_X.
  - intros content structure structure' -> -> Hparse Hneq.
    cbn zeta. rewrite Hparse.
    rewrite (bool_decide_false (clean_sequence sequence = _))
      by (rewrite clean_sequence_remove_X; congruence).
    case_bool_decide; eexists _, _; split_and!; try done;
      cbn; by rewrite lookup_insert_eq.
Qed.

End TrimProperties.

(** *** One download task *)

Section DownloadProperties.
Import Get3Di.
Context `{Ext : Externals}.

Lemma get_short n s : String.length s ≤ n → String.get n s = None.
Proof.
  revert n. induction s as [|c s IH]; intros [|n] Hlen; cbn in *; try done; try lia.
  apply IH. lia.
Qed.

Lemma get_long n s : n < String.length s → is_Some (String.get n s).
Proof.
  revert n. induction s as [|c s IH]; intros [|n] Hlen; cbn in *; try lia; eauto.
  apply IH. lia.
Qed.

Lemma slice_from_short n s : String.length s ≤ n → slice_from n s = ""%string.
Proof.
  revert n. induction s as [|c s IH]; intros [|n] Hlen; cbn in *; try done; try lia.
  apply IH. lia.
Qed.

(** A domain is ill-formed exactly when it has fewer than 6 characters or
    what follows its fifth character is not a decimal integer. *)
Lemma well_formed_false domain :
  well_formed domain = false ↔
  String.length domain < 6 ∨ Py.int_opt (slice_from 5 domain) = None.
Proof.
  unfold well_formed. rewrite andb_false_iff, !bool_decide_eq_false.
  rewrite <- !eq_None_not_Some. split.
  - intros [Hget|Hint]; [|by right]. left.
    destruct (Nat.lt_ge_cases 4 (String.length domain)) as [Hlt|Hge]; [|lia].
    apply get_long in Hlt as [c Hc]. congruence.
  - intros [Hlen|Hint]; [|by right].
    destruct (Nat.lt_ge_cases 4 (String.length domain)) as [Hlt|Hge].
    + right. by rewrite slice_from_short by lia.
    + left. by apply get_short.
Qed.

Lemma well_formed_true domain :
  well_formed domain = true ↔
  ∃ chain model_id,
    Py.index domain 4 = inr chain ∧ Py.int (slice_from 5 domain) = inr model_id.
Proof.
  unfold well_formed, Py.index, Py.int.
  rewrite andb_true_iff, !bool_decide_eq_true. split.
  - intros [[c ->] [z ->]]. eauto.
  - intros (chain & model_id & Hc & Hz).
    destruct (String.get 4 domain); [|discriminate].
    destruct (int_opt _); [|discriminate]. eauto.
Qed.

(** [trim_pdb] issues no request. *)
Lemma trim_pdb_requests pdb_file_path sequence chain_id model_id w r w' :
  trim_pdb pdb_file_path sequence chain_id model_id w = (r, w') →
  requests w' = requests w.
Proof.
  rewrite trim_pdb_unfold. intros H.
  repeat (case_match; simplify_eq/=); done.
Qed.

(** The body of the [try], step by step. *)
(** [raise_for_status] raises on the status codes 400 to 599. *)
Lemma raise_for_status_unfold response w :
  raise_for_status response w =
  if Z.leb 400 (status_code response) && Z.ltb (status_code response) 600
  then (inl (Raise HTTPError (http_error_message response)), w)
  else (inr tt, w).
Proof.
  unfold raise_for_status, http_error_message.
  destruct (Z.leb_spec 400 (status_code response)),
           (Z.ltb_spec (status_code response) 500),
           (Z.ltb_spec (status_code response) 600); cbn; try done; try lia.
  - destruct (Z.leb_spec 500 (status_code response)); [done|lia].
  - destruct (Z.leb_spec 500 (status_code response)); [done|lia].
  - destruct (Z.leb_spec 500 (status_code response)); [lia|done].
Qed.

(** Opening a file for writing fails before any effect, or leaves the file
    with its content. *)
Lemma open_w_cases path content w :
  (∃ e, open_w path content w = (inl e, w)) ∨
  open_w path content w = (inr tt, set_fs (insert path content) w).
Proof. unfold open_w. repeat case_match; eauto. Qed.

Lemma open_w_requests path content w r w' :
  open_w path content w = (r, w') → requests w' = requests w.
Proof.
  destruct (open_w_cases path content w) as [[e ->]| ->]; by intros [= _ <-].
Qed.

(** The body of the [try], step by step. *)
Lemma download_body_unfold sequence_id sequence pdb_id chain model_id url output_dir w :
  download_body sequence_id sequence pdb_id chain model_id url output_dir w =
  let w0 := add_request url w in
  match http_get (length (requests w)) url with
  | inl e => (inl e, w0)
  | inr response =>
      if Z.leb 400 (status_code response) && Z.ltb (status_code response) 600
      then (inl (Raise HTTPError (http_error_message response)), w0)
      else
        let pdb_file_path :=
          path_join output_dir (pretty sequence_id ++ "_" ++ pdb_id ++ ".pdb")%string in
        match open_w pdb_file_path (text response) w0 with
        | (inl e, w1) => (inl e, w1)
        | (inr _, w1) =>
            match trim_pdb pdb_file_path sequence chain model_id w1 with
            | (inl e, w2) => (inl e, w2)
            | (inr trimmed, w2) =>
                match fs w2 !! pdb_file_path with
                | Some _ => (inr {| sequence_id := sequence_id; pdb_file := Some trimmed |},
                             set_fs (delete pdb_file_path) w2)
                | None => (inl (Raise FileNotFoundError pdb_file_path), w2)
                end
            end
        end
  end.
Proof.
  unfold download_body, requests_get.
  unfold Os.bind at 1. fold (add_request url w).
  destruct (http_get _ url) as [e|response]; [done|]. cbn zeta.
  unfold Os.bind at 1. rewrite raise_for_status_unfold.
  destruct (Z.leb 400 _ && Z.ltb _ 600); [done|].
  unfold Os.bind at 1.
  destruct (open_w _ _ _) as [[e|[]] w1]; [done|].
  unfold_M.
  destruct (trim_pdb _ _ _ _ _) as [[e|trimmed] w2]; [done|].
  by destruct (fs w2 !! _).
Qed.

Lemma download_body_requests sequence_id sequence pdb_id chain model_id url output_dir w r w' :
  download_body sequence_id sequence pdb_id chain model_id url output_dir w = (r, w') →
  requests w' = requests w ++ [url].
Proof.
  rewrite download_body_unfold. cbn zeta. intros H.
  destruct (http_get _ url) as [e|response]; [by simplify_eq/=|].
  destruct (Z.leb 400 _ && Z.ltb _ 600); [by simplify_eq/=|].
  destruct (open_w _ _ _) as [[e|[]] w1] eqn:Hopen;
    apply open_w_requests in Hopen; cbn in Hopen; [by simplify_eq/=|].
  destruct (trim_pdb _ _ _ _ _) as [[e|trimmed] w2] eqn:Htrim;
    apply trim_pdb_requests in Htrim; cbn in Htrim.
  - simplify_eq/=. congruence.
  - destruct (fs w2 !! _); simplify_eq/=; congruence.
Qed.

(** Each [except] clause prints one line and returns the missing result. *)
Lemma download_handler_missing sequence_id e w :
  ∃ line,
    download_handler sequence_id e w
    = (inr {| sequence_id := sequence_id; pdb_file := None |}, add_line line w).
Proof.
  unfold download_handler. unfold_M.
  destruct (exn_cls e); eexists; reflexivity.
Qed.

(** [download_and_trim_pdb] on a row of text with a well-formed Domain:
    the [try] statement. *)
Lemma download_well_formed row output_dir sequence domain chain model_id w :
  Sequence row = Str sequence →
  Domain row = Str domain →
  Py.index domain 4 = inr chain →
  Py.int (slice_from 5 domain) = inr model_id →
  download_and_trim_pdb row output_dir w =
  try_except
    (download_body (row_id row) (clean_sequence sequence)
                   (slice_to 4 domain) chain model_id (row_url row) output_dir)
    (download_handler (row_id row)) w.
Proof.
  intros Hs Hd Hc Hm. unfold download_and_trim_pdb, row_url, domain_text.
  rewrite Hs, Hd. cbn [clean_sequence_cell].
  unfold Os.bind at 1, Os.lift at 1.
  unfold Os.bind at 1, Os.lift at 1. rewrite Hc.
  unfold Os.bind at 1, Os.lift at 1. by rewrite Hm.
Qed.

(** A row reaches the [try] exactly when its cells are text and the
    fields can be extracted from its Domain. *)
Lemma enters_try_true row :
  enters_try row = true ↔
  ∃ sequence domain chain model_id,
    Sequence row = Str sequence ∧ Domain row = Str domain ∧
    Py.index domain 4 = inr chain ∧ Py.int (slice_from 5 domain) = inr model_id.
Proof.
  unfold enters_try. split.
  - destruct (Sequence row) as [sequence|]; [|done].
    destruct (Domain row) as [domain|]; [|done].
    intros (chain & model_id & Hc & Hm)%well_formed_true.
    by exists sequence, domain, chain, model_id.
  - intros (sequence & domain & chain & model_id & -> & -> & Hc & Hm).
    apply well_formed_true. eauto.
Qed.

(** On an ill-formed Domain the call raises before its [try], and before
    any effect. *)
Lemma download_ill_formed row output_dir sequence domain w :
  Sequence row = Str sequence →
  Domain row = Str domain →
  well_formed domain = false →
  ∃ e, download_and_trim_pdb row output_dir w = (inl e, w) ∧
       (exn_cls e = IndexError ∨ exn_cls e = ValueError).
Proof.
  intros Hs Hd.
  unfold well_formed, download_and_trim_pdb, Py.index, Py.int.
  rewrite Hs, Hd. cbn [clean_sequence_cell].
  rewrite andb_false_iff, !bool_decide_eq_false, <- !eq_None_not_Some.
  unfold Os.bind at 1, Os.lift at 1.
  unfold Os.bind at 1, Os.lift at 1.
  destruct (String.get 4 domain) as [c|].
  - intros [?| ->]; [done|]. eexists. split; [reflexivity|]. by right.
  - intros _. eexists. split; [reflexivity|]. by left.
Qed.

(** A row that does not reach the [try] makes the call raise the exception
    of the field extraction, before any effect. *)
Lemma download_field_error row output_dir w :
  enters_try row = false →
  ∃ e, download_and_trim_pdb row output_dir w = (inl e, w) ∧ field_error row e.
Proof.
  unfold enters_try, field_error.
  destruct (Sequence row) as [sequence|type_name] eqn:Hs.
  - destruct (Domain row) as [domain|type_name] eqn:Hd.
    + intros Hwf. by apply (download_ill_formed row output_dir sequence domain).
    + intros _. unfold download_and_trim_pdb. rewrite Hs, Hd. by eexists.
  - intros _. unfold download_and_trim_pdb. rewrite Hs. by eexists.
Qed.

End DownloadProperties.

Section TaskOutcome.
Import Get3Di.
Context `{Ext : Externals}.

Lemma download_body_result sequence_id sequence pdb_id chain model_id url output_dir w r w' :
  download_body sequence_id sequence pdb_id chain model_id url output_dir w = (inr r, w') →
  Get3Di.sequence_id r = sequence_id.
Proof.
  rewrite download_body_unfold. cbn zeta. intros H.
  repeat (case_match; simplify_eq/=); done.
Qed.

Lemma download_outcome row output_dir w :
  outcome_of row (download_and_trim_pdb row output_dir w).1 ∧
  requests (download_and_trim_pdb row output_dir w).2 = requests w ++ urls_of row.
Proof.
  unfold outcome_of, urls_of.
  destruct (enters_try row) eqn:Hwf.
  - apply enters_try_true in Hwf as (sequence & domain & chain & model_id & Hs & Hd & Hc & Hm).
    rewrite (download_well_formed _ _ _ _ _ _ _ Hs Hd Hc Hm). unfold try_except.
    destruct (download_body _ _ _ _ _ _ _ w) as [[e|r] w1] eqn:Hbody.
    + destruct (download_handler_missing (row_id row) e w1) as [line ->].
      cbn. split; [eauto|]. by apply download_body_requests in Hbody.
    + cbn. split.
      * apply download_body_result in Hbody. eauto.
      * by apply download_body_requests in Hbody.
  - destruct (download_field_error row output_dir w Hwf) as (e & -> & He).
    cbn. rewrite app_nil_r. eauto.
Qed.

End TaskOutcome.

(** *** The thread pool *)

Section PoolProperties.
Import Get3Di.
Context `{Ext : Externals}.
Variables (data : list Row) (output_dir : string).

Abbreviation step := (pool_step data output_dir).

Lemma pool_init_inv w0 : pool_inv data w0 (pool_init data w0).
Proof.
  split; cbn.
  - by rewrite app_nil_r.
  - lia.
  - constructor.
  - by rewrite app_nil_r.
Qed.

Lemma start_inv w0 p p' : pool_inv data w0 p → start p = Some p' → pool_inv data w0 p'.
Proof.
  intros [Ht Hw Ho Hr]. unfold start.
  destruct (queue p) as [|t q] eqn:Hq; [done|].
  destruct (Nat.ltb_spec (length (running p)) max_workers) as [Hlt|]; [|done].
  intros [= <-]. split; cbn; try done.
  - rewrite <- Ht. cbn. rewrite <- (assoc_L (++)). cbn.
    rewrite !(assoc_L (++)). symmetry. apply Permutation_middle.
  - rewrite length_app. cbn. lia.
Qed.

Lemma finish_inv w0 k p p' :
  pool_inv data w0 p → finish data output_dir k p = Some p' → pool_inv data w0 p'.
Proof.
  intros [Ht Hw Ho Hr]. unfold finish.
  destruct (running p !! k) as [t|] eqn:Hk; [|done].
  destruct (data !! t) as [row|] eqn:Hrow; [|done].
  pose proof (download_outcome row output_dir (world p)) as [Hout Hreq].
  destruct (download_and_trim_pdb row output_dir (world p)) as [o w'].
  intros [= <-]. cbn in *. split; cbn.
  - rewrite <- Ht, fmap_app. cbn.
    apply Permutation_app_head.
    rewrite (delete_Permutation (running p) k t Hk) at 2.
    rewrite (assoc_L (++)). apply (Permutation_app_comm _ [t]).
  - rewrite length_delete by eauto. lia.
  - apply Forall_app. split; [done|]. repeat constructor. cbn. eauto.
  - rewrite Hreq, Hr, fmap_app. unfold task_urls.
    rewrite fmap_app, concat_app. cbn. by rewrite Hrow, app_nil_r, (assoc_L (++)).
Qed.

Lemma step_inv w0 p p' : pool_inv data w0 p → step p p' → pool_inv data w0 p'.
Proof.
  intros Hinv Hstep. destruct Hstep as [q q' Hs|k q q' Hf].
  - by eapply start_inv.
  - by eapply finish_inv.
Qed.

Lemma reachable_inv w0 p : rtc step (pool_init data w0) p → pool_inv data w0 p.
Proof.
  intros Hrtc. revert p Hrtc. apply (rtc_ind_r (pool_inv data w0)).
  - apply pool_init_inv.
  - intros q q' _ Hstep IH. by eapply step_inv.
Qed.

(** Every task of a reachable state has a row. *)
Lemma inv_task_row w0 p t :
  pool_inv data w0 p → t ∈ queue p ++ running p → is_Some (data !! t).
Proof.
  intros [Ht _ _ _] Hin. apply lookup_lt_is_Some.
  assert (t ∈ seq 0 (length data)) as Hseq.
  { rewrite <- Ht. rewrite (assoc_L (++)). apply elem_of_app. by left. }
  apply elem_of_seq in Hseq. lia.
Qed.

(** The scheduler's event is an event of the pool. *)
Lemma pool_next_step p p' : pool_next data output_dir p = Some p' → step p p'.
Proof.
  unfold pool_next. intros H.
  repeat (case_match; simplify_eq/=);
    eauto using step_start, step_finish.
Qed.

Lemma pool_run_rtc fuel p : rtc step p (pool_run data output_dir fuel p).
Proof.
  revert p. induction fuel as [|fuel IH]; intros p; cbn; [done|].
  destruct (pool_next data output_dir p) as [p'|] eqn:Hnext; [|done].
  eapply rtc_l; [by apply pool_next_step|apply IH].
Qed.

Lemma start_pending p p' : start p = Some p' → S (pending p') = pending p.
Proof.
  unfold start, pending. intros H.
  repeat (case_match; simplify_eq/=). rewrite length_app. cbn. lia.
Qed.

Lemma finish_pending k p p' :
  finish data output_dir k p = Some p' → S (pending p') = pending p.
Proof.
  unfold finish, pending. intros H.
  destruct (running p !! k) as [t|] eqn:Hk; [|done].
  repeat (case_match; simplify_eq/=).
  rewrite length_delete by eauto.
  apply lookup_lt_Some in Hk. lia.
Qed.

Lemma step_pending p p' : step p p' → S (pending p') = pending p.
Proof.
  intros Hstep. destruct Hstep as [q q' Hs|k q q' Hf].
  - by apply start_pending.
  - by eapply finish_pending.
Qed.

(** No deadlock: the scheduler stops only when the pool is idle. *)
Lemma pool_next_none w0 p :
  pool_inv data w0 p → pool_next data output_dir p = None → pool_idle p.
Proof.
  intros Hinv Hnone.
  assert (start p = None ∧ finish data output_dir 0 p = None) as [Hs Hf].
  { unfold pool_next in Hnone. repeat (case_match; simplify_eq/=); done. }
  assert (running p = []) as Hrun.
  { destruct (running p) as [|t r] eqn:Hr; [done|].
    destruct (inv_task_row w0 p t Hinv) as [row Hrow].
    { rewrite Hr. apply elem_of_app. right. left. }
    unfold finish in Hf. rewrite Hr in Hf.
    change ((t :: r) !! 0) with (Some t) in Hf. cbv beta iota in Hf.
    rewrite Hrow in Hf.
    by destruct (download_and_trim_pdb row output_dir (world p)). }
  split; [|done].
  unfold start in Hs. rewrite Hrun in Hs.
  destruct (queue p); [done|]. by cbn in Hs.
Qed.

(** Enough fuel empties the pool. *)
Lemma pool_run_idle w0 fuel p :
  pool_inv data w0 p → pending p ≤ fuel → pool_idle (pool_run data output_dir fuel p).
Proof.
  revert p. induction fuel as [|fuel IH]; intros p Hinv Hfuel; cbn.
  - unfold pending in Hfuel.
    split; apply length_zero_iff_nil; lia.
  - destruct (pool_next data output_dir p) as [p'|] eqn:Hnext.
    + apply pool_next_step in Hnext. apply IH.
      * by eapply step_inv.
      * apply step_pending in Hnext. lia.
    + by eapply pool_next_none.
Qed.

End PoolProperties.

(** *** Collecting the futures *)

Section CollectProperties.
Import Get3Di.
Context `{Ext : Externals}.


Lemma collect_inl futures : ∀ acc f e,
  f ∈ futures → f.2 = inl e →
  ∃ t' e', collect futures acc = inl e' ∧ (t', inl e') ∈ futures.
Proof.
  induction futures as [|[t o] futures IH]; intros acc f e Hin Hf.
  - by apply elem_of_nil in Hin.
  - destruct o as [e0|r].
    + exists t, e0. split; [done|]. left.
    + apply elem_of_cons in Hin as [->|Hin]; [done|].
      destruct (IH (acc ++ [r]) f e Hin Hf) as (t' & e' & Hc & Hin').
      exists t', e'. split; [done|]. by right.
Qed.



End CollectProperties.

(** *** Requests are issued by the download tasks only *)

Section RequestsFrame.
Import Get3Di.
Context `{Ext : Externals}.

Lemma keeps_ret {A} (a : A) : keeps_requests (Os.ret a).
Proof. intros w r w' [= _ <-]. done. Qed.

Lemma keeps_raise {A} e : keeps_requests (@Os.raise A e).
Proof. intros w r w' [= _ <-]. done. Qed.

Lemma keeps_lift {A} (x : exn + A) : keeps_requests (Os.lift x).
Proof. intros w r w' [= _ <-]. done. Qed.

Lemma keeps_bind {A B} (m : M A) (k : A → M B) :
  keeps_requests m → (∀ a, keeps_requests (k a)) → keeps_requests (Os.bind m k).
Proof.
  intros Hm Hk w r w'. unfold Os.bind.
  destruct (m w) as [[e|a] w1] eqn:E; intros H.
  - injection H as <- <-. by eapply Hm.
  - rewrite (Hk a _ _ _ H). by eapply Hm.
Qed.

Lemma keeps_try {A} (m : M A) (h : exn → M A) :
  keeps_requests m → (∀ e, keeps_requests (h e)) → keeps_requests (try_except m h).
Proof.
  intros Hm Hh w r w'. unfold try_except.
  destruct (m w) as [[e|a] w1] eqn:E; intros H.
  - rewrite (Hh e _ _ _ H). by eapply Hm.
  - injection H as <- <-. by eapply Hm.
Qed.

Lemma keeps_print line : keeps_requests (print line).
Proof. intros w r w' [= _ <-]. done. Qed.

Lemma keeps_read path : keeps_requests (read_file path).
Proof. intros w r w'. unfold read_file. case_match; intros [= _ <-]; done. Qed.

Lemma keeps_write path content : keeps_requests (write_file path content).
Proof. intros w r w' [= _ <-]. done. Qed.

Lemma keeps_remove path : keeps_requests (Os.remove path).
Proof. intros w r w'. unfold Os.remove. case_match; intros [= _ <-]; done. Qed.

Lemma keeps_makedirs path : keeps_requests (makedirs path).
Proof. intros w r w'. unfold makedirs. case_match; intros [= _ <-]; done. Qed.

Lemma keeps_listdir dir : keeps_requests (listdir dir).
Proof. intros w r w'. unfold listdir. repeat case_match; intros [= _ <-]; done. Qed.

Lemma keeps_read_text path : keeps_requests (read_text path).
Proof. intros w r w'. unfold read_text. case_match; intros [= _ <-]; done. Qed.

Lemma keeps_open_w path content : keeps_requests (open_w path content).
Proof. intros w r w'. apply open_w_requests. Qed.

Lemma keeps_for_each {A} (xs : list A) (body : A → M unit) :
  (∀ x, keeps_requests (body x)) → keeps_requests (for_each xs body).
Proof.
  intros Hb. induction xs as [|x xs IH]; cbn.
  - apply keeps_ret.
  - apply keeps_bind; auto.
Qed.

Ltac keeps_basic :=
  first [ apply keeps_print | apply keeps_ret | apply keeps_raise | apply keeps_lift
        | apply keeps_read | apply keeps_write | apply keeps_remove
        | apply keeps_makedirs | apply keeps_listdir
        | apply keeps_read_text | apply keeps_open_w ].

Lemma keeps_run_command command : keeps_requests (run_command command).
Proof.
  unfold run_command. apply keeps_bind.
  - intros w r w'. unfold subprocess_run.
    destruct (shell command (fs w)). intros [= _ <-]. done.
  - intros result. case_match;
      repeat first [ keeps_basic | apply keeps_bind; [|intros ?] ].
Qed.

Lemma keeps_foldseek output_dir query_db query_db_ss_fasta :
  keeps_requests (foldseek_phase output_dir query_db query_db_ss_fasta).
Proof.
  unfold foldseek_phase, foldseek_commands. apply keeps_try.
  - repeat first [ apply keeps_run_command | keeps_basic
                 | apply keeps_bind; [|intros ?] ].
  - intros e. apply keeps_print.
Qed.

Lemma keeps_cleanup output_dir query_db :
  keeps_requests (cleanup_phase output_dir query_db).
Proof.
  unfold cleanup_phase.
  repeat first [ keeps_basic | apply keeps_for_each; intros ?
               | apply keeps_bind; [|intros ?] ].
Qed.

End RequestsFrame.

(** *** The download phase of process_dataset *)

Section DatasetProperties.
Import Get3Di.
Context `{Ext : Externals}.
Variables (data : list Row) (output_dir : string).

Abbreviation pstep := (pool_step data output_dir).

(** The pool of [download_all] runs until it is idle. *)
Lemma download_all_run w :
  ∃ pf, rtc pstep (pool_init data w) pf ∧ pool_idle pf ∧ pool_inv data w pf ∧
        download_all data output_dir w = (collect (completed pf) [], world pf).
Proof.
  exists (pool_run data output_dir (2 * length data) (pool_init data w)).
  assert (rtc pstep (pool_init data w)
              (pool_run data output_dir (2 * length data) (pool_init data w)))
    as Hrtc by apply pool_run_rtc.
  split_and!; [done| |by apply (reachable_inv data output_dir)|done].
  apply (pool_run_idle data output_dir w); [apply pool_init_inv|].
  unfold pending, pool_init. cbn. rewrite length_seq. lia.
Qed.

Lemma idle_completed w p :
  pool_inv data w p → pool_idle p → (completed p).*1 ≡ₚ seq 0 (length data).
Proof. intros [Ht _ _ _] [Hq Hr]. by rewrite Hq, Hr in Ht. Qed.

Lemma task_urls_Permutation ts ts' :
  ts ≡ₚ ts' → task_urls data ts ≡ₚ task_urls data ts'.
Proof. intros Hp. unfold task_urls. by rewrite Hp. Qed.

Lemma task_urls_all : task_urls data (seq 0 (length data)) = concat (urls_of <$> data).
Proof.
  unfold task_urls. f_equal. apply list_eq. intros i.
  rewrite !list_lookup_fmap.
  destruct (decide (i < length data)) as [Hlt|Hge].
  - rewrite lookup_seq_lt by done. cbn.
    destruct (lookup_lt_is_Some_2 data i Hlt) as [row ->]. done.
  - rewrite lookup_seq_ge by lia. by rewrite lookup_ge_None_2 by lia.
Qed.

(** The requests issued by [download_all]: one per row that reaches the
    [try]. *)
Lemma download_all_requests w :
  ∃ issued, requests (download_all data output_dir w).2 = requests w ++ issued ∧
            issued ≡ₚ concat (urls_of <$> data).
Proof.
  destruct (download_all_run w) as (pf & _ & Hidle & Hinv & ->). cbn.
  exists (task_urls data (completed pf).*1). split; [apply Hinv|].
  rewrite <- task_urls_all. apply task_urls_Permutation.
  by eapply idle_completed.
Qed.

Lemma download_phase_unfold w :
  fs w !! output_dir = None →
  download_phase data output_dir w =
  match download_all data output_dir (add_dir output_dir w) with
  | (inl e, w1) => (inl e, w1)
  | (inr results, w1) =>
      (inr tt,
       add_line ("Download completed and results saved to " ++ output_csv_path output_dir)%string
                (set_fs (insert (output_csv_path output_dir) (to_csv results)) w1))
  end.
Proof.
  intros Hdir. unfold download_phase. unfold_M. rewrite Hdir.
  fold (add_dir output_dir w).
  by destruct (download_all data output_dir (add_dir output_dir w)) as [[e|results] w1].
Qed.

(** The download phase starts only when the output directory can be made. *)
Lemma download_phase_makedirs w w' :
  download_phase data output_dir w = (inr tt, w') → fs w !! output_dir = None.
Proof.
  unfold download_phase. unfold_M. by destruct (fs w !! output_dir).
Qed.

(** When every future holds a result, every row reached the [try]. *)
Lemma download_all_returns w results w' :
  download_all data output_dir w = (inr results, w') →
  Forall (λ row, enters_try row = true) data.
Proof.
  destruct (download_all_run w) as (pf & _ & Hidle & Hinv & ->).
  intros [= Hc _].
  pose proof (idle_completed w pf Hinv Hidle) as Hperm.
  pose proof (inv_outcomes _ _ _ Hinv) as Hout. rewrite Forall_forall in Hout.
  apply Forall_forall. intros row [t Ht]%list_elem_of_lookup.
  assert (t ∈ (completed pf).*1) as Htc.
  { rewrite Hperm. apply elem_of_seq. apply lookup_lt_Some in Ht. lia. }
  apply list_elem_of_fmap in Htc as ([t0 o] & -> & Hf).
  destruct (Hout _ Hf) as (row0 & Hrow0 & Ho). cbn in *.
  assert (row0 = row) as -> by congruence.
  unfold outcome_of in Ho. destruct (enters_try row); [done|].
  destruct Ho as (e & -> & _).
  destruct (collect_inl (completed pf) [] (t0, inl e) e Hf eq_refl) as (t' & e' & Hc' & _).
  congruence.
Qed.


End DatasetProperties.

(** *** Failures of a download *)

Section ErrorHandling.
Import Get3Di.
Context `{Ext : Externals}.

Lemma download_handler_logged sequence_id e w :
  download_handler sequence_id e w
  = (inr {| sequence_id := sequence_id; pdb_file := None |}, add_line (logged e) w).
Proof. unfold download_handler, logged. unfold_M. by destruct (exn_cls e). Qed.

(** C2. For a row of text with a well-formed Domain, whatever exception the
    body of the [try] raises, [download_and_trim_pdb] returns the record
    with the row's id and no file, having printed one line for the
    exception; the loop over the futures goes on with the remaining
    futures. *)
Theorem download_exception_recorded row output_dir sequence domain chain model_id w e w1 :
  Sequence row = Str sequence →
  Domain row = Str domain →
  Py.index domain 4 = inr chain →
  Py.int (slice_from 5 domain) = inr model_id →
  download_body (row_id row) (clean_sequence sequence) (slice_to 4 domain)
                chain model_id (row_url row) output_dir w = (inl e, w1) →
  download_and_trim_pdb row output_dir w
    = (inr {| sequence_id := row_id row; pdb_file := None |}, add_line (logged e) w1) ∧
  ∀ t rest results,
    collect ((t, (download_and_trim_pdb row output_dir w).1) :: rest) results
    = collect rest (results ++ [{| sequence_id := row_id row; pdb_file := None |}]).
Proof.
  intros Hs Hd Hc Hm Hbody.
  assert (download_and_trim_pdb row output_dir w
          = (inr {| sequence_id := row_id row; pdb_file := None |},
             add_line (logged e) w1)) as Hret.
  { rewrite (download_well_formed _ _ _ _ _ _ _ Hs Hd Hc Hm). unfold try_except.
    rewrite Hbody. apply download_handler_logged. }
  split; [done|]. intros t rest results. by rewrite Hret.
Qed.

(** A failed GET is not repeated: the task ends with the missing result. *)
Lemma download_get_failed row output_dir w :
  enters_try row = true →
  get_failed (http_get (length (requests w)) (row_url row)) →
  ∃ line,
    download_and_trim_pdb row output_dir w
    = (inr (missing row), add_line line (add_request (row_url row) w)).
Proof.
  intros Hwf Hfail.
  apply enters_try_true in Hwf as (sequence & domain & chain & model_id & Hs & Hd & Hc & Hm).
  rewrite (download_well_formed _ _ _ _ _ _ _ Hs Hd Hc Hm). unfold try_except.
  rewrite download_body_unfold. cbn zeta.
  destruct (http_get _ _) as [e|response]; cbn in Hfail.
  - eexists. apply download_handler_logged.
  - destruct (Z.leb_spec 400 (status_code response)); [|lia].
    destruct (Z.ltb_spec (status_code response) 600); [|lia].
    cbn [andb]. eexists. apply download_handler_logged.
Qed.

(** A downloaded structure whose trimmed sequence differs from the row's
    sequence: the [ValueError] of [trim_pdb] is caught, the row is recorded
    without a file. *)
Lemma download_mismatch row output_dir sequence domain chain model_id
      response structure structure' w :
  Sequence row = Str sequence →
  Domain row = Str domain →
  Py.index domain 4 = inr chain →
  Py.int (slice_from 5 domain) = inr model_id →
  http_get (length (requests w)) (row_url row) = inr response →
  (status_code response < 400 ∨ 600 ≤ status_code response)%Z →
  pdb_parse (text response) = inr structure →
  pdb_parse (trimmed_text structure (clean_sequence sequence) chain model_id)
    = inr structure' →
  standard_codes structure' chain model_id ≠ remove_X sequence →
  ∃ w', download_and_trim_pdb row output_dir w = (inr (missing row), w').
Proof.
  intros Hs Hd Hc Hm Hget Hstatus Hparse Hparse' Hneq.
  rewrite (download_well_formed _ _ _ _ _ _ _ Hs Hd Hc Hm). unfold try_except.
  rewrite download_body_unfold. cbn zeta. rewrite Hget.
  assert (Z.leb 400 (status_code response) && Z.ltb (status_code response) 600 = false)
    as -> by (apply andb_false_iff; lia).
  destruct (open_w_cases
              (path_join output_dir
                 (pretty (row_id row) ++ "_" ++ slice_to 4 domain ++ ".pdb")%string)
              (text response) (add_request (row_url row) w)) as [[e ->]| ->];
    [eexists; apply download_handler_logged|].
  rewrite trim_pdb_unfold. cbn [fs set_fs]. rewrite lookup_insert_eq, Hparse.
  cbn zeta. rewrite Hparse'.
  rewrite (bool_decide_false (clean_sequence (clean_sequence sequence) = _)).
  - case_bool_decide; eexists; apply download_handler_logged.
  - rewrite !clean_sequence_remove_X.
    assert (∀ s, remove_X (remove_X s) = remove_X s) as ->; [|congruence].
    induction s as [|c s IH]; [done|]. cbn.
    destruct (Ascii.eqb_spec c "X") as [->|Hc']; [done|].
    cbn. destruct (Ascii.eqb_spec c "X"); [done|]. by rewrite IH.
Qed.

Lemma urls_of_length row : length (urls_of row) ≤ 1.
Proof. unfold urls_of. destruct (enters_try _); cbn; lia. Qed.

(** [process_dataset] issues the requests of its download tasks and no
    other. *)
Lemma process_dataset_requests data output_dir query_db query_db_ss_fasta w :
  fs w !! output_dir = None →
  ∃ issued,
    requests (process_dataset data output_dir query_db query_db_ss_fasta w).2
      = requests w ++ issued ∧
    issued ≡ₚ concat (urls_of <$> data).
Proof.
  intros Hdir.
  destruct (download_all_requests data output_dir (add_dir output_dir w))
    as (issued & Hreq & Hperm).
  exists issued. split; [|done].
  change (requests (add_dir output_dir w)) with (requests w) in Hreq. rewrite <- Hreq.
  unfold process_dataset.
  assert (requests (download_phase data output_dir w).2
          = requests (download_all data output_dir (add_dir output_dir w)).2) as <-.
  { rewrite download_phase_unfold by done.
    by destruct (download_all data output_dir (add_dir output_dir w)) as [[e|results] w1]. }
  unfold Os.bind at 1.
  destruct (download_phase data output_dir w) as [[e|[]] w1]; [done|]. cbn.
  unfold Os.bind.
  destruct (foldseek_phase _ _ _ w1) as [[e|[]] w2] eqn:Hfold;
    apply keeps_foldseek in Hfold; [done|].
  destruct (cleanup_phase _ _ w2) as [r w3] eqn:Hclean.
  apply keeps_cleanup in Hclean. cbn. congruence.
Qed.

(** When [os.makedirs] fails nothing is downloaded. *)
Lemma process_dataset_no_directory data output_dir query_db query_db_ss_fasta w content :
  fs w !! output_dir = Some content →
  process_dataset data output_dir query_db query_db_ss_fasta w
  = (inl (Raise FileExistsError output_dir), w).
Proof.
  intros Hdir. unfold process_dataset, download_phase. unfold_M. by rewrite Hdir.
Qed.

(** C8. A download task issues the GET of its row once (not at all when
    the row does not reach the [try]: a cell that is not text, an
    ill-formed Domain); when the GET fails the task ends with the missing
    result and the request is not repeated.  Every task the pool has
    completed was run once, and the requests of a whole run of
    [process_dataset] are among those of its rows, at most one each (exactly
    one per row that reaches the [try] when the output directory can be
    made). *)
Theorem get_issued_once data output_dir query_db query_db_ss_fasta w :
  (∀ row w0,
      requests (download_and_trim_pdb row output_dir w0).2
        = requests w0 ++ urls_of row ∧
      length (urls_of row) ≤ 1) ∧
  (∀ row w0,
      enters_try row = true →
      get_failed (http_get (length (requests w0)) (row_url row)) →
      ∃ w1, download_and_trim_pdb row output_dir w0 = (inr (missing row), w1) ∧
            requests w1 = requests w0 ++ [row_url row]) ∧
  (∀ p, rtc (pool_step data output_dir) (pool_init data w) p →
        NoDup (completed p).*1 ∧
        requests (world p) = requests w ++ task_urls data (completed p).*1) ∧
  (∃ issued,
     requests (process_dataset data output_dir query_db query_db_ss_fasta w).2
       = requests w ++ issued ∧
     issued ⊆+ concat (urls_of <$> data) ∧
     length issued ≤ length data ∧
     (fs w !! output_dir = None → issued ≡ₚ concat (urls_of <$> data))).
Proof.
  split_and!.
  - intros row w0. split; [apply download_outcome | apply urls_of_length].
  - intros row w0 Hwf Hfail.
    destruct (download_get_failed row output_dir w0 Hwf Hfail) as [line ->].
    eexists. split; [reflexivity|done].
  - intros p Hp. apply reachable_inv in Hp as [Ht _ _ Hr]. split; [|done].
    assert (NoDup (queue p ++ running p ++ (completed p).*1)) as Hnd.
    { rewrite Ht. apply NoDup_seq. }
    apply NoDup_app in Hnd as (_ & _ & Hnd).
    by apply NoDup_app in Hnd as (_ & _ & Hnd).
  - assert (length (concat (urls_of <$> data)) ≤ length data) as Hbound.
    { clear. induction data as [|row rows IH]; cbn; [lia|].
      rewrite length_app. pose proof (urls_of_length row). lia. }
    destruct (fs w !! output_dir) as [content|] eqn:Hdir.
    + exists []. rewrite (process_dataset_no_directory _ _ _ _ _ content Hdir).
      cbn. rewrite app_nil_r. split_and!; [done| |lia|done].
      apply submseteq_nil_l.
    + destruct (process_dataset_requests data output_dir query_db query_db_ss_fasta w Hdir)
        as (issued & Hreq & Hperm).
      exists issued. split_and!; [done| | |done].
      * by rewrite Hperm.
      * by rewrite Hperm.
Qed.

(** A row that does not reach the [try] makes [process_dataset] raise out
    of its download loop. *)
Lemma process_dataset_field_error data output_dir query_db query_db_ss_fasta row w :
  row ∈ data →
  enters_try row = false →
  fs w !! output_dir = None →
  ∃ e w' row',
    download_all data output_dir (add_dir output_dir w) = (inl e, w') ∧
    process_dataset data output_dir query_db query_db_ss_fasta w = (inl e, w') ∧
    row' ∈ data ∧ enters_try row' = false ∧ field_error row' e ∧
    (Forall text_cells data → exn_cls e = IndexError ∨ exn_cls e = ValueError).
Proof.
  intros Hin Hno Hdir.
  destruct (download_all_run data output_dir (add_dir output_dir w))
    as (pf & Hrtc & Hidle & Hinv & Hall).
  pose proof (idle_completed data _ pf Hinv Hidle) as Hperm.
  pose proof (inv_outcomes _ _ _ Hinv) as Hout. rewrite Forall_forall in Hout.
  apply list_elem_of_lookup in Hin as [t Ht].
  assert (t ∈ (completed pf).*1) as Htc.
  { rewrite Hperm. apply elem_of_seq. apply lookup_lt_Some in Ht. lia. }
  apply list_elem_of_fmap in Htc as ([t0 o] & -> & Hf).
  destruct (Hout _ Hf) as (row0 & Hrow0 & Ho). cbn in *.
  assert (row0 = row) as -> by congruence.
  unfold outcome_of in Ho. rewrite Hno in Ho. destruct Ho as (e & -> & _).
  destruct (collect_inl (completed pf) [] (t0, inl e) e Hf eq_refl)
    as (t' & e' & Hc & Hin').
  destruct (Hout _ Hin') as (row' & Hrow' & Ho'). cbn in Ho', Hrow'.
  unfold outcome_of in Ho'.
  destruct (enters_try row') eqn:Hno'; [by destruct Ho' as (? & ? & _)|].
  destruct Ho' as (e0 & [= <-] & Hcls).
  exists e', (world pf), row'. rewrite Hall, Hc. split_and!; try done.
  - unfold process_dataset, download_phase. unfold_M.
    rewrite Hdir. fold (add_dir output_dir w). by rewrite Hall, Hc.
  - by eapply list_elem_of_lookup_2.
  - intros Htext. rewrite Forall_forall in Htext.
    destruct (Htext row') as (s' & d' & Hs' & Hd'); [by eapply list_elem_of_lookup_2|].
    unfold field_error in Hcls. by rewrite Hs', Hd' in Hcls.
Qed.

(** C7 (amended). A row whose Sequence and Domain are text, the Domain of
    ASCII characters, with fewer than 6 characters or no integer after its
    fifth character, does not reach the [try]: [download_and_trim_pdb]
    raises [IndexError] or [ValueError] before it and before any effect.
    Any row that does not reach the [try] makes the call raise the
    exception of the field extraction before any effect: [AttributeError]
    for a Sequence that is not text, [TypeError] for a Domain that is not
    text.  [process_dataset] on a dataset with a row that does not reach the
    [try] raises, out of its download loop, the exception of the field
    extraction of such a row: [IndexError] or [ValueError] when the cells of
    every row are text. *)
Theorem ill_formed_row_propagates data output_dir query_db query_db_ss_fasta
        row sequence domain w :
  Sequence row = Str sequence →
  Domain row = Str domain →
  ascii_text domain = true →
  String.length domain < 6 ∨ Py.int_opt (slice_from 5 domain) = None →
  enters_try row = false ∧
  (∀ w0, ∃ e, download_and_trim_pdb row output_dir w0 = (inl e, w0) ∧
              (exn_cls e = IndexError ∨ exn_cls e = ValueError)) ∧
  (∀ row0 w0,
      enters_try row0 = false →
      ∃ e, download_and_trim_pdb row0 output_dir w0 = (inl e, w0) ∧ field_error row0 e) ∧
  (∀ row0,
      row0 ∈ data →
      enters_try row0 = false →
      fs w !! output_dir = None →
      ∃ e w' row',
        download_all data output_dir (add_dir output_dir w) = (inl e, w') ∧
        process_dataset data output_dir query_db query_db_ss_fasta w = (inl e, w') ∧
        row' ∈ data ∧ enters_try row' = false ∧ field_error row' e ∧
        (Forall text_cells data → exn_cls e = IndexError ∨ exn_cls e = ValueError)).
Proof.
  intros Hs Hd _ Hill. apply well_formed_false in Hill.
  assert (enters_try row = false) as Hno by (unfold enters_try; by rewrite Hs, Hd).
  split_and!.
  - done.
  - intros w0. by apply (download_ill_formed row output_dir sequence domain).
  - intros row0 w0. apply download_field_error.
  - intros row0. apply process_dataset_field_error.
Qed.

End ErrorHandling.

(** *** The foldseek commands and the cleanup *)

Section FoldseekProperties.
Import Get3Di.
Context `{Ext : Externals}.

(** [run_command] raises exactly when the return code is not 0. *)
Lemma run_command_returncode command w :
  let '(result, files) := shell command (fs w) in
  if Z.eqb (returncode result) 0
  then run_command command w = (inr (cp_stdout result), set_fs (λ _, files) w)
  else ∃ w', run_command command w = (inl (Raise (PyError "Exception") "Command failed"), w') ∧
             fs w' = files ∧
             stdout w' = stdout w ++ [("Error running command: " ++ command)%string;
                                      cp_stderr result].
Proof.
  unfold run_command, subprocess_run. unfold_M.
  destruct (shell command (fs w)) as [result files].
  destruct (Z.eqb (returncode result) 0); cbn; [done|].
  eexists. split; [reflexivity|]. cbn. by rewrite <- (assoc_L (++)).
Qed.

(** The [try] around the foldseek commands lets no exception through. *)
Lemma foldseek_phase_returns output_dir query_db query_db_ss_fasta w :
  ∃ w', foldseek_phase output_dir query_db query_db_ss_fasta w = (inr tt, w').
Proof.
  unfold foldseek_phase, try_except.
  destruct (foldseek_commands _ _ _ w) as [[e|[]] w1]; unfold print; eauto.
Qed.

(** The cleanup starts with [os.remove(query_db + '_a3m')]: when the
    foldseek commands left no such file, [process_dataset] raises and removes
    nothing. *)
Lemma process_dataset_without_a3m data output_dir query_db query_db_ss_fasta w w1 w2 :
  download_phase data output_dir w = (inr tt, w1) →
  foldseek_phase output_dir query_db query_db_ss_fasta w1 = (inr tt, w2) →
  fs w2 !! (query_db ++ "_a3m")%string = None →
  process_dataset data output_dir query_db query_db_ss_fasta w
  = (inl (Raise FileNotFoundError (query_db ++ "_a3m")%string), w2).
Proof.
  intros Hdown Hfold Hfile. unfold process_dataset.
  rewrite (bind_inr _ _ _ _ _ Hdown), (bind_inr _ _ _ _ _ Hfold).
  unfold cleanup_phase. apply bind_inl. unfold Os.remove. by rewrite Hfile.
Qed.

End FoldseekProperties.

(** C3 (the code departs from the claim). On a machine where the foldseek
    command fails and creates nothing, [process_dataset] catches the
    exception of [run_command] and prints it, but the first [os.remove] of
    the cleanup then raises [FileNotFoundError]: the call aborts and the
    downloaded PDB file is still there. *)
Theorem foldseek_failure_aborts_cleanup :
  let run :=
    Get3Di.process_dataset (Ext := Demo.env Demo.one_at_a_time Demo.no_foldseek)
      [Demo.row_ok] "out" "db" "x.fasta" Demo.empty_world in
  run.1 = inl (Raise FileNotFoundError "db_a3m") ∧
  stdout run.2 = [ "Download completed and results saved to out/directly_saved_pdb_idx.csv";
                   "Error running command: foldseek createdb out db";
                   "foldseek: command not found";
                   "An error occurred: Command failed" ]%string ∧
  fs run.2 !! "out/0_1abc_trimmed.pdb"%string = Some "ALACYS"%string.
Proof. vm_compute. done. Qed.

(** *** main on the Train dataset *)

Section TrainProperties.
Import Get3Di.
Context `{Ext : Externals}.

Lemma main_Train_unfold :
  main Train =
  ((let* data := pd_read_csv train_csv in
    (process_dataset (take (length data / 2) data) first_dir first_db first_fasta ;;
     process_dataset (drop (length data / 2) data) second_dir second_db second_fasta ;;
     merge_fasta)) ;;
   Os.ret tt).
Proof. reflexivity. Qed.

(** A directory that holds a file exists. *)
Lemma dir_exists_file w dir path content :
  fs w !! path = Some content →
  under (rstrip_slash dir) path = true →
  dir_exists w dir = true.
Proof.
  intros Hfile Hunder. unfold dir_exists, is_dir.
  destruct (String.eqb (rstrip_slash dir) "" || String.eqb (rstrip_slash dir) "."); [done|].
  apply orb_true_iff. left. apply orb_true_iff. right.
  apply existsb_exists. exists (path, content). split; [|done].
  apply list_elem_of_In. by apply elem_of_map_to_list.
Qed.

Lemma read_text_returns path w text w' :
  read_text path w = (inr text, w') →
  ∃ content, fs w !! path = Some content ∧ text = universal_newlines content ∧ w' = w.
Proof.
  unfold read_text. destruct (fs w !! path) as [content|]; [|done].
  intros [= <- <-]. eauto.
Qed.

(** A file that is there is read. *)
Lemma read_text_file path w content :
  fs w !! path = Some content → read_text path w = (inr (universal_newlines content), w).
Proof. unfold read_text. by intros ->. Qed.

Lemma merge_fasta_returns w w' :
  merge_fasta w = (inr tt, w') →
  ∃ first second,
    fs w !! first_fasta = Some first ∧
    fs w !! second_fasta = Some second ∧
    fs w' !! final_fasta
      = Some (universal_newlines first ++ universal_newlines second)%string ∧
    fs w' !! first_fasta = None ∧
    fs w' !! second_fasta = None ∧
    requests w' = requests w.
Proof.
  unfold merge_fasta. intros Hrun.
  apply bind_returns in Hrun as ([] & w1 & Hopen & Hrun).
  destruct (open_w_cases final_fasta "" w) as [[e He]|Hw1]; [congruence|].
  rewrite Hw1 in Hopen. injection Hopen as <-.
  apply bind_returns in Hrun as (text1 & w2 & Hread1 & Hrun).
  apply read_text_returns in Hread1 as (first & Hfirst & -> & ->).
  cbn [fs set_fs] in Hfirst. rewrite lookup_insert_ne in Hfirst by done.
  apply bind_returns in Hrun as ([] & w3 & [= <-] & Hrun).
  apply bind_returns in Hrun as (text2 & w4 & Hread2 & Hrun).
  apply read_text_returns in Hread2 as (second & Hsecond & -> & ->).
  cbn [fs set_fs] in Hsecond. rewrite !lookup_insert_ne in Hsecond by done.
  apply bind_returns in Hrun as ([] & w5 & [= <-] & Hrun).
  revert Hrun. unfold_M. cbn [fs set_fs].
  rewrite !lookup_insert_ne by done. rewrite Hfirst.
  cbn [fs set_fs].
  rewrite lookup_delete_ne by done. rewrite !lookup_insert_ne by done.
  rewrite Hsecond. intros [= <-]. cbn [fs set_fs requests].
  exists first, second. split_and!; try done.
  - rewrite !lookup_delete_ne by done. by rewrite lookup_insert_eq.
  - rewrite lookup_delete_ne by done. by rewrite lookup_delete_eq.
  - by rewrite lookup_delete_eq.
Qed.

(** With both FASTA files in place, and no directory where the final file
    goes, the merge runs to its end. *)
Lemma merge_fasta_runs w first second :
  fs w !! first_fasta = Some first →
  fs w !! second_fasta = Some second →
  is_dir w final_fasta = false →
  ∃ w', merge_fasta w = (inr tt, w').
Proof.
  intros Hfirst Hsecond Hnodir. unfold merge_fasta.
  assert (open_w final_fasta "" w = (inr tt, set_fs (insert final_fasta ""%string) w))
    as Hopen.
  { unfold open_w, writable. rewrite Hnodir.
    change (String.eqb final_fasta "") with false.
    change (String.eqb (basename final_fasta) "") with false.
    rewrite (dir_exists_file w (dirname final_fasta) first_fasta first) by done.
    by rewrite orb_true_r. }
  rewrite (bind_inr _ _ _ _ _ Hopen).
  erewrite bind_inr; [|apply (read_text_file first_fasta _ first); cbn [fs set_fs];
                       by rewrite lookup_insert_ne].
  unfold Os.bind at 1, Os.write_file at 1.
  erewrite bind_inr; [|apply (read_text_file second_fasta _ second); cbn [fs set_fs];
                       by rewrite !lookup_insert_ne].
  unfold_M. cbn [fs set_fs].
  rewrite !lookup_insert_ne by done. rewrite Hfirst. cbn [fs set_fs].
  rewrite lookup_delete_ne by done. rewrite !lookup_insert_ne by done.
  rewrite Hsecond. eauto.
Qed.

(** A call of [process_dataset] that returns made its output directory,
    took every row into the [try] of its download task, and issued the
    requests of its rows. *)
Lemma process_dataset_returns data output_dir query_db query_db_ss_fasta w w' :
  process_dataset data output_dir query_db query_db_ss_fasta w = (inr tt, w') →
  fs w !! output_dir = None ∧
  Forall (λ row, enters_try row = true) data ∧
  ∃ issued, requests w' = requests w ++ issued ∧ issued ≡ₚ concat (urls_of <$> data).
Proof.
  intros Hrun. pose proof Hrun as Hrun'.
  unfold process_dataset in Hrun'.
  apply bind_returns in Hrun' as ([] & w1 & Hdown & _).
  pose proof (download_phase_makedirs _ _ _ _ Hdown) as Hdir.
  split_and!; [done| |].
  - rewrite download_phase_unfold in Hdown by done.
    destruct (download_all data output_dir (add_dir output_dir w))
      as [[e|results] w0] eqn:Hall; [done|].
    by eapply download_all_returns.
  - destruct (process_dataset_requests data output_dir query_db query_db_ss_fasta w Hdir)
      as (issued & Hreq & Hperm).
    rewrite Hrun in Hreq. eauto.
Qed.

(** C4 (amended). On the Train dataset of [n] rows, [main] processes the
    first [n / 2] rows and then the remaining rows (the two parts are
    disjoint and their concatenation is the dataset), each with a full
    [process_dataset].  When one of the two calls raises, [main] raises
    the same exception, in the world that call left.  It runs to its end
    when both calls return and leave their FASTA files, and no directory
    stands where the final file goes.
    When it runs to its end, both calls returned: every row reached the
    [try] of its download task, the requests of the first part were issued
    before those of the second part, and both FASTA files were left; the
    final Train FASTA file then holds the text of the first part's FASTA
    file followed by that of the second part's, each as a file opened in
    text mode delivers it, and the two intermediate FASTA files are gone. *)
Theorem train_halves_merged content data w :
  fs w !! train_csv = Some content →
  read_csv content = inr data →
  let half := length data / 2 in
  (take half data ++ drop half data = data ∧
   length (take half data) = half ∧
   (∀ i, i < half → take half data !! i = data !! i) ∧
   (∀ j, drop half data !! j = data !! (half + j))) ∧
  (∀ e w1,
      process_dataset (take half data) first_dir first_db first_fasta w = (inl e, w1) →
      main Train w = (inl e, w1)) ∧
  (∀ w1 e w2,
      process_dataset (take half data) first_dir first_db first_fasta w = (inr tt, w1) →
      process_dataset (drop half data) second_dir second_db second_fasta w1 = (inl e, w2) →
      main Train w = (inl e, w2)) ∧
  (∀ w1 w2 first second,
      process_dataset (take half data) first_dir first_db first_fasta w = (inr tt, w1) →
      process_dataset (drop half data) second_dir second_db second_fasta w1 = (inr tt, w2) →
      fs w2 !! first_fasta = Some first →
      fs w2 !! second_fasta = Some second →
      is_dir w2 final_fasta = false →
      ∃ w', main Train w = (inr tt, w')) ∧
  (∀ w',
      main Train w = (inr tt, w') →
      ∃ w1 w2 first second issued_first issued_second,
        process_dataset (take half data) first_dir first_db first_fasta w = (inr tt, w1) ∧
        process_dataset (drop half data) second_dir second_db second_fasta w1 = (inr tt, w2) ∧
        Forall (λ row, enters_try row = true) data ∧
        requests w' = requests w ++ issued_first ++ issued_second ∧
        issued_first ≡ₚ concat (urls_of <$> take half data) ∧
        issued_second ≡ₚ concat (urls_of <$> drop half data) ∧
        fs w2 !! first_fasta = Some first ∧
        fs w2 !! second_fasta = Some second ∧
        fs w' !! final_fasta
          = Some (universal_newlines first ++ universal_newlines second)%string ∧
        fs w' !! first_fasta = None ∧
        fs w' !! second_fasta = None).
Proof.
  intros Hfile Hcsv half.
  assert (pd_read_csv train_csv w = (inr data, w)) as Hread.
  { unfold pd_read_csv, read_file. unfold_M. by rewrite Hfile, Hcsv. }
  split; [|split; [|split; [|split]]].
  - split_and!.
    + apply take_drop.
    + apply length_take_le. apply Nat.Div0.div_le_upper_bound. lia.
    + intros i Hi. by apply lookup_take_lt.
    + intros j. apply lookup_drop.
  - intros e w1 Hfirst. rewrite main_Train_unfold.
    apply bind_inl. rewrite (bind_inr _ _ _ _ _ Hread). by apply bind_inl.
  - intros w1 e w2 Hfirst Hsecond. rewrite main_Train_unfold.
    apply bind_inl. rewrite (bind_inr _ _ _ _ _ Hread).
    rewrite (bind_inr _ _ _ _ _ Hfirst). by apply bind_inl.
  - intros w1 w2 first second Hfirst Hsecond H1 H2 Hnodir.
    destruct (merge_fasta_runs w2 first second H1 H2 Hnodir) as [w' Hmerge].
    exists w'. rewrite main_Train_unfold.
    rewrite (bind_inr _ _ w tt w'); [done|].
    rewrite (bind_inr _ _ _ _ _ Hread).
    rewrite (bind_inr _ _ _ _ _ Hfirst).
    by rewrite (bind_inr _ _ _ _ _ Hsecond).
  - intros w' Hmain. rewrite main_Train_unfold in Hmain.
    apply bind_returns in Hmain as ([] & w3 & Hrun & [= <-]).
    apply bind_returns in Hrun as (data' & w0 & Hread' & Hrun).
    rewrite Hread in Hread'. injection Hread' as <- <-.
    apply bind_returns in Hrun as ([] & w1 & Hfirst & Hrun).
    apply bind_returns in Hrun as ([] & w2 & Hsecond & Hmerge).
    apply merge_fasta_returns in Hmerge
      as (first & second & H1 & H2 & H3 & H4 & H5 & Hreq).
    destruct (process_dataset_returns _ _ _ _ _ _ Hfirst)
      as (_ & Htry1 & issued1 & Hreq1 & Hperm1).
    destruct (process_dataset_returns _ _ _ _ _ _ Hsecond)
      as (_ & Htry2 & issued2 & Hreq2 & Hperm2).
    exists w1, w2, first, second, issued1, issued2. split_and!; try done.
    + rewrite <- (take_drop half data). by apply Forall_app.
    + by rewrite Hreq, Hreq2, Hreq1, <- (assoc_L (++)).
Qed.

End TrainProperties.

(** ** predict_embed.py with --input_type AA+3Di *)

Section PredictProperties.
Import PredictEmbed.
Context `{Ext : PredictEmbed.Externals}.

Lemma defaults_only_declared : only_declared defaults.
Proof.
  intros name Hm Hi.
  change defaults
    with (<["model"%string := "ProtT5"%string]>
            (<["input_type"%string := "AA"%string]> (∅ : Namespace))).
  rewrite lookup_insert_ne by done. rewrite lookup_insert_ne by done. done.
Qed.

Lemma find_argument_dest opt dest choices default :
  find_argument opt = Some (dest, (choices, default)) →
  dest = "model"%string ∨ dest = "input_type"%string.
Proof.
  assert (∀ f a, List.find f arguments = Some a →
                 a.2.1 = "model"%string ∨ a.2.1 = "input_type"%string) as Hfound.
  { intros f a [Hin _]%find_some.
    destruct Hin as [<-|[<-|[]]]; cbn; auto. }
  unfold find_argument.
  destruct (List.find _ arguments) as [a|] eqn:Hexact.
  - intros [= Ha]. apply Hfound in Hexact. by rewrite Ha in Hexact.
  - destruct (String.prefix "--" opt); [|done].
    destruct (List.filter _ option_strings) as [|o [|? ?]]; [done| |done].
    destruct (List.find (λ a, bool_decide (a.1 = o)) arguments) as [a|] eqn:Habbrev;
      [|done].
    intros [= Ha]. apply Hfound in Habbrev. by rewrite Ha in Habbrev.
Qed.

Lemma parse_only_declared n : ∀ argv ns ns',
  length argv ≤ n → only_declared ns → parse argv ns = Some ns' → only_declared ns'.
Proof.
  induction n as [|n IH]; intros argv ns ns' Hlen Hns.
  - destruct argv; [|cbn in Hlen; lia]. by intros [= <-].
  - destruct argv as [|arg rest]; cbn [parse]; [by intros [= <-]|].
    destruct (split_eq arg) as [opt explicit].
    destruct (find_argument opt) as [[dest [choices default]]|] eqn:Hfind; [|done].
    apply find_argument_dest in Hfind.
    assert (∀ value, only_declared (<[dest := value]> ns)) as Hns'.
    { intros value name Hm Hi.
      rewrite lookup_insert_ne; [by apply Hns|].
      destruct Hfind; congruence. }
    destruct explicit as [value|].
    + case_bool_decide; [|done].
      apply IH; [cbn in Hlen; lia|apply Hns'].
    + destruct rest as [|value rest']; [done|].
      case_bool_decide; [|done].
      apply IH; [cbn in Hlen; lia|apply Hns'].
Qed.

(** The parser never defines [pdb_path]. *)
Lemma parse_args_no_pdb_path argv args :
  parse_args argv = Some args → args !! "pdb_path"%string = None.
Proof.
  intros Hparse.
  eapply (parse_only_declared (length argv)) in Hparse;
    [by apply Hparse | done | apply defaults_only_declared].
Qed.

(** The fuel of [embed_sequence] is enough: more fuel changes nothing. *)
Lemma embed_loop_fuel fuel : ∀ sequences i k w,
  length sequences ≤ i + fuel →
  embed_loop (fuel + k) sequences i w = embed_loop fuel sequences i w.
Proof.
  induction fuel as [|fuel IH]; intros sequences i k w Hlen.
  - destruct k as [|k]; [done|]. cbn [Nat.add embed_loop].
    destruct (Nat.ltb_spec i (length sequences)) as [Hlt|_]; [lia|done].
  - cbn [Nat.add embed_loop].
    destruct (Nat.ltb_spec i (length sequences)) as [_|_]; [|done].
    unfold Os.bind, Os.print, Os.lift.
    destruct (embed_each _ []) as [e|embeddings]; [done|].
    destruct (open_w _ _ _) as [[e|[]] w1]; [done|].
    apply IH. lia.
Qed.

(** C5 (amended). On a command line that selects [AA+3Di], [main] runs
    [embed_sequence]; if that raises, the invocation ends with its
    exception, otherwise the evaluation of [args.pdb_path] raises
    [AttributeError].  Either way the invocation ends with an exception in
    the world [embed_sequence] left, whatever [embed_3Di] is: the 3Di step
    is never reached. *)
Theorem aa_3di_never_reaches_embed_3Di (embed_3Di : string → M unit) argv args w :
  parse_args argv = Some args →
  args !! "input_type"%string = Some "AA+3Di"%string →
  args !! "pdb_path"%string = None ∧
  ∃ e,
    main embed_3Di argv w = Some (inl e, (embed_sequence w).2) ∧
    match (embed_sequence w).1 with
    | inl e' => e = e'
    | inr _ => exn_cls e = AttributeError
    end.
Proof.
  intros Hparse Htype.
  pose proof (parse_args_no_pdb_path argv args Hparse) as Hpdb.
  split; [done|].
  unfold main, run, getattr. rewrite Hparse. unfold_M. rewrite Htype, Hpdb.
  rewrite bool_decide_false by done. rewrite bool_decide_true by done.
  destruct (embed_sequence w) as [[e'|[]] w1]; cbn; eauto.
Qed.

End PredictProperties.

(** ** The properties on concrete inputs *)

(** [trim_pdb] on a file of five residues, for the sequence AXC. *)
Lemma trim_pdb_verified_witness :
  let w := Demo.world_with [("out/0_1abc.pdb", "SERALAHOHCYSGLY")]%string in
  Get3Di.trim_pdb (Ext := demo_env) "out/0_1abc.pdb" "AXC" "A" 0 w
    = (inr "out/0_1abc_trimmed.pdb"%string,
       (Get3Di.trim_pdb (Ext := demo_env) "out/0_1abc.pdb" "AXC" "A" 0 w).2) ∧
  ∃ text structure',
    fs (Get3Di.trim_pdb (Ext := demo_env) "out/0_1abc.pdb" "AXC" "A" 0 w).2
      !! "out/0_1abc_trimmed.pdb"%string = Some text ∧
    Demo.pdb_parse text = inr structure' ∧
    standard_codes (Ext := demo_env) structure' "A" 0 = "AC"%string.
Proof.
  intros w.
  assert (Get3Di.trim_pdb (Ext := demo_env) "out/0_1abc.pdb" "AXC" "A" 0 w
          = (inr "out/0_1abc_trimmed.pdb"%string,
             (Get3Di.trim_pdb (Ext := demo_env) "out/0_1abc.pdb" "AXC" "A" 0 w).2)) as Hret
    by (vm_compute; reflexivity).
  split; [exact Hret|].
  destruct (proj1 (trim_pdb_verified (Ext := demo_env) "out/0_1abc.pdb" "AXC" "A" 0 w)
                  _ _ Hret) as (text & structure' & _ & Hfile & Hparse & _ & Hcodes).
  exists text, structure'. split; [exact Hfile|]. split; [exact Hparse|exact Hcodes].
Defined.

(** A 404 answer: the [HTTPError] is caught and the row is recorded without
    a file. *)
Lemma download_exception_recorded_witness :
  let url := "https://files.rcsb.org/download/2xyz.pdb"%string in
  let e := Raise HTTPError ("404 Client Error: Not Found for url: " ++ url)%string in
  Get3Di.download_and_trim_pdb (Ext := demo_env) Demo.row_404 "out" Demo.empty_world
  = (inr {| Get3Di.sequence_id := 1; Get3Di.pdb_file := None |},
     add_line ("HTTP request failed: " ++ exn_msg e)%string
              (add_request url Demo.empty_world)).
Proof.
  intros url e.
  apply (download_exception_recorded (Ext := demo_env) Demo.row_404 "out"
           "GG" "2xyzA00" "A" 0%Z
           Demo.empty_world e (add_request url Demo.empty_world));
    vm_compute; reflexivity.
Defined.

(** Three embeddings and two 'other' rows per split. *)
Lemma logreg_splits_aligned_witness :
  let X := LogregProtT5.mkArray 2 [[1; 2]; [3; 4]; [5; 6]] in
  let O := LogregProtT5.mkArray 2 [[7; 8]; [9; 0]] in
  let i := LogregProtT5.mkInputs ["a"; "b"; "a"]%string X O
                                 ["b"; "b"; "c"]%string X O
                                 ["c"; "a"; "a"]%string X O in
  ∃ s, LogregProtT5.load i = inr s ∧
       LogregProtT5.y_train s = ["a"; "b"; "a"; "other"; "other"]%string ∧
       aligned ["a"; "b"; "a"]%string X O (LogregProtT5.X_train s) (LogregProtT5.y_train s).
Proof.
  intros X O i. eexists. split; [reflexivity|]. split; [reflexivity|].
  apply (logreg_splits_aligned i);  reflexivity.
Defined.

(** A dataset with a four-character Domain. *)
Lemma ill_formed_row_propagates_witness :
  ∃ e w',
    Get3Di.process_dataset (Ext := demo_env) [Demo.row_ok; Demo.row_short]
                           "out" "db" "x.fasta" Demo.empty_world = (inl e, w') ∧
    (exn_cls e = IndexError ∨ exn_cls e = ValueError).
Proof.
  destruct (ill_formed_row_propagates (Ext := demo_env) [Demo.row_ok; Demo.row_short]
              "out" "db" "x.fasta" Demo.row_short "AC" "1abc" Demo.empty_world)
    as (Hno & _ & _ & Hrun).
  - reflexivity.
  - reflexivity.
  - reflexivity.
  - left. vm_compute. lia.
  - destruct (Hrun Demo.row_short) as (e & w' & row' & _ & Hp & _ & _ & _ & Hcls).
    + right. left.
    + exact Hno.
    + reflexivity.
    + exists e, w'. split; [exact Hp|]. apply Hcls.
      apply Forall_cons. split; [exists "AXC"%string, "1abcA00"%string; split; reflexivity|].
      apply Forall_cons. split; [exists "AC"%string, "1abc"%string; split; reflexivity|].
      apply Forall_nil_2.
Defined.

(** A failed GET is issued once. *)
Lemma get_issued_once_witness :
  ∃ w1,
    Get3Di.download_and_trim_pdb (Ext := demo_env) Demo.row_404 "out" Demo.empty_world
      = (inr (missing Demo.row_404), w1) ∧
    requests w1 = ["https://files.rcsb.org/download/2xyz.pdb"%string].
Proof.
  apply (proj1 (proj2 (get_issued_once (Ext := demo_env) [Demo.row_404]
                         "out" "db" "x.fasta" Demo.empty_world))
           Demo.row_404 Demo.empty_world).
  - reflexivity.
  - change (400 ≤ 404 < 600)%Z. lia.
Defined.

(** The second batch of two over three samples wraps around. *)
Lemma bm_generator_batches_witness :
  ∃ X_batch y_batch,
    AnnTMVec.bm_generator 3 [10; 20; 30] [0; 2; 1] 2 1 = inr (X_batch, y_batch) ∧
    length X_batch = 2 ∧ length y_batch = 2 ∧
    ∀ j, j < 2 →
      ∃ x label y_enc,
        [10; 20; 30] !! ((1 * 2 + j) mod 3) = Some x ∧
        [0; 2; 1] !! ((1 * 2 + j) mod 3) = Some label ∧
        X_batch !! j = Some x ∧ y_batch !! j = Some y_enc ∧ one_hot 3 y_enc label.
Proof.
  apply (bm_generator_batches 3 [10; 20; 30] [0; 2; 1] 2 1).
  - discriminate.
  - reflexivity.
  - intros l Hl. repeat (apply elem_of_cons in Hl as [->|Hl]; [lia|]).
    by apply elem_of_nil in Hl.
  - lia.
Defined.


(** The two ways a Domain is ill-formed: no fifth character, no integer
    after it. *)
Example ill_formed_rows :
  (Get3Di.download_and_trim_pdb (Ext := demo_env) Demo.row_short "out" Demo.empty_world).1
    = inl (Raise IndexError "string index out of range") ∧
  (Get3Di.download_and_trim_pdb (Ext := demo_env) Demo.row_model "out" Demo.empty_world).1
    = inl (Raise ValueError "invalid literal for int() with base 10: '0x'").
Proof. split; vm_compute; reflexivity. Qed.

(** The order of the records is the order of completion: the same three
    rows under the two schedulers. *)
Example completion_order :
  let data := [Demo.row_ok; Demo.row_404; Demo.row_mismatch] in
  sum_map id (fmap Get3Di.sequence_id)
    (Get3Di.download_all (Ext := demo_env) data "out" Demo.empty_world).1
    = inr [0; 1; 4]%Z ∧
  sum_map id (fmap Get3Di.sequence_id)
    (Get3Di.download_all (Ext := demo_env_last_first) data "out" Demo.empty_world).1
    = inr [4; 1; 0]%Z.
Proof. split; vm_compute; reflexivity. Qed.

(** [main] on a Train file of three rows. *)
Lemma train_halves_merged_witness :
  let w := Demo.world_with [("./data/Dataset/csv/Train.csv", "train")]%string in
  ∃ first second,
    fs (Get3Di.main (Ext := demo_env) Get3Di.Train w).2 !! final_fasta
      = Some (universal_newlines first ++ universal_newlines second)%string ∧
    fs (Get3Di.main (Ext := demo_env) Get3Di.Train w).2 !! first_fasta = None.
Proof.
  intros w.
  destruct (train_halves_merged (Ext := demo_env) "train"
              [Demo.row_ok; Demo.row_404; Demo.row_mismatch] w)
    as (_ & _ & _ & _ & Hmerged).
  - reflexivity.
  - reflexivity.
  - destruct (Hmerged (Get3Di.main (Ext := demo_env) Get3Di.Train w).2)
      as (w1 & w2 & first & second & issued_first & issued_second
          & _ & _ & _ & _ & _ & _ & _ & _ & Hfinal & Hgone & _).
    + vm_compute. reflexivity.
    + exists first, second. split; [exact Hfinal | exact Hgone].
Defined.

(** With the dataset file in place, [--input_type AA+3Di] ends in
    [AttributeError]. *)
Lemma aa_3di_never_reaches_embed_3Di_witness :
  let w := Demo.world_in ["./src/cathe-predict/Embeddings"]%string
                         [("./src/cathe-predict/Dataset.csv", "ACD GG")]%string in
  ∃ e w',
    PredictEmbed.main (Ext := Demo.embedder) (λ _, Os.ret tt)
                      ["--input_type"; "AA+3Di"]%string w = Some (inl e, w') ∧
    exn_cls e = AttributeError.
Proof.
  intros w.
  destruct (aa_3di_never_reaches_embed_3Di (Ext := Demo.embedder) (λ _, Os.ret tt)
              ["--input_type"; "AA+3Di"]%string
              (<["input_type" := "AA+3Di"]> PredictEmbed.defaults)%string w)
    as [_ (e & Hmain & He)].
  - reflexivity.
  - reflexivity.
  - exists e, (PredictEmbed.embed_sequence (Ext := Demo.embedder) w).2.
    split; [exact Hmain|]. revert He. vm_compute. intros He. exact He.
Defined.

(** C4 as stated fails: on a machine without foldseek the first
    [process_dataset] call of [main] raises in its cleanup, and no Train
    FASTA file is written. *)
Lemma train_not_always_merged :
  let w := Demo.world_with [("./data/Dataset/csv/Train.csv", "train")]%string in
  let run := Get3Di.main (Ext := Demo.env Demo.one_at_a_time Demo.no_foldseek)
                         Get3Di.Train w in
  run.1 = inl (Raise FileNotFoundError "./data/pdb_files/Train_first_queryDB_a3m") ∧
  fs run.2 !! final_fasta = None.
Proof. vm_compute. done. Qed.

(** C7 as stated fails: a row with a Domain of four characters and an
    empty Sequence cell raises [AttributeError], neither [IndexError] nor
    [ValueError]. *)
Lemma short_domain_not_always_IndexError :
  Get3Di.Domain Demo.row_no_sequence_short = Get3Di.Str "1abc" ∧
  String.length "1abc" < 6 ∧
  ∃ e w',
    Get3Di.download_and_trim_pdb (Ext := demo_env) Demo.row_no_sequence_short "out"
                                 Demo.empty_world = (inl e, Demo.empty_world) ∧
    Get3Di.process_dataset (Ext := demo_env) [Demo.row_no_sequence_short]
                           "out" "db" "x.fasta" Demo.empty_world = (inl e, w') ∧
    exn_cls e = AttributeError.
Proof.
  split; [reflexivity|]. split; [vm_compute; lia|].
  eexists _, _. split; [vm_compute; reflexivity|].
  split; [vm_compute; reflexivity|reflexivity].
Qed.


(** C5 as stated fails: without the dataset file, [--input_type AA+3Di] ends
    in the [FileNotFoundError] of [embed_sequence], not in
    [AttributeError]. *)
Lemma aa_3di_not_always_AttributeError :
  ∃ w',
    PredictEmbed.main (Ext := Demo.embedder) (λ _, Os.ret tt)
                      ["--input_type"; "AA+3Di"]%string Demo.empty_world
    = Some (inl (Raise FileNotFoundError "./src/cathe-predict/Dataset.csv"), w') ∧
    exn_cls (Raise FileNotFoundError "./src/cathe-predict/Dataset.csv") ≠ AttributeError.
Proof. eexists. split; [vm_compute; reflexivity | discriminate]. Qed.

(** * Further properties *)

(** ** clean_sequence *)

Section CleanProperties.
Import Get3Di.

Lemma remove_X_get s n : String.get n (remove_X s) ≠ Some "X"%char.
Proof.
  revert n. induction s as [|c s IH]; intros n; [by destruct n|].
  cbn [remove_X]. destruct (Ascii.eqb_spec c "X") as [->|Hc]; [done|].
  destruct n as [|n]; cbn; [congruence | apply IH].
Qed.

Lemma remove_X_fixed s :
  (∀ n, String.get n s ≠ Some "X"%char) → remove_X s = s.
Proof.
  induction s as [|c s IH]; intros Hno; [done|].
  cbn [remove_X]. destruct (Ascii.eqb_spec c "X") as [->|Hc].
  - by destruct (Hno 0).
  - f_equal. apply IH. intros n. apply (Hno (S n)).
Qed.

Lemma remove_X_length s : String.length (remove_X s) ≤ String.length s.
Proof.
  induction s as [|c s IH]; [done|].
  cbn [remove_X]. destruct (Ascii.eqb c "X"); cbn; lia.
Qed.

(** X1. The cleaned sequence holds no 'X', is no longer than the sequence,
    is the sequence itself when that holds no 'X', and cleaning twice is
    cleaning once. *)
Theorem clean_sequence_no_X sequence :
  (∀ n, String.get n (clean_sequence sequence) ≠ Some "X"%char) ∧
  String.length (clean_sequence sequence) ≤ String.length sequence ∧
  ((∀ n, String.get n sequence ≠ Some "X"%char) → clean_sequence sequence = sequence) ∧
  clean_sequence (clean_sequence sequence) = clean_sequence sequence.
Proof.
  rewrite !clean_sequence_remove_X. split_and!.
  - apply remove_X_get.
  - apply remove_X_length.
  - apply remove_X_fixed.
  - apply remove_X_fixed, remove_X_get.
Qed.

End CleanProperties.

(** ** The residue scan of trim_pdb *)

Section ScanProperties.
Import Get3Di.
Context `{Ext : Externals}.

Lemma letters_length s : length (letters s) = String.length s.
Proof. induction s as [|c s IH]; cbn; [done | by rewrite IH]. Qed.

Lemma letters_lookup s i :
  letters s !! i = (λ c, String c EmptyString) <$> String.get i s.
Proof.
  revert i. induction s as [|c s IH]; intros [|i]; cbn; try done.
Qed.

Lemma scan_chain_cons sequence model chain residue rest st :
  scan_chain sequence model chain (residue :: rest) st =
  let st' := scan_residue sequence model chain residue st in
  if Nat.eqb (seq_index st') (String.length sequence)
  then st'
  else scan_chain sequence model chain rest st'.
Proof. reflexivity. Qed.

(** A residue is selected exactly when its code is the awaited character. *)
Lemma scan_residue_index sequence model chain residue st :
  seq_index st ≤ String.length sequence →
  seq_index (scan_residue sequence model chain residue st)
  = if bool_decide (letters sequence !! seq_index st = Some (seq1 (resname residue)))
    then seq_index st + 1 else seq_index st.
Proof.
  intros Hle. unfold scan_residue. rewrite letters_lookup.
  destruct (Nat.ltb_spec (seq_index st) (String.length sequence)) as [Hlt|Hge].
  - destruct (String.get (seq_index st) sequence) as [c|] eqn:Hget; cbn.
    + destruct (decide (seq1 (resname residue) = String c EmptyString)) as [Heq|Hne].
      * rewrite bool_decide_true by done.
        by rewrite bool_decide_true by (by rewrite Heq).
      * rewrite bool_decide_false by done.
        by rewrite bool_decide_false by congruence.
    + by rewrite bool_decide_false by done.
  - cbn. rewrite get_short by lia. cbn. by rewrite bool_decide_false by done.
Qed.

Lemma scan_residue_ok sequence model chain residue st :
  scan_ok sequence chain model st →
  scan_ok sequence chain model (scan_residue sequence model chain residue st).
Proof.
  intros (Hle & Hsize & Hids). unfold scan_residue.
  destruct (Nat.ltb_spec (seq_index st) (String.length sequence)) as [Hlt|Hge]; cbn.
  - destruct (String.get (seq_index st) sequence) as [c|]; [|by split_and!].
    case_bool_decide; [|by split_and!]. split_and!; cbn.
    + lia.
    + rewrite size_union_alt, size_singleton.
      assert (size (seq_residues st ∖ {[(model, chain, r_id residue)]})
              ≤ size (seq_residues st)).
      { apply subseteq_size, subseteq_difference_l. done. }
      lia.
    + intros id [->%elem_of_singleton|Hin]%elem_of_union; [done|by apply Hids].
  - by split_and!.
Qed.

Lemma scan_chain_ok sequence model chain residues : ∀ st,
  scan_ok sequence chain model st →
  scan_ok sequence chain model (scan_chain sequence model chain residues st).
Proof.
  induction residues as [|residue rest IH]; intros st Hok; [done|].
  rewrite scan_chain_cons. cbn zeta.
  pose proof (scan_residue_ok sequence model chain residue st Hok) as Hok'.
  destruct (Nat.eqb _ _); [done | by apply IH].
Qed.

(** The scan of a structure is the scan of its selected chains, one after
    the other. *)
Lemma scan_structure_chains structure sequence chain_id model_id :
  scan_structure structure sequence chain_id model_id
  = fold_left (λ st chain, scan_chain sequence model_id chain_id (c_residues chain) st)
              (selected_chains structure chain_id model_id)
              {| seq_residues := ∅; seq_index := 0; untrimmed_sequence := "" |}.
Proof.
  unfold scan_structure, selected_chains.
  generalize ({| seq_residues := ∅; seq_index := 0; untrimmed_sequence := "" |}).
  induction structure as [|model structure IH]; intros st; [done|].
  cbn [fold_left]. rewrite filter_cons.
  destruct (decide (m_id model = model_id)) as [Hm|Hm].
  - rewrite bool_decide_true by done. rewrite fmap_cons. cbn [concat].
    rewrite fold_left_app, IH. f_equal.
    unfold scan_model. subst model_id.
    generalize st. induction (m_chains model) as [|chain chains IHc]; intros st0; [done|].
    cbn [fold_left]. rewrite filter_cons.
    destruct (decide (c_id chain = chain_id)) as [Hc|Hc].
    + rewrite bool_decide_true by done. cbn [fold_left]. rewrite IHc. by subst chain_id.
    + rewrite bool_decide_false by done. apply IHc.
  - rewrite bool_decide_false by done. apply IH.
Qed.

(** X2. Whatever the structure, the scan of [trim_pdb] matches at most
    [len(sequence)] characters, selects at most one residue per matched
    character, and selects residues of chain [chain_id] of model [model_id]
    only. *)
Theorem scan_structure_selects_in_chain structure sequence chain_id model_id :
  let scan := scan_structure structure sequence chain_id model_id in
  seq_index scan ≤ String.length sequence ∧
  size (seq_residues scan) ≤ seq_index scan ∧
  ∀ id, id ∈ seq_residues scan → id.1.1 = model_id ∧ id.1.2 = chain_id.
Proof.
  cbn zeta. rewrite scan_structure_chains.
  assert (scan_ok sequence chain_id model_id
            {| seq_residues := ∅; seq_index := 0; untrimmed_sequence := "" |}) as Hinit.
  { split_and!; cbn; [lia|by rewrite size_empty|set_solver]. }
  revert Hinit. generalize ({| seq_residues := ∅; seq_index := 0; untrimmed_sequence := "" |}).
  induction (selected_chains structure chain_id model_id) as [|chain chains IH];
    intros st Hok; [done|].
  cbn [fold_left]. apply IH. by apply scan_chain_ok.
Qed.

(** The scan of a chain matches the rest of the sequence exactly when what
    is left of it is a subsequence of the codes of the chain. *)
Lemma scan_chain_complete sequence model chain residues : ∀ st,
  seq_index st ≤ String.length sequence →
  seq_index (scan_chain sequence model chain residues st) = String.length sequence ↔
  drop (seq_index st) (letters sequence) `sublist_of` codes_of residues.
Proof.
  induction residues as [|residue rest IH]; intros st Hle.
  - cbn. rewrite sublist_nil_r. rewrite <- letters_length. split.
    + intros ->. by rewrite drop_all.
    + intros Hnil. apply (f_equal length) in Hnil.
      rewrite length_drop in Hnil. cbn in Hnil. rewrite letters_length in *. lia.
  - rewrite scan_chain_cons. cbn zeta.
    pose proof (scan_residue_index sequence model chain residue st Hle) as Hidx.
    set (code := seq1 (resname residue)) in *.
    change (codes_of (residue :: rest)) with (code :: codes_of rest).
    destruct (decide (seq_index st = String.length sequence)) as [Hend|Hnot].
    + (* nothing left to match: the loop breaks at once *)
      rewrite bool_decide_false in Hidx.
      2:{ rewrite lookup_ge_None_2; [done|]. rewrite letters_length. lia. }
      rewrite Hidx, Hend, Nat.eqb_refl, Hidx.
      rewrite drop_ge by (rewrite letters_length; lia).
      split; [intros _; apply sublist_nil_l | done].
    + destruct (lookup_lt_is_Some_2 (letters sequence) (seq_index st)) as [l Hl].
      { rewrite letters_length. lia. }
      rewrite (drop_S _ _ _ Hl). rewrite Hl in Hidx.
      destruct (decide (l = code)) as [->|Hne].
      * rewrite bool_decide_true in Hidx by done.
        destruct (Nat.eqb_spec (seq_index (scan_residue sequence model chain residue st))
                               (String.length sequence)) as [Heq|Hneq].
        -- split; [intros _|done].
           rewrite drop_ge by (rewrite letters_length; lia).
           apply sublist_skip, sublist_nil_l.
        -- rewrite IH by lia. rewrite Hidx.
           replace (seq_index st + 1) with (S (seq_index st)) by lia.
           split; [apply sublist_skip|].
           intros [Hs|(l' & [= <-] & Hs)]%sublist_cons_r; [|done].
           etrans; [|exact Hs]. by apply sublist_cons.
      * rewrite bool_decide_false in Hidx by congruence.
        rewrite Hidx. destruct (Nat.eqb_spec (seq_index st) (String.length sequence)); [done|].
        rewrite IH by lia. rewrite Hidx, (drop_S _ _ _ Hl).
        split; [apply sublist_cons|].
        intros [Hs|(l' & [= ? ?] & Hs)]%sublist_cons_r; [done|congruence].
Qed.

(** X3. When the structure has exactly one chain [chain_id] in model
    [model_id], the scan matches the whole sequence exactly when the
    characters of the sequence are, in order, among the codes of the
    residues of that chain (a subsequence); with no such chain it selects
    nothing. *)
Theorem scan_matches_subsequence structure sequence chain_id model_id :
  (∀ chain,
      selected_chains structure chain_id model_id = [chain] →
      seq_index (scan_structure structure sequence chain_id model_id)
        = String.length sequence ↔
      letters sequence `sublist_of` codes_of (c_residues chain)) ∧
  (selected_chains structure chain_id model_id = [] →
   scan_structure structure sequence chain_id model_id
   = {| seq_residues := ∅; seq_index := 0; untrimmed_sequence := "" |}).
Proof.
  rewrite scan_structure_chains. split.
  - intros chain ->. cbn [fold_left].
    rewrite scan_chain_complete by (cbn; lia). done.
  - by intros ->.
Qed.


End ScanProperties.

(** ** str.replace and the trimmed path *)

Section ReplaceProperties.

Lemma length_append (a b : string) :
  String.length (a ++ b)%string = String.length a + String.length b.
Proof.
  induction a as [|c a IH]; [done|].
  change (S (String.length (a ++ b)%string) = S (String.length a) + String.length b).
  by rewrite IH.
Qed.

Lemma slice_from_length k s : String.length (slice_from k s) = String.length s - k.
Proof.
  revert k. induction s as [|c s IH]; intros [|k]; cbn; done.
Qed.

Lemma prefix_length old s : String.prefix old s = true → String.length old ≤ String.length s.
Proof.
  revert old. induction s as [|c s IH]; intros [|d old]; cbn; try done; try lia.
  destruct (ascii_dec d c); [|done]. intros H%IH. lia.
Qed.

Lemma prefix_append old b : String.prefix old (old ++ b)%string = true.
Proof.
  induction old as [|c old IH]; [by destruct b|].
  change (String.prefix (String c old) (String c (old ++ b)%string) = true).
  cbn. by destruct (ascii_dec c c).
Qed.

(** Skipping [k] characters is scanning what follows them. *)
Lemma replace_go_skip old new s : ∀ k,
  replace_go k old new s = replace_go 0 old new (slice_from k s).
Proof.
  induction s as [|c s IH]; intros [|k]; try done.
  cbn [replace_go slice_from]. apply IH.
Qed.

Section Lengths.
Variables (old new : string).
Hypothesis old_nonempty : old ≠ ""%string.
Hypothesis not_shorter : String.length old ≤ String.length new.

Lemma replace_go_head c s :
  String.length (replace_go 0 old new (String c s))
  = if String.prefix old (String c s)
    then String.length new
         + String.length (replace_go 0 old new (slice_from (String.length old - 1) s))
    else S (String.length (replace_go 0 old new s)).
Proof using Type.
  cbn [replace_go]. destruct (String.prefix old (String c s)); [|done].
  by rewrite length_append, replace_go_skip.
Qed.

(** A replacement by a string that is not shorter does not shorten. *)
Lemma replace_go_length_ge n : ∀ s,
  String.length s ≤ n → String.length s ≤ String.length (replace_go 0 old new s).
Proof using old_nonempty not_shorter.
  assert (1 ≤ String.length old) as Hold by (destruct old; cbn; [done|lia]).
  induction n as [|n IH]; intros [|c s] Hn; cbn in Hn; try done; try lia.
  rewrite replace_go_head.
  destruct (String.prefix old (String c s)) eqn:Hpre.
  - apply prefix_length in Hpre. cbn in Hpre.
    pose proof (IH (slice_from (String.length old - 1) s)) as Hrest.
    rewrite slice_from_length in Hrest. cbn. lia.
  - pose proof (IH s). cbn. lia.
Qed.

(** A replacement by a longer string lengthens a string in which the old
    one occurs. *)
Lemma replace_go_length_gt s :
  String.length old < String.length new →
  occurs old s →
  String.length s < String.length (replace_go 0 old new s).
Proof using old_nonempty not_shorter.
  assert (1 ≤ String.length old) as Hold by (destruct old; cbn; [done|lia]).
  intros Hlt. induction s as [|c s IH]; intros (a & b & Hs).
  - destruct a; [|done]. destruct old; [done|discriminate].
  - rewrite replace_go_head.
    destruct (String.prefix old (String c s)) eqn:Hpre.
    + apply prefix_length in Hpre. cbn in Hpre.
      pose proof (replace_go_length_ge (String.length s)
                    (slice_from (String.length old - 1) s)) as Hrest.
      rewrite slice_from_length in Hrest. cbn. lia.
    + destruct a as [|d a].
      * change (String c s = (old ++ b)%string) in Hs.
        rewrite Hs in Hpre. by rewrite (prefix_append old b) in Hpre.
      * injection Hs as -> ->. cbn.
        assert (occurs old (a ++ old ++ b)%string) as Hocc by (by exists a, b).
        apply IH in Hocc. lia.
Qed.

End Lengths.

(** The trimmed path of a path with the extension differs from it. *)
Lemma trimmed_path_differs path :
  occurs ".pdb" path → trimmed_path path ≠ path.
Proof.
  intros Hocc Heq.
  pose proof (replace_go_length_gt ".pdb" "_trimmed.pdb" ltac:(done) ltac:(cbn; lia)
                path ltac:(cbn; lia) Hocc) as Hlen.
  unfold trimmed_path, Py.replace in Heq. rewrite Heq in Hlen. lia.
Qed.

Lemma path_join_occurs dir name ext :
  occurs ext (path_join dir (name ++ ext)%string).
Proof.
  unfold path_join. destruct (String.prefix "/" _).
  - exists name, ""%string. by rewrite append_nil_r.
  - destruct (String.rev dir) as [|c r].
    + exists name, ""%string. by rewrite append_nil_r.
    + destruct (Ascii.eqb_spec c "/") as [->|?].
      * exists (dir ++ name)%string, ""%string.
        by rewrite append_nil_r, append_assoc.
      * assert (∃ a, (if c is "/"%char then (dir ++ (name ++ ext))
                      else (dir ++ "/" ++ (name ++ ext)))%string
                     = (a ++ ext)%string) as [a Ha].
        { destruct c as [[] [] [] [] [] [] [] []];
            first [ by exists (dir ++ name)%string; rewrite append_assoc
                  | by exists (dir ++ "/" ++ name)%string; rewrite !append_assoc ]. }
        exists a, ""%string. rewrite append_nil_r. exact Ha.
Qed.

End ReplaceProperties.

(** ** The files of a download *)

Section DownloadFiles.
Import Get3Di.
Context `{Ext : Externals}.

Lemma download_path_occurs row output_dir :
  occurs ".pdb" (download_path row output_dir).
Proof.
  unfold download_path.
  replace (pretty (row_id row) ++ "_" ++ slice_to 4 (domain_text row) ++ ".pdb")%string
    with ((pretty (row_id row) ++ "_" ++ slice_to 4 (domain_text row)) ++ ".pdb")%string
    by (by rewrite !append_assoc).
  apply path_join_occurs.
Qed.

Lemma remove_X_idempotent s : remove_X (remove_X s) = remove_X s.
Proof. apply remove_X_fixed, remove_X_get. Qed.

(** A path joined from a name with an extension ends with the extension. *)
Lemma path_join_ends dir name ext :
  ∃ a, path_join dir (name ++ ext)%string = (a ++ ext)%string.
Proof.
  unfold path_join. destruct (String.prefix "/" _); [by exists name|].
  destruct (String.rev dir) as [|c r]; [by exists name|].
  destruct c as [[] [] [] [] [] [] [] []];
    first [ by exists (dir ++ name)%string; rewrite append_assoc
          | by exists (dir ++ "/" ++ name)%string; rewrite !append_assoc ].
Qed.

(** The last component of a path that ends with [.pdb] ends with it. *)
Lemma basename_go_pdb b : ∀ acc a,
  acc = (a ++ ".pdb")%string →
  ∃ r, basename_go acc (b ++ ".pdb")%string = (r ++ ".pdb")%string.
Proof.
  induction b as [|c b IH]; intros acc a ->; [by exists a|].
  change (String c b ++ ".pdb")%string with (String c (b ++ ".pdb"))%string.
  cbn [basename_go]. destruct (Ascii.eqb c "/"); eauto.
Qed.

Lemma download_path_file row output_dir :
  String.eqb (download_path row output_dir) "" = false ∧
  String.eqb (basename (download_path row output_dir)) "" = false.
Proof.
  unfold download_path.
  replace (pretty (row_id row) ++ "_" ++ slice_to 4 (domain_text row) ++ ".pdb")%string
    with ((pretty (row_id row) ++ "_" ++ slice_to 4 (domain_text row)) ++ ".pdb")%string
    by (by rewrite !append_assoc).
  destruct (path_join_ends output_dir
              (pretty (row_id row) ++ "_" ++ slice_to 4 (domain_text row)) ".pdb")
    as [a ->].
  split; [by destruct a|].
  unfold basename. destruct (basename_go_pdb a (a ++ ".pdb") a eq_refl) as [r ->].
  by destruct r.
Qed.

(** A path that does not end with a slash is opened for writing exactly
    when it is writable. *)
Lemma open_w_file path content w :
  String.eqb path "" = false →
  String.eqb (basename path) "" = false →
  if writable w path
  then open_w path content w = (inr tt, set_fs (insert path content) w)
  else ∃ e, open_w path content w = (inl e, w).
Proof.
  intros Hpath Hbase. unfold open_w. rewrite Hpath, Hbase.
  destruct (writable w path); [done|].
  destruct (dir_exists w (dirname path)); eauto.
Qed.

(** X5. For a row that reaches the [try] (cells of text, a well-formed
    Domain) and whose GET is answered by an exception or by a 4xx/5xx
    status, [download_and_trim_pdb] writes no file: it returns the record
    without a file, the file system is unchanged and one line is printed. *)
Theorem failed_download_writes_nothing row output_dir w :
  enters_try row = true →
  get_failed (http_get (length (requests w)) (row_url row)) →
  ∃ line w',
    download_and_trim_pdb row output_dir w
      = (inr {| sequence_id := row_id row; pdb_file := None |}, w') ∧
    fs w' = fs w ∧
    stdout w' = stdout w ++ [line] ∧
    requests w' = requests w ++ [row_url row].
Proof.
  intros Hwf Hfail.
  destruct (download_get_failed row output_dir w Hwf Hfail) as [line Hrun].
  exists line. eexists. split; [exact Hrun|]. done.
Qed.

(** X6. For a row of text with a well-formed Domain whose GET is answered
    without an error status, [download_and_trim_pdb] returns a record with
    the row's id.  When the directory of the download exists and no
    directory stands where the download goes, it ends in one of two ways:
    it returns the trimmed path, the trimmed file is there with the
    verified sequence and the downloaded file has been removed; or it
    returns the record without a file and the downloaded file is left in
    the output directory.  Otherwise the download cannot be written: the
    record is without a file and the files are as they were.  The first
    case is that of a download that can be written: its file is there
    already, or its directory is and no directory stands in its place. *)
Theorem answered_download_files row output_dir sequence domain chain model_id response w :
  Sequence row = Str sequence →
  Domain row = Str domain →
  Py.index domain 4 = inr chain →
  Py.int (slice_from 5 domain) = inr model_id →
  get_ok (http_get (length (requests w)) (row_url row)) response →
  let path := download_path row output_dir in
  ∃ result w',
    download_and_trim_pdb row output_dir w = (inr result, w') ∧
    sequence_id result = row_id row ∧
    if writable w path
    then
      (pdb_file result = Some (trimmed_path path) ∧
       fs w' !! path = None ∧
       ∃ text structure',
         fs w' !! trimmed_path path = Some text ∧
         pdb_parse text = inr structure' ∧
         standard_codes structure' chain model_id = remove_X sequence) ∨
      (pdb_file result = None ∧
       fs w' !! path = Some (text response))
    else pdb_file result = None ∧ fs w' = fs w.
Proof.
  intros Hs Hd Hc Hm [Hget Hstatus] path.
  pose proof (trimmed_path_differs path (download_path_occurs row output_dir)) as Hne.
  destruct (download_path_file row output_dir) as [Hpath Hbase]. fold path in Hpath, Hbase.
  rewrite (download_well_formed _ _ _ _ _ _ _ Hs Hd Hc Hm). unfold try_except.
  rewrite download_body_unfold. cbn zeta. rewrite Hget.
  assert (Z.leb 400 (status_code response) && Z.ltb (status_code response) 600 = false)
    as -> by (apply andb_false_iff; lia).
  assert (path_join output_dir (pretty (row_id row) ++ "_" ++ slice_to 4 domain ++ ".pdb")
          = path) as ->.
  { unfold path, download_path, domain_text. by rewrite Hd. }
  pose proof (open_w_file path (text response) (add_request (row_url row) w) Hpath Hbase)
    as Hopen.
  change (writable (add_request (row_url row) w)) with (writable w) in Hopen.
  destruct (writable w path).
  2:{ destruct Hopen as [e ->]. rewrite download_handler_logged.
      eexists _, _. split; [reflexivity|]. done. }
  rewrite Hopen.
  assert (∀ (e : exn) wx,
            fs wx !! path = Some (text response) →
            ∃ result w',
              download_handler (row_id row) e wx = (inr result, w') ∧
              sequence_id result = row_id row ∧
              ((pdb_file result = Some (trimmed_path path) ∧
                fs w' !! path = None ∧
                ∃ text structure',
                  fs w' !! trimmed_path path = Some text ∧
                  pdb_parse text = inr structure' ∧
                  standard_codes structure' chain model_id = remove_X sequence) ∨
               (pdb_file result = None ∧ fs w' !! path = Some (text response))))
    as Hmissing.
  { intros e wx Hfile. rewrite download_handler_logged.
    eexists _, _. split; [reflexivity|]. split; [done|]. by right. }
  set (w1 := set_fs (insert path (text response)) _).
  assert (fs w1 !! path = Some (text response)) as Hw1 by apply lookup_insert_eq.
  rewrite trim_pdb_unfold, Hw1.
  destruct (pdb_parse (text response)) as [e|structure]; [by apply Hmissing|].
  cbv zeta.
  set (text' := trimmed_text structure (clean_sequence sequence) chain model_id).
  set (w2 := set_fs (insert (trimmed_path path) text') w1).
  assert (fs w2 !! path = Some (text response)) as Hw2.
  { unfold w2. cbn [fs set_fs]. by rewrite lookup_insert_ne. }
  destruct (pdb_parse text') as [e|structure'] eqn:Hparse; [by apply Hmissing|].
  case_bool_decide; [|by apply Hmissing].
  case_bool_decide as Hcodes; [|by apply Hmissing].
  rewrite Hw2.
  eexists _, _. split; [reflexivity|]. split; [done|]. left.
  split_and!; cbn [pdb_file].
  - done.
  - apply lookup_delete_eq.
  - exists text', structure'. split_and!.
    + cbn [fs set_fs]. rewrite lookup_delete_ne by done. apply lookup_insert_eq.
    + done.
    + rewrite <- Hcodes, !clean_sequence_remove_X. apply remove_X_idempotent.
Qed.

End DownloadFiles.

(** ** The foldseek commands *)

Section FoldseekRuns.
Import Get3Di.
Context `{Ext : Externals}.

(** X7. The [try] around the three foldseek commands never raises.  The
    commands run in order until one exits with a non-zero code; the commands
    after it are not run.  On a failure three lines are printed (the command,
    its stderr, the caught message), otherwise the line announcing the FASTA
    file. *)
Theorem foldseek_phase_runs output_dir query_db query_db_ss_fasta w :
  let run := run_commands (foldseek_command_lines output_dir query_db query_db_ss_fasta)
                          (fs w) in
  foldseek_phase output_dir query_db query_db_ss_fasta w
  = (inr tt,
     {| fs := run.2;
        dirs := dirs w;
        stdout :=
          stdout w ++
          match run.1 with
          | Some (command, result) =>
              [ ("Error running command: " ++ command)%string; cp_stderr result;
                "An error occurred: Command failed"%string ]
          | None => [ ("FASTA file created at " ++ query_db_ss_fasta)%string ]
          end;
        requests := requests w |}).
Proof.
  unfold foldseek_phase, foldseek_commands, foldseek_command_lines, try_except,
    run_command, subprocess_run.
  unfold_M. cbn [run_commands fs set_fs].
  destruct (shell _ (fs w)) as [r1 f1].
  destruct (Z.eqb (returncode r1) 0); cbn [negb fs dirs set_fs stdout requests fst snd];
    [|by rewrite <- !(assoc_L (++))].
  destruct (shell _ f1) as [r2 f2].
  destruct (Z.eqb (returncode r2) 0); cbn [negb fs dirs set_fs stdout requests fst snd];
    [|by rewrite <- !(assoc_L (++))].
  destruct (shell _ f2) as [r3 f3].
  destruct (Z.eqb (returncode r3) 0); cbn [negb fs dirs set_fs stdout requests fst snd];
    [done|by rewrite <- !(assoc_L (++))].
Qed.

End FoldseekRuns.

(** ** The cleanup of process_dataset *)

Section CleanupProperties.
Import Get3Di.
Context `{Ext : Externals}.

Lemma slice_from_append a b : slice_from (String.length a) (a ++ b)%string = b.
Proof.
  induction a as [|c a IH]; [by destruct b|].
  change (slice_from (String.length a) (a ++ b)%string = b). exact IH.
Qed.

(** Joining a name to a directory appends it to the directory's prefix. *)
Lemma path_join_prefix dir name :
  String.prefix "/" name = false →
  path_join dir name = (path_join dir "" ++ name)%string.
Proof.
  intros Hname. unfold path_join. rewrite Hname.
  assert (String.prefix "/" "" = false) as -> by done.
  destruct (String.rev dir) as [|c r]; [done|].
  destruct c as [[] [] [] [] [] [] [] []];
    first [ by rewrite append_nil_r | by rewrite !append_assoc ].
Qed.

Lemma entry_of_join dir name :
  plain_name name → entry_of dir (path_join dir name) = Some name.
Proof.
  intros [Hplain Hslash]. unfold entry_of.
  rewrite (path_join_prefix dir name Hslash).
  by rewrite prefix_append, slice_from_append, Hplain.
Qed.

(** What [os.listdir] returns, when it returns. *)
Lemma listdir_returns dir w names w' :
  listdir dir w = (inr names, w') → names = entries dir w ∧ w' = w.
Proof. unfold listdir. repeat case_match; by intros [= <- <-]. Qed.

(** A file directly in a directory is listed by [os.listdir]. *)
Lemma listdir_lists dir name content w :
  plain_name name →
  fs w !! path_join dir name = Some content →
  name ∈ entries dir w.
Proof.
  intros Hname Hfile. unfold entries.
  apply elem_of_remove_dups, elem_of_app. left. apply list_elem_of_omap.
  exists (path_join dir name, content). split.
  - by apply elem_of_map_to_list.
  - by apply entry_of_join.
Qed.

(** [os.remove] calls only delete. *)
Lemma remove_only_deletes path w w' k v :
  Os.remove path w = (inr tt, w') → fs w' !! k = Some v → fs w !! k = Some v.
Proof.
  unfold Os.remove. destruct (fs w !! path); [|done]. intros [= <-]. cbn.
  intros Hk. by apply lookup_delete_Some in Hk as [_ ?].
Qed.

Lemma remove_removes path w w' :
  Os.remove path w = (inr tt, w') → fs w' !! path = None.
Proof.
  unfold Os.remove. destruct (fs w !! path); [|done]. intros [= <-]. cbn.
  apply lookup_delete_eq.
Qed.

Lemma remove_all_returns {A} (paths : list A) (to_path : A → string) : ∀ w w',
  for_each paths (λ x, Os.remove (to_path x)) w = (inr tt, w') →
  (∀ k v, fs w' !! k = Some v → fs w !! k = Some v) ∧
  (∀ x, x ∈ paths → fs w' !! to_path x = None).
Proof.
  induction paths as [|x paths IH]; intros w w' Hrun.
  - injection Hrun as <-. split; [done|]. intros x Hx. by apply elem_of_nil in Hx.
  - cbn [for_each] in Hrun.
    apply bind_returns in Hrun as ([] & w1 & Hremove & Hrest).
    destruct (IH _ _ Hrest) as [Honly Hgone]. split.
    + intros k v Hk. eapply remove_only_deletes; eauto.
    + intros y [Heq|Hy]%elem_of_cons; [subst y|by apply Hgone].
      destruct (fs w' !! to_path x) as [v|] eqn:Hk; [|done].
      apply Honly in Hk. by rewrite (remove_removes _ _ _ Hremove) in Hk.
Qed.

(** What a completed cleanup leaves. *)
Lemma cleanup_returns output_dir query_db w w' :
  cleanup_phase output_dir query_db w = (inr tt, w') →
  (∀ k v, fs w' !! k = Some v → fs w !! k = Some v) ∧
  (∀ suffix, suffix ∈ ["_a3m"; "_ss"; "_ss_h"; "_h"]%string →
             fs w' !! (query_db ++ suffix)%string = None) ∧
  (∀ name, plain_name name → fs w' !! path_join output_dir name = None).
Proof.
  unfold cleanup_phase. intros Hrun.
  apply bind_returns in Hrun as ([] & w1 & H1 & Hrun).
  apply bind_returns in Hrun as ([] & w2 & H2 & Hrun).
  apply bind_returns in Hrun as ([] & w3 & H3 & Hrun).
  apply bind_returns in Hrun as ([] & w4 & H4 & Hrun).
  apply bind_returns in Hrun as (files & w5 & Hlist & Hrun).
  apply listdir_returns in Hlist as [Hfiles ->].
  destruct (remove_all_returns files (λ file, path_join output_dir file) _ _ Hrun)
    as [Honly Hgone].
  assert (∀ k v, fs w' !! k = Some v → fs w !! k = Some v) as Hall.
  { intros k v Hk. apply Honly in Hk.
    eauto using remove_only_deletes. }
  assert (∀ path wa wb, Os.remove path wa = (inr tt, wb) →
            (∀ k v, fs w' !! k = Some v → fs wb !! k = Some v) →
            fs w' !! path = None) as Hstays.
  { intros path wa wb Hrem Hlater.
    destruct (fs w' !! path) as [v|] eqn:Hk; [|done].
    apply Hlater in Hk. by rewrite (remove_removes _ _ _ Hrem) in Hk. }
  split_and!; [done| |].
  - intros suffix Hin.
    repeat (apply elem_of_cons in Hin as [->|Hin]);
      [eapply Hstays; [eassumption|]..|by apply elem_of_nil in Hin];
      intros k v Hk; apply Honly in Hk; eauto using remove_only_deletes.
  - intros name Hname.
    destruct (fs w4 !! path_join output_dir name) as [content|] eqn:Hfile.
    + apply Hgone. rewrite Hfiles.
      by apply (listdir_lists output_dir name content w4).
    + destruct (fs w' !! path_join output_dir name) as [v|] eqn:Hk; [|done].
      apply Honly in Hk. congruence.
Qed.

(** X8. When [process_dataset] runs to its end, no file is left directly in
    the output directory - the downloaded and trimmed PDB files, and the
    results CSV the call itself wrote, are removed - and the four
    intermediate database files are removed as well. *)
Theorem process_dataset_leaves_nothing data output_dir query_db query_db_ss_fasta w w' :
  process_dataset data output_dir query_db query_db_ss_fasta w = (inr tt, w') →
  (∀ name, plain_name name → fs w' !! path_join output_dir name = None) ∧
  fs w' !! output_csv_path output_dir = None ∧
  (∀ suffix, suffix ∈ ["_a3m"; "_ss"; "_ss_h"; "_h"]%string →
             fs w' !! (query_db ++ suffix)%string = None).
Proof.
  unfold process_dataset. intros Hrun.
  apply bind_returns in Hrun as ([] & w1 & _ & Hrun).
  apply bind_returns in Hrun as ([] & w2 & _ & Hrun).
  apply cleanup_returns in Hrun as (_ & Hdb & Hdir).
  split_and!; [done| |done].
  apply Hdir. by split.
Qed.

End CleanupProperties.

(** ** embed_sequence *)

Section EmbedProperties.
Import PredictEmbed.
Context `{Ext : PredictEmbed.Externals}.

Lemma append_inj_r (a b s : string) : (a ++ s)%string = (b ++ s)%string → a = b.
Proof.
  intros Heq.
  assert (String.length a = String.length b) as Hlen.
  { apply (f_equal String.length) in Heq. rewrite !length_append in Heq. lia. }
  revert b Heq Hlen. induction a as [|c a IH]; intros [|d b] Heq Hlen; try done.
  change (String c (a ++ s) = String d (b ++ s))%string in Heq.
  injection Heq as -> Heq. f_equal. apply IH; [done|]. cbn in Hlen. lia.
Qed.

(** Different blocks go to different files. *)
Lemma chunk_file_inj k k' : chunk_file k = chunk_file k' → k = k'.
Proof.
  unfold chunk_file. intros Heq.
  do 2 apply (inj (String.append _)) in Heq.
  do 2 apply append_inj_r in Heq.
  by apply (inj pretty) in Heq.
Qed.

Lemma embed_each_embedded sequences : ∀ acc vs,
  embedded sequences vs → embed_each sequences acc = inr (acc ++ vs).
Proof.
  induction sequences as [|seq rest IH]; intros acc vs Hemb.
  - apply Forall2_nil_inv_l in Hemb as ->. by rewrite app_nil_r.
  - apply Forall2_cons_inv_l in Hemb as (v & vs' & Hv & Hrest & ->).
    cbn [embed_each]. rewrite Hv, (IH _ vs' Hrest). by rewrite <- (assoc_L (++)).
Qed.

Lemma embedded_exists sequences :
  (∀ seq, seq ∈ sequences → ∃ v, embed_mean seq = inr v) →
  ∃ vs, embedded sequences vs.
Proof.
  induction sequences as [|seq rest IH]; intros Hall.
  - exists []. constructor.
  - destruct (Hall seq) as [v Hv]; [left|].
    destruct IH as [vs Hvs]; [intros s Hs; apply Hall; by right|].
    exists (v :: vs). by constructor.
Qed.

(** *** Directories and the paths of the archives *)

Lemma is_dir_spec w dir :
  is_dir w dir = true ↔
  dir = ""%string ∨ dir = "."%string ∨ dir ∈ dirs w ∨
  (∃ p, is_Some (fs w !! p) ∧ under dir p = true) ∨
  (∃ d, d ∈ dirs w ∧ under dir d = true).
Proof.
  unfold is_dir.
  destruct (String.eqb_spec dir "") as [->|H1]; [cbn; tauto|].
  destruct (String.eqb_spec dir ".") as [->|H2]; [cbn; tauto|].
  cbn [orb]. rewrite !orb_true_iff, bool_decide_eq_true, !existsb_exists.
  split.
  - intros [[H|([p c] & Hin & Hu)]|(d & Hin & Hu)].
    + auto.
    + right; right; right; left. exists p. split; [|done].
      apply list_elem_of_In, elem_of_map_to_list in Hin. eauto.
    + right; right; right; right. exists d. split; [|done].
      apply list_elem_of_In in Hin. by apply elem_of_elements in Hin.
  - intros [?|[?|[?|[(p & [c Hc] & Hu)|(d & Hd & Hu)]]]]; try done.
    + auto.
    + left. right. exists (p, c). split; [|done].
      apply list_elem_of_In. by apply elem_of_map_to_list.
    + right. exists d. split; [|done].
      apply list_elem_of_In. by apply elem_of_elements.
Qed.

(** Writing a file removes no directory, and makes one only above the
    file. *)
Lemma is_dir_insert w dir path content :
  is_dir w dir = true → is_dir (set_fs (insert path content) w) dir = true.
Proof.
  rewrite !is_dir_spec. cbn [fs dirs set_fs].
  intros [?|[?|[?|[(p & Hp & Hu)|?]]]]; auto.
  right; right; right; left. exists p. split; [|done].
  destruct (decide (p = path)) as [->|Hne].
  - rewrite lookup_insert_eq. eauto.
  - by rewrite lookup_insert_ne.
Qed.

Lemma is_dir_insert_false w dir path content :
  is_dir w dir = false → under dir path = false →
  is_dir (set_fs (insert path content) w) dir = false.
Proof.
  intros Hno Hu. apply not_true_iff_false. intros Hyes.
  apply not_true_iff_false in Hno. apply Hno. revert Hyes.
  rewrite !is_dir_spec. cbn [fs dirs set_fs].
  intros [?|[?|[?|[(p & Hp & Hup)|?]]]]; auto.
  destruct (decide (p = path)) as [->|Hne]; [congruence|].
  rewrite lookup_insert_ne in Hp by done. eauto 10.
Qed.

Lemma pretty_N_char_digit x : is_digit (pretty_N_char x) = true.
Proof. unfold pretty_N_char. repeat case_match; reflexivity. Qed.

Lemma pretty_N_go_digits x : ∀ s,
  all_digits s = true → all_digits (pretty_N_go x s) = true.
Proof.
  induction (N.lt_wf_0 x) as [x _ IH]. intros s Hs.
  destruct (decide (x = 0)%N) as [->|Hx]; [by rewrite pretty_N_go_0|].
  rewrite pretty_N_go_step by lia. apply IH.
  - apply N.div_lt; lia.
  - cbn [all_digits]. by rewrite pretty_N_char_digit, Hs.
Qed.

(** A natural number is printed with decimal digits only. *)
Lemma pretty_nat_digits (n : nat) : all_digits (pretty n) = true.
Proof.
  unfold pretty, pretty_nat, pretty, pretty_N.
  case_decide; [done|]. by apply pretty_N_go_digits.
Qed.

Lemma digits_no_slash s : all_digits s = true → no_slash s = true.
Proof.
  induction s as [|c s IH]; [done|]. cbn [all_digits no_slash].
  intros [Hc Hs]%andb_true_iff. rewrite (IH Hs), andb_true_r.
  destruct (Ascii.eqb_spec c "/") as [->|]; done.
Qed.

Lemma no_slash_app a b : no_slash (a ++ b) = no_slash a && no_slash b.
Proof.
  induction a as [|c a IH]; [done|].
  change (no_slash (String c (a ++ b)) = no_slash (String c a) && no_slash b).
  cbn [no_slash]. by rewrite IH, andb_assoc.
Qed.

Lemma basename_go_no_slash t : ∀ acc, no_slash t = true → basename_go acc t = acc.
Proof.
  induction t as [|c t IH]; intros acc; [done|]. cbn [no_slash basename_go].
  intros [Hc Ht]%andb_true_iff. destruct (Ascii.eqb c "/"); [done|]. by apply IH.
Qed.

(** The last component of a path is what follows its last slash. *)
Lemma basename_join a t :
  no_slash t = true → basename (a ++ String "/" t) = t.
Proof.
  intros Ht. unfold basename. generalize (a ++ String "/" t)%string at 1.
  induction a as [|c a IH]; intros acc.
  - change (basename_go t t = t). by apply basename_go_no_slash.
  - change (basename_go acc (String c (a ++ String "/" t)) = t).
    cbn [basename_go]. destruct (Ascii.eqb c "/"); apply IH.
Qed.

Lemma slice_to_append a b : slice_to (String.length a) (a ++ b) = a.
Proof.
  induction a as [|c a IH]; [by destruct b|].
  change (String c (slice_to (String.length a) (a ++ b)) = String c a). by rewrite IH.
Qed.

Lemma dirname_join a t :
  no_slash t = true →
  dirname (a ++ String "/" t)
  = match rstrip_slash (a ++ "/") with
    | EmptyString => (a ++ "/")%string
    | stripped => stripped
    end.
Proof.
  intros Ht. unfold dirname. rewrite (basename_join a t Ht).
  replace (a ++ String "/" t)%string with ((a ++ "/") ++ t)%string
    by (by rewrite append_assoc).
  rewrite length_append.
  replace (String.length (a ++ "/") + String.length t - String.length t)
    with (String.length (a ++ "/")) by lia.
  by rewrite slice_to_append.
Qed.

Lemma prefix_app_same a x y : String.prefix (a ++ x) (a ++ y) = String.prefix x y.
Proof.
  induction a as [|c a IH]; [done|].
  change (String.prefix (String c (a ++ x)) (String c (a ++ y)) = String.prefix x y).
  cbn [String.prefix]. by destruct (ascii_dec c c).
Qed.

Lemma digits_not_under d1 : ∀ d2,
  all_digits d1 = true → all_digits d2 = true →
  String.prefix (d1 ++ ".0.npz/") (d2 ++ ".0.npz") = false.
Proof.
  induction d1 as [|c1 d1 IH]; intros [|c2 d2] H1 H2.
  - reflexivity.
  - cbn [all_digits] in H2. apply andb_true_iff in H2 as [Hc _].
    change (String.prefix ".0.npz/" (String c2 (d2 ++ ".0.npz")) = false).
    cbn [String.prefix]. destruct (ascii_dec "." c2) as [<-|]; done.
  - cbn [all_digits] in H1. apply andb_true_iff in H1 as [Hc _].
    change (String.prefix (String c1 (d1 ++ ".0.npz/")) ".0.npz" = false).
    cbn [String.prefix]. destruct (ascii_dec c1 ".") as [->|]; done.
  - cbn [all_digits] in H1, H2.
    apply andb_true_iff in H1 as [_ H1]. apply andb_true_iff in H2 as [_ H2].
    change (String.prefix (String c1 (d1 ++ ".0.npz/")) (String c2 (d2 ++ ".0.npz")) = false).
    cbn [String.prefix]. destruct (ascii_dec c1 c2); [by apply IH|done].
Qed.

Lemma chunk_file_eq k :
  chunk_file k
  = (embeddings_dir ++ String "/" ("T5_" ++ (pretty k ++ ".0.npz")))%string.
Proof. unfold chunk_file. rewrite (append_assoc (pretty k)). reflexivity. Qed.

Lemma chunk_file_name (k : nat) : no_slash ("T5_" ++ (pretty k ++ ".0.npz")) = true.
Proof.
  change (no_slash (String "T" (String "5" (String "_" (pretty k ++ ".0.npz")))) = true).
  cbn [no_slash]. change (no_slash (pretty k ++ ".0.npz") = true).
  rewrite no_slash_app, (digits_no_slash _ (pretty_nat_digits k)). reflexivity.
Qed.

(** The archives are files of the Embeddings directory, and none lies
    under another. *)
Lemma chunk_file_path k :
  String.eqb (chunk_file k) "" = false ∧
  String.eqb (basename (chunk_file k)) "" = false ∧
  dirname (chunk_file k) = embeddings_dir.
Proof.
  rewrite chunk_file_eq. split_and!.
  - reflexivity.
  - by rewrite (basename_join _ _ (chunk_file_name k)).
  - by rewrite (dirname_join _ _ (chunk_file_name k)).
Qed.

Lemma chunk_not_under j k : under (chunk_file j) (chunk_file k) = false.
Proof.
  unfold under. rewrite !chunk_file_eq.
  change (String.prefix (("./src/cathe-predict/Embeddings/T5_" ++ (pretty j ++ ".0.npz")) ++ "/")
                        ("./src/cathe-predict/Embeddings/T5_" ++ (pretty k ++ ".0.npz"))
          = false).
  rewrite !append_assoc, prefix_app_same.
  apply digits_not_under; apply pretty_nat_digits.
Qed.

(** The loop from the [k]-th block on. *)
Lemma embed_loop_writes sequences fuel : ∀ k w,
  (∀ seq, seq ∈ sequences → ∃ v, embed_mean seq = inr v) →
  length sequences ≤ 1000 * k + fuel →
  dir_exists w embeddings_dir = true →
  (∀ j, k ≤ j → 1000 * j < length sequences → is_dir w (chunk_file j) = false) →
  ∃ w',
    embed_loop fuel sequences (1000 * k) w = (inr tt, w') ∧
    (∀ j, k ≤ j → 1000 * j < length sequences →
          ∃ vs, embedded (chunk sequences j) vs ∧
                fs w' !! chunk_file j = Some (savez vs)) ∧
    (∀ path, (∀ j, k ≤ j → 1000 * j < length sequences → path ≠ chunk_file j) →
             fs w' !! path = fs w !! path).
Proof.
  induction fuel as [|fuel IH]; intros k w Hall Hlen Hdir Hfree.
  - exists w. split_and!; [done| |done]. intros j Hj Hlt. lia.
  - cbn [embed_loop].
    destruct (Nat.ltb_spec (1000 * k) (length sequences)) as [Hlt|Hge].
    2:{ exists w. split_and!; [done| |done]. intros j Hj Hlt. lia. }
    replace (1000 * k + 1000 - 1000 * k) with 1000 by lia.
    fold (chunk sequences k).
    destruct (embedded_exists (chunk sequences k)) as [vs Hvs].
    { intros seq Hseq. apply Hall. unfold chunk in Hseq.
      by apply subseteq_take, subseteq_drop in Hseq. }
    unfold Os.bind at 1, Os.print at 1.
    unfold Os.bind at 1, Os.lift at 1.
    rewrite (embed_each_embedded _ [] vs Hvs). cbn [app].
    replace (1000 * k / 1000) with k by (by rewrite Nat.mul_comm, Nat.div_mul).
    fold (chunk_file k).
    replace (1000 * k + 1000) with (1000 * S k) by lia.
    destruct (chunk_file_path k) as (Hpath & Hbase & Hparent).
    match goal with
    | |- context [Os.bind (open_w (chunk_file k) (savez vs)) _ ?w0] =>
        pose proof (open_w_file (chunk_file k) (savez vs) w0 Hpath Hbase) as Hopen;
        change (writable w0) with (writable w) in Hopen;
        set (w1 := set_fs (insert (chunk_file k) (savez vs)) w0) in *
    end.
    unfold writable in Hopen.
    rewrite Hparent, Hdir, (Hfree k) in Hopen by (done || lia).
    rewrite orb_true_r in Hopen.
    unfold Os.bind at 1. rewrite Hopen.
    destruct (IH (S k) w1 Hall ltac:(lia)) as (w' & Hrun & Hfiles & Hother).
    { unfold dir_exists. apply is_dir_insert. exact Hdir. }
    { intros j Hj Hjlt. apply is_dir_insert_false.
      - apply Hfree; [lia|done].
      - apply chunk_not_under. }
    exists w'. split_and!; [done| |].
    + intros j Hj Hjlt. destruct (decide (j = k)) as [->|Hjk].
      * exists vs. split; [done|].
        rewrite Hother; [cbn; apply lookup_insert_eq|].
        intros j Hj' _ Heq. apply chunk_file_inj in Heq. lia.
      * apply Hfiles; [lia|done].
    + intros path Hpath'. rewrite Hother.
      * cbn. apply lookup_insert_ne. intros Heq. by apply (Hpath' k).
      * intros j Hj' Hjlt. apply Hpath'; [lia|done].
Qed.

(** X9. When the embedder loads, the dataset file is read and every sequence
    has an embedding: if the directory [./src/cathe-predict/Embeddings]
    exists and holds no directory named as an archive, [embed_sequence]
    returns having written one archive per block of 1000 sequences -
    [T5_0.0.npz] for the first 1000, [T5_1.0.npz] for the next, ... - each
    holding the embeddings of its block in order, and no other file is
    changed (none is written for an empty dataset); if the directory does
    not exist and there is a sequence, [embed_sequence] raises
    [FileNotFoundError], or [NotADirectoryError] when a file stands above
    the archive, and writes no file. *)
Theorem embed_sequence_writes_blocks ds sequences w :
  load_embedder = inr tt →
  fs w !! "./src/cathe-predict/Dataset.csv"%string = Some ds →
  read_sequences ds = inr sequences →
  (∀ seq, seq ∈ sequences → ∃ v, embed_mean seq = inr v) →
  (dir_exists w embeddings_dir = true →
   (∀ k, 1000 * k < length sequences → is_dir w (chunk_file k) = false) →
   ∃ w',
     embed_sequence w = (inr tt, w') ∧
     (∀ k, 1000 * k < length sequences →
           ∃ vs, embedded (chunk sequences k) vs ∧
                 fs w' !! chunk_file k = Some (savez vs)) ∧
     (∀ path, (∀ k, 1000 * k < length sequences → path ≠ chunk_file k) →
              fs w' !! path = fs w !! path)) ∧
  (dir_exists w embeddings_dir = false →
   sequences ≠ [] →
   ∃ e w',
     embed_sequence w = (inl e, w') ∧
     fs w' = fs w ∧
     (exn_cls e = FileNotFoundError ∨ exn_cls e = PyError "NotADirectoryError")).
Proof.
  intros Hload Hfile Hread Hall. unfold embed_sequence.
  split; intros Hdir Hmore;
    unfold Os.bind at 1, Os.print at 1;
    unfold Os.bind at 1, Os.lift at 1; rewrite Hload;
    unfold Os.bind at 1, Os.read_file at 1; cbn [fs]; rewrite Hfile;
    unfold Os.bind at 1, Os.lift at 1; rewrite Hread.
  - rename Hmore into Hfree.
    match goal with
    | |- context [embed_loop _ sequences 0 ?w1] =>
        destruct (embed_loop_writes sequences (length sequences) 0 w1 Hall ltac:(lia))
          as (w' & Hrun & Hfiles & Hother)
    end.
    { exact Hdir. }
    { intros j _ Hj. by apply Hfree. }
    change (1000 * 0) with 0 in Hrun.
    exists w'. split_and!; [done| |].
    + intros k Hk. apply Hfiles; [lia|done].
    + intros path Hpath. rewrite Hother; [done|]. intros j _ Hj. by apply Hpath.
  - rename Hmore into Hsome.
    destruct sequences as [|seq rest] eqn:Hseqs; [done|]. rewrite <- Hseqs in *.
    assert (length sequences = S (length rest)) as -> by (by rewrite Hseqs).
    cbn [embed_loop].
    assert ((0 <? length sequences) = true) as ->
      by (apply Nat.ltb_lt; rewrite Hseqs; cbn; lia).
    destruct (embedded_exists (take (0 + 1000 - 0) (drop 0 sequences))) as [vs Hvs].
    { intros s Hs. apply Hall. by apply subseteq_take, subseteq_drop in Hs. }
    unfold Os.bind at 1, Os.print at 1.
    unfold Os.bind at 1, Os.lift at 1.
    rewrite (embed_each_embedded _ [] vs Hvs). cbn [app].
    change (0 / 1000) with 0. fold (chunk_file 0).
    destruct (chunk_file_path 0) as (Hpath & Hbase & Hparent).
    match goal with
    | |- context [Os.bind (open_w (chunk_file 0) (savez vs)) _ ?w0] =>
        assert (open_w (chunk_file 0) (savez vs) w0
                = (inl (no_entry w0 (chunk_file 0)), w0)) as Hopen
    end.
    { assert (fs w !! chunk_file 0 = None) as Hnofile.
      { destruct (fs w !! chunk_file 0) as [c|] eqn:Hc; [|done].
        rewrite (dir_exists_file w embeddings_dir (chunk_file 0) c Hc) in Hdir; [done|].
        rewrite chunk_file_eq. change (rstrip_slash embeddings_dir) with embeddings_dir.
        unfold under. by rewrite prefix_app_same. }
      unfold open_w, writable. rewrite Hpath, Hbase, Hparent. cbn [fs].
      match goal with
      | |- context [dir_exists ?w0 embeddings_dir] =>
          change (dir_exists w0 embeddings_dir) with (dir_exists w embeddings_dir)
      end.
      by rewrite Hdir, Hnofile. }
    unfold Os.bind at 1. rewrite Hopen.
    eexists _, _. split; [reflexivity|]. split; [done|].
    unfold no_entry. destruct (file_above _ _ _); cbn; auto.
Qed.

End EmbedProperties.

(** ** The label encoding *)

Section LabelProperties.
Import Labels.
Variables (classes_ np_unique : list string → list string).

Lemma append_all_from (y_tot rest pre : list string) :
  foldl (λ acc i,
           match acc with
           | inl e => inl e
           | inr y_tot =>
               match (pre ++ rest) !! i with
               | Some label => inr (y_tot ++ [label])
               | None => inl (Raise IndexError "list index out of range")
               end
           end)
        (inr y_tot) (seq (length pre) (length rest))
  = inr (y_tot ++ rest).
Proof.
  revert y_tot pre. induction rest as [|label rest IH]; intros y_tot pre.
  - cbn. by rewrite app_nil_r.
  - cbn [length seq foldl].
    rewrite lookup_app_r, Nat.sub_diag by lia. cbn [lookup list_lookup].
    specialize (IH (y_tot ++ [label]) (pre ++ [label])).
    rewrite <- !(assoc_L (++)), length_app in IH. cbn [app length] in IH.
    rewrite Nat.add_1_r in IH. exact IH.
Qed.

Lemma append_all_spec y y_tot : append_all y y_tot = inr (y_tot ++ y).
Proof. exact (append_all_from y_tot y []). Qed.

Lemma y_process_spec y_train y_val y_test :
  y_process y_train y_val y_test = inr (y_train ++ y_val ++ y_test).
Proof.
  unfold y_process. rewrite !append_all_spec. cbn [app].
  by rewrite (assoc_L (++)).
Qed.

Lemma position_Some label classes code :
  position label classes = Some code → classes !! code = Some label.
Proof.
  revert code. induction classes as [|c rest IH]; intros code; cbn [position]; [done|].
  case_bool_decide as Hc.
  - intros [= <-]. by subst.
  - destruct (position label rest) as [p|]; [|done].
    intros [= <-]. by apply IH.
Qed.

Lemma position_None label classes :
  position label classes = None ↔ label ∉ classes.
Proof.
  induction classes as [|c rest IH]; cbn [position].
  - split; [intros _; apply not_elem_of_nil|done].
  - rewrite not_elem_of_cons. case_bool_decide as Hc.
    + split; [done|]. intros [? _]. by subst.
    + destruct (position label rest) as [p|]; cbn [fmap option_fmap option_map].
      * split; [done|]. intros [_ Hrest]. by apply IH in Hrest.
      * split; [|done]. intros _. split; [congruence|]. by apply IH.
Qed.

Lemma transform_encodes classes y :
  (∀ label, label ∈ y → label ∈ classes) →
  ∃ codes, transform classes y = inr codes ∧ encodes classes y codes.
Proof.
  induction y as [|label rest IH]; intros Hin.
  - exists []. split; [done|]. split; [done|]. intros i l. by rewrite lookup_nil.
  - cbn [transform].
    destruct (position label classes) as [code|] eqn:Hpos.
    2:{ apply position_None in Hpos. destruct Hpos. apply Hin. by left. }
    destruct IH as (codes & -> & Hlen & Hcodes).
    { intros l Hl. apply Hin. by right. }
    exists (code :: codes). split; [done|]. split; [cbn; by rewrite Hlen|].
    intros [|i] l; cbn [lookup list_lookup].
    + intros [= <-]. exists code. split; [done|]. by apply position_Some.
    + apply Hcodes.
Qed.

Lemma encodes_bound classes y codes :
  encodes classes y codes → Forall (λ code, code < length classes) codes.
Proof.
  intros [Hlen Hcodes]. apply Forall_lookup. intros i code Hi.
  destruct (lookup_lt_is_Some_2 y i) as [label Hl].
  { rewrite <- Hlen. by eapply lookup_lt_Some. }
  destruct (Hcodes i label Hl) as (code' & Hc & Hcl).
  assert (code' = code) as -> by congruence.
  by eapply lookup_lt_Some.
Qed.

Lemma encodes_elem classes y codes label :
  encodes classes y codes → label ∈ y →
  ∃ code, code ∈ codes ∧ classes !! code = Some label.
Proof.
  intros [_ Hcodes] (i & Hi)%list_elem_of_lookup.
  destruct (Hcodes i label Hi) as (code & Hc & Hcl).
  exists code. split; [|done]. by eapply list_elem_of_lookup_2.
Qed.

Lemma distinct_values_length unique unique' y :
  distinct_values unique → distinct_values unique' →
  length (unique y) = length (unique' y).
Proof.
  intros H1 H2. apply Permutation_length, NoDup_Permutation.
  - apply H1.
  - apply H2.
  - intros label. destruct (H1 y) as [_ ->]. by destruct (H2 y) as [_ ->].
Qed.

(** X10. The labels of the three splits are always encoded: every label
    gets the position of its value among the fitted classes, so codes
    decode back to their labels, equal codes mean equal labels, every
    code is below [num_classes] and every class number below
    [num_classes] is the code of some label. *)
Theorem encode_round_trip y_train y_val y_test :
  distinct_values classes_ → distinct_values np_unique →
  let classes := classes_ (y_train ++ y_val ++ y_test) in
  ∃ enc,
    encode classes_ np_unique y_train y_val y_test = inr enc ∧
    encodes classes y_train (enc_train enc) ∧
    encodes classes y_val (enc_val enc) ∧
    encodes classes y_test (enc_test enc) ∧
    num_classes enc = length classes ∧
    Forall (λ code, code < num_classes enc)
           (enc_train enc ++ enc_val enc ++ enc_test enc) ∧
    (∀ code label label', classes !! code = Some label →
       classes !! code = Some label' → label = label') ∧
    (∀ code code' label, classes !! code = Some label →
       classes !! code' = Some label → code = code') ∧
    ∀ code, code < num_classes enc →
      code ∈ enc_train enc ++ enc_val enc ++ enc_test enc.
Proof.
  intros Hfit Hunique classes.
  destruct (Hfit (y_train ++ y_val ++ y_test)) as [Hnodup Hmem].
  fold classes in Hnodup, Hmem.
  destruct (transform_encodes classes y_train) as (train & Htrain & Henc_train).
  { intros l Hl. apply Hmem. rewrite !elem_of_app. auto. }
  destruct (transform_encodes classes y_val) as (val & Hval & Henc_val).
  { intros l Hl. apply Hmem. rewrite !elem_of_app. auto. }
  destruct (transform_encodes classes y_test) as (test & Htest & Henc_test).
  { intros l Hl. apply Hmem. rewrite !elem_of_app. auto. }
  eexists. unfold encode. rewrite y_process_spec. cbv zeta. fold classes.
  rewrite Htrain, Hval, Htest. split; [done|]. cbn [enc_train enc_val enc_test num_classes].
  assert (Hnum : length (np_unique (y_train ++ y_val ++ y_test)) = length classes).
  { by apply distinct_values_length. }
  rewrite Hnum.
  split; [done|]. split; [done|]. split; [done|]. split; [done|].
  split; [|split; [|split]].
  - rewrite !Forall_app. split; [|split]; eapply encodes_bound; eassumption.
  - congruence.
  - intros code code' label. apply NoDup_lookup, Hnodup.
  - intros code Hcode.
    destruct (lookup_lt_is_Some_2 classes code Hcode) as [label Hlabel].
    assert (Hin : label ∈ y_train ++ y_val ++ y_test).
    { apply Hmem. by eapply list_elem_of_lookup_2. }
    assert (Hfind : ∀ y codes, encodes classes y codes → label ∈ y → code ∈ codes).
    { intros y codes Henc Hy.
      destruct (encodes_elem _ _ _ _ Henc Hy) as (code' & Hc & Hcl).
      by rewrite (NoDup_lookup _ _ _ _ Hnodup Hlabel Hcl). }
    apply elem_of_app in Hin as [?|[?|?]%elem_of_app]; rewrite !elem_of_app; eauto.
Qed.

End LabelProperties.

(** ** The generators of the training run *)

Section TrainingGenerators.
Import Labels AnnTMVec.
Context {Sample : Type}.
Variables (classes_ np_unique : list string → list string).

Lemma encode_codes_below y_train y_val y_test enc codes :
  distinct_values classes_ → distinct_values np_unique →
  Labels.encode classes_ np_unique y_train y_val y_test = inr enc →
  codes ∈ [enc_train enc; enc_val enc; enc_test enc] →
  Forall (λ code, code < num_classes enc) codes.
Proof.
  intros Hfit Hunique Henc Hcodes.
  set (classes := classes_ (y_train ++ y_val ++ y_test)).
  destruct (Hfit (y_train ++ y_val ++ y_test)) as [_ Hmem]. fold classes in Hmem.
  destruct (transform_encodes classes y_train) as (train & Htrain & Henc_train).
  { intros l Hl. apply Hmem. rewrite !elem_of_app. auto. }
  destruct (transform_encodes classes y_val) as (val & Hval & Henc_val).
  { intros l Hl. apply Hmem. rewrite !elem_of_app. auto. }
  destruct (transform_encodes classes y_test) as (test & Htest & Henc_test).
  { intros l Hl. apply Hmem. rewrite !elem_of_app. auto. }
  unfold Labels.encode in Henc. rewrite y_process_spec in Henc. cbv zeta in Henc.
  fold classes in Henc. rewrite Htrain, Hval, Htest in Henc.
  injection Henc as <-. cbn [enc_train enc_val enc_test num_classes] in *.
  rewrite (distinct_values_length np_unique classes_) by done. fold classes.
  rewrite !elem_of_cons, elem_of_nil in Hcodes.
  destruct Hcodes as [->|[->|[->|[]]]]; eapply encodes_bound; eassumption.
Qed.

(** X11. Fed with at least one sample and with as many labels as samples,
    the labels being the encoded labels of a split in the original or in a
    shuffled order, [bm_generator] does not fail: for every batch size and
    every [k] it yields a [k]-th batch of [batch_size] samples and
    [batch_size] label vectors. *)
Theorem encoded_generator_yields y_train y_val y_test enc codes
        (X_t : list Sample) (y_t : list nat) batch_size k :
  distinct_values classes_ → distinct_values np_unique →
  Labels.encode classes_ np_unique y_train y_val y_test = inr enc →
  codes ∈ [enc_train enc; enc_val enc; enc_test enc] →
  y_t ≡ₚ codes →
  length y_t = length X_t → 0 < length X_t →
  ∃ X_batch y_batch,
    bm_generator (num_classes enc) X_t y_t batch_size k = inr (X_batch, y_batch) ∧
    length X_batch = batch_size ∧ length y_batch = batch_size.
Proof.
  intros Hfit Hunique Henc Hcodes Hperm Hlen Hpos.
  pose proof (encode_codes_below _ _ _ _ _ Hfit Hunique Henc Hcodes) as Hbelow.
  rewrite <- Hperm in Hbelow. rewrite Forall_forall in Hbelow.
  destruct (resume_spec (num_classes enc) X_t y_t Hpos Hlen Hbelow batch_size k 0 0)
    as (X_batch & y_batch & Hres & HX & Hy & _).
  - lia.
  - unfold wrap. destruct (Nat.eqb_spec 0 (length X_t)); [lia|].
    by rewrite Nat.Div0.mod_0_l.
  - by exists X_batch, y_batch.
Qed.

Lemma steps_cover n bs :
  0 < bs → 0 < n →
  n ≤ steps_per_epoch n bs * bs ∧ (steps_per_epoch n bs - 1) * bs < n.
Proof.
  intros Hbs Hn. unfold steps_per_epoch.
  pose proof (Nat.div_mod_eq (n + bs - 1) bs) as Hdiv.
  pose proof (Nat.mod_upper_bound (n + bs - 1) bs) as Hmod.
  set (q := (n + bs - 1) / bs) in *. set (r := (n + bs - 1) mod bs) in *.
  rewrite (Nat.mul_comm bs q) in Hdiv.
  destruct q as [|q]; [lia|].
  replace (S q - 1) with q by lia. cbn [Nat.mul] in *. lia.
Qed.

Lemma offset_in_window n g i :
  i < n → ∃ t, t < n ∧ (g + t) mod n = i.
Proof.
  intros Hi. exists ((i + (n - g mod n)) mod n).
  pose proof (Nat.mod_upper_bound g n) as Hg.
  split; [apply Nat.mod_upper_bound; lia|].
  rewrite Nat.Div0.add_mod_idemp_r.
  rewrite <- Nat.Div0.add_mod_idemp_l.
  replace (g mod n + (i + (n - g mod n))) with (i + 1 * n) by lia.
  rewrite Nat.Div0.mod_add. by apply Nat.mod_small.
Qed.

(** X12. With [steps_per_epoch = ceil(n / batch_size)], any
    [steps_per_epoch] consecutive batches of the generator contain every
    training sample with the one-hot vector of its label, wherever the
    run starts; one step fewer would yield fewer than [n] samples. *)
Theorem epoch_covers_every_sample num_classes (X_t : list Sample) (y_t : list nat)
        batch_size first i x label :
  0 < batch_size →
  length y_t = length X_t →
  (∀ l, l ∈ y_t → l < num_classes) →
  X_t !! i = Some x → y_t !! i = Some label →
  let steps := steps_per_epoch (length X_t) batch_size in
  (steps - 1) * batch_size < length X_t ∧
  ∃ k j X_batch y_batch y_enc,
    k < steps ∧ j < batch_size ∧
    bm_generator num_classes X_t y_t batch_size (first + k) = inr (X_batch, y_batch) ∧
    X_batch !! j = Some x ∧ y_batch !! j = Some y_enc ∧ one_hot num_classes y_enc label.
Proof.
  intros Hbs Hlen Hbelow Hx Hlabel steps.
  assert (Hi : i < length X_t) by by eapply lookup_lt_Some.
  assert (Hpos : 0 < length X_t) by lia.
  destruct (steps_cover (length X_t) batch_size Hbs Hpos) as [Hcover Hlast].
  fold steps in Hcover, Hlast. split; [done|].
  destruct (offset_in_window (length X_t) (first * batch_size) i Hi) as (t & Ht & Hmod).
  set (k := t / batch_size). set (j := t mod batch_size).
  assert (Hj : j < batch_size) by (apply Nat.mod_upper_bound; lia).
  assert (Hk : k < steps).
  { apply Nat.Div0.div_lt_upper_bound. lia. }
  destruct (resume_spec num_classes X_t y_t Hpos Hlen Hbelow batch_size (first + k) 0 0)
    as (X_batch & y_batch & Hres & _ & _ & Hsamples).
  { lia. }
  { unfold wrap. destruct (Nat.eqb_spec 0 (length X_t)); [lia|].
    by rewrite Nat.Div0.mod_0_l. }
  destruct (Hsamples j Hj) as (x' & label' & y_enc & HxX & Hyy & HXb & Hyb & Hhot).
  replace (0 + (first + k) * batch_size + j) with (first * batch_size + t) in HxX, Hyy.
  2:{ pose proof (Nat.div_mod_eq t batch_size). unfold k, j. lia. }
  rewrite Hmod in HxX, Hyy.
  assert (x' = x) as -> by congruence.
  assert (label' = label) as -> by congruence.
  by exists k, j, X_batch, y_batch, y_enc.
Qed.

End TrainingGenerators.

(** ** The parameter sweep of run_ann_tests.py *)

Section SweepProperties.
Import RunAnnTests.
Context {Value : Type}.
Variables (py_eq : Value → Value → bool) (format : Value → string).
Variable system : string → gmap string string → Z * gmap string string.

Lemma length_concat_map {A B} (g : A → list B) (l : list A) n :
  (∀ x, length (g x) = n) → length (concat (map g l)) = length l * n.
Proof.
  intros Hg. induction l as [|x l IH]; [done|].
  cbn [map concat length]. rewrite length_app, Hg, IH. lia.
Qed.

Lemma length_product (a b c d e f : list Value) :
  length (product a b c d e f)
  = length a * (length b * (length c * (length d * (length e * length f)))).
Proof.
  unfold product.
  apply length_concat_map. intros x1.
  apply length_concat_map. intros x2.
  apply length_concat_map. intros x3.
  apply length_concat_map. intros x4.
  apply length_concat_map. intros x5.
  apply length_map.
Qed.

Lemma sweep_loop script_path skip combinations w :
  ∃ w',
    for_each combinations
      (λ combination,
         if skipped py_eq combination skip
         then ret tt
         else
           print ("Running: " ++ command format script_path combination) ;;
           let* _ := os_system system (command format script_path combination) in
           ret tt) w = (inr tt, w') ∧
    stdout w' = stdout w ++
      map (λ combination, ("Running: " ++ command format script_path combination)%string)
          (runs py_eq skip combinations) ∧
    fs w' = files_after format system script_path (runs py_eq skip combinations) (fs w) ∧
    requests w' = requests w.
Proof.
  revert w. induction combinations as [|combination rest IH]; intros w.
  - exists w. cbn. by rewrite app_nil_r.
  - cbn [for_each]. unfold runs. rewrite filter_cons. fold (runs py_eq skip rest).
    destruct (skipped py_eq combination skip) eqn:Hskip.
    + rewrite decide_False by done.
      destruct (IH w) as (w' & Hrun & ?). exists w'. split; [|done].
      unfold bind, ret. exact Hrun.
    + rewrite decide_True by done.
      destruct (system (command format script_path combination) (fs w))
        as [status files] eqn:Hsys.
      set (w1 := {| fs := files;
                    dirs := dirs w;
                    stdout := stdout w ++
                      [("Running: " ++ command format script_path combination)%string];
                    requests := requests w |}).
      destruct (IH w1) as (w' & Hrun & Hout & Hfs & Hreq).
      exists w'. split.
      { unfold bind at 1.
        unfold bind at 1 2, print, os_system, ret at 1, set_fs.
        cbn [fs stdout requests]. rewrite Hsys. exact Hrun. }
      unfold w1 in Hout, Hfs, Hreq. cbn [fs stdout requests] in Hout, Hfs, Hreq.
      rewrite Hout, Hfs, Hreq. cbn [map files_after foldl].
      rewrite Hsys. cbn [snd]. by rewrite <- (assoc_L (++)).
Qed.

Lemma runs_nil (combinations : list Combination) :
  runs py_eq [] combinations = combinations.
Proof.
  induction combinations as [|x l IH]; [done|].
  unfold runs. rewrite filter_cons, decide_True by done.
  fold (runs py_eq [] l). by rewrite IH.
Qed.

(** X13. The sweep never raises, whatever the exit statuses: it prints and
    then runs one command for every combination of the product that is
    not in the skip list, in the order of the product, and nothing else;
    with an empty skip list that is one command for each of the
    [len(dropout) * ... * len(model)] combinations. *)
Theorem sweep_runs_each_combination script_path a b c d e f combinations_to_skip w :
  let skip := default [] combinations_to_skip in
  let ran := runs py_eq skip (product a b c d e f) in
  ∃ w',
    run_script_with_combinations py_eq format system script_path a b c d e f
      combinations_to_skip w = (inr tt, w') ∧
    stdout w' = stdout w ++
      map (λ combination, ("Running: " ++ command format script_path combination)%string) ran ∧
    fs w' = files_after format system script_path ran (fs w) ∧
    requests w' = requests w ∧
    ran ⊆+ product a b c d e f ∧
    (∀ combination, combination ∈ ran ↔
       combination ∈ product a b c d e f ∧ skipped py_eq combination skip = false) ∧
    length (runs py_eq [] (product a b c d e f))
    = length a * (length b * (length c * (length d * (length e * length f)))).
Proof.
  intros skip ran.
  destruct (sweep_loop script_path skip (product a b c d e f) w)
    as (w' & Hrun & Hout & Hfs & Hreq).
  exists w'. split.
  { unfold run_script_with_combinations.
    replace (match combinations_to_skip with None => [] | Some l => l end) with skip
      by by destruct combinations_to_skip.
    exact Hrun. }
  do 3 (split; [done|]). split; [|split].
  - apply sublist_submseteq, sublist_filter.
  - intros combination. unfold ran, runs. by rewrite list_elem_of_filter, (comm and).
  - by rewrite runs_nil, length_product.
Qed.

End SweepProperties.

(** ** The 3Di step of predict_embed.py *)

Section HeaderProperties.
Import Predict3Di.

Lemma rewrite_headers_from (lines : list string) (written : string) :
  fold_left (λ written line, (written ++ rewrite_line line)%string) lines written
  = (written ++ join (map rewrite_line lines))%string.
Proof.
  revert written. induction lines as [|line lines IH]; intros written; cbn [fold_left map].
  - by rewrite append_nil_r.
  - rewrite IH. cbn [join foldr]. by rewrite append_assoc.
Qed.

Lemma rewrite_headers_join lines :
  rewrite_headers lines = join (map rewrite_line lines).
Proof. unfold rewrite_headers. by rewrite rewrite_headers_from. Qed.

Lemma readlines_join content : join (readlines content) = content.
Proof.
  induction content as [|c rest IH]; [done|]. cbn [readlines].
  destruct (Ascii.eqb c "010").
  - cbn [join foldr]. fold (join (readlines rest)). by rewrite IH.
  - destruct (readlines rest) as [|line lines].
    + cbn in IH. by subst rest.
    + cbn [join foldr] in *. by rewrite <- IH.
Qed.

Lemma replace_space_cons c s :
  replace_go 0 " " "_" (String c s)
  = String (if Ascii.eqb c " " then "_"%char else c) (replace_go 0 " " "_" s).
Proof.
  cbn [replace_go String.prefix].
  destruct (ascii_dec " " c) as [<-|Hc].
  - by destruct s.
  - destruct (Ascii.eqb_spec c " "); [by subst|done].
Qed.

Lemma underscored_replace s : underscored s (replace s " " "_").
Proof.
  unfold replace. induction s as [|c s IH]; [done|].
  rewrite replace_space_cons. cbn [underscored]. split; [|done].
  destruct (Ascii.eqb_spec c " "); auto.
Qed.


Lemma underscored_refl s : underscored s s.
Proof. induction s; cbn; auto. Qed.

Lemma underscored_append a a' b b' :
  underscored a a' → underscored b b' → underscored (a ++ b) (a' ++ b').
Proof.
  revert a'. induction a as [|c a IH]; intros [|c' a']; try done.
  intros [Hc Ha] Hb.
  change (underscored (String c (a ++ b)) (String c' (a' ++ b'))).
  split; [done|]. by apply IH.
Qed.


Lemma underscored_rewrite_line line : underscored line (rewrite_line line).
Proof.
  unfold rewrite_line. destruct (String.prefix ">" line).
  - apply underscored_replace.
  - apply underscored_refl.
Qed.


Lemma universal_newlines_cons c rest :
  universal_newlines (String c rest)
  = if Ascii.eqb c "013"
    then String "010" (universal_newlines (skip_lf rest))
    else String c (universal_newlines rest).
Proof.
  cbn [universal_newlines]. destruct (Ascii.eqb c "013"); [|done].
  destruct rest as [|d rest']; [done|]. cbn [skip_lf].
  by destruct (Ascii.eqb d "010").
Qed.

Lemma string_length_ind (P : string → Prop) :
  (∀ s, (∀ t, String.length t < String.length s → P t) → P s) → ∀ s, P s.
Proof.
  intros H s. remember (String.length s) as n eqn:Hn. revert s Hn.
  induction n as [n IH] using lt_wf_ind. intros s ->.
  apply H. intros t Ht. by apply (IH (String.length t)).
Qed.

Lemma skip_lf_length rest : String.length (skip_lf rest) ≤ String.length rest.
Proof. destruct rest as [|d rest']; [done|]. cbn. destruct (Ascii.eqb d "010"); cbn; lia. Qed.


(** Text read in text mode holds no carriage return. *)
Lemma universal_newlines_no_cr s : no_cr (universal_newlines s) = true.
Proof.
  induction s as [s IH] using string_length_ind.
  destruct s as [|c rest]; [done|]. rewrite universal_newlines_cons.
  pose proof (skip_lf_length rest).
  destruct (Ascii.eqb c "013") eqn:Hc; cbn [no_cr].
  - apply IH. cbn. lia.
  - rewrite Hc. apply IH. cbn. lia.
Qed.

(** Text without a carriage return is read as it is. *)
Lemma no_cr_universal_newlines s : no_cr s = true → universal_newlines s = s.
Proof.
  induction s as [|c rest IH]; [done|]. cbn [no_cr].
  intros [Hc Hrest]%andb_true_iff. rewrite universal_newlines_cons.
  apply negb_true_iff in Hc. rewrite Hc. by rewrite IH.
Qed.

Lemma underscored_no_cr s : ∀ t, underscored s t → no_cr s = true → no_cr t = true.
Proof.
  induction s as [|c s IH]; intros [|c' t]; try done. cbn [underscored no_cr].
  intros [Hc Hst] [Hcr Hs]%andb_true_iff. rewrite (IH t Hst Hs), andb_true_r.
  destruct Hc as [->|[_ ->]]; done.
Qed.

Lemma underscored_rewrite_headers text :
  underscored text (rewrite_headers (readlines text)).
Proof.
  rewrite rewrite_headers_join. rewrite <- (readlines_join text) at 1.
  induction (readlines text) as [|line lines IH]; [done|].
  cbn [map join foldr]. apply underscored_append; [|exact IH].
  apply underscored_rewrite_line.
Qed.

(** What the script writes back holds no carriage return, and is read
    again as it is. *)
Lemma rewrite_headers_no_cr content :
  no_cr (rewrite_headers (readlines (universal_newlines content))) = true.
Proof.
  eapply underscored_no_cr; [apply underscored_rewrite_headers|].
  apply universal_newlines_no_cr.
Qed.


End HeaderProperties.

Section Extract3DiProperties.
Import Predict3Di.
Variable shell : string → gmap string string → Z * gmap string string.
Variable error_text : string → Z → string.

Lemma path_join_suffix dir name ext :
  ∃ a, path_join dir (name ++ ext)%string = (a ++ ext)%string.
Proof.
  unfold path_join. destruct (String.prefix "/" _).
  - by exists name.
  - destruct (String.rev dir) as [|c r].
    + by exists name.
    + destruct (Ascii.eqb_spec c "/") as [->|Hc].
      * exists (dir ++ name)%string. by rewrite append_assoc.
      * assert (∃ a, (dir ++ "/" ++ name ++ ext)%string = (a ++ ext)%string) as Hgoal.
        { exists (dir ++ "/" ++ name)%string. by rewrite !append_assoc. }
        destruct c as [[] [] [] [] [] [] [] []]; try exact Hgoal. by destruct Hc.
Qed.

(** The last component of a path that ends with [.fasta] ends with it. *)
Lemma basename_go_fasta b : ∀ acc a,
  acc = (a ++ ".fasta")%string →
  ∃ r, basename_go acc (b ++ ".fasta")%string = (r ++ ".fasta")%string.
Proof.
  induction b as [|c b IH]; intros acc a ->; [by exists a|].
  change (String c b ++ ".fasta")%string with (String c (b ++ ".fasta"))%string.
  cbn [basename_go]. destruct (Ascii.eqb c "/"); eauto.
Qed.

Lemma fasta_path_file output_dir pdb_filename :
  String.eqb (fasta_path output_dir pdb_filename) "" = false ∧
  String.eqb (basename (fasta_path output_dir pdb_filename)) "" = false.
Proof.
  unfold fasta_path.
  destruct (path_join_suffix output_dir (splitext_root pdb_filename) ".fasta") as [a ->].
  split; [by destruct a|].
  unfold basename. destruct (basename_go_fasta a (a ++ ".fasta") a eq_refl) as [r ->].
  by destruct r.
Qed.

(** The exceptions of the file system are no [CalledProcessError]. *)
Lemma no_entry_class w path :
  exn_cls (no_entry w path) = FileNotFoundError ∨
  exn_cls (no_entry w path) = PyError "NotADirectoryError".
Proof. unfold no_entry. destruct (file_above _ _ _); cbn; auto. Qed.

Lemma no_entry_not_cpe w path : is_CalledProcessError (no_entry w path) = false.
Proof. unfold no_entry. by destruct (file_above _ _ _). Qed.

Lemma missing_file_not_cpe w path : is_CalledProcessError (missing_file w path) = false.
Proof.
  unfold missing_file. repeat case_match; try done. apply no_entry_not_cpe.
Qed.

Lemma open_w_not_cpe path content w e w' :
  open_w path content w = (inl e, w') → is_CalledProcessError e = false.
Proof.
  unfold open_w. repeat case_match; intros [= <- _]; try done; apply no_entry_not_cpe.
Qed.

Lemma listdir_not_cpe dir w e w' :
  listdir dir w = (inl e, w') → is_CalledProcessError e = false.
Proof.
  unfold listdir. repeat case_match; intros [= <- _]; try done; apply no_entry_not_cpe.
Qed.

Lemma extract_one_unfold pdb_folder_path output_dir combined pdb_filename w :
  extract_one shell error_text pdb_folder_path output_dir combined pdb_filename w =
  let fasta := fasta_path output_dir pdb_filename in
  let db := db_path output_dir in
  let createdb := createdb_command (path_join pdb_folder_path pdb_filename) db in
  let convert2fasta := convert2fasta_command db fasta in
  let report command returncode :=
    ("An error occurred during 3Di computation for " ++ pdb_filename ++ ": " ++
     error_text command returncode)%string in
  let '(rc1, f1) := shell createdb (fs w) in
  if (rc1 =? 0)%Z then
    let '(rc2, f2) := shell convert2fasta f1 in
    if (rc2 =? 0)%Z then
      let w2 := {| fs := f2; dirs := dirs w; stdout := stdout w;
                   requests := requests w |} in
      match f2 !! fasta with
      | Some content =>
          let text := rewrite_headers (readlines (universal_newlines content)) in
          let f3 := <[fasta := text]> f2 in
          let f4 := match f3 !! combined with
                    | Some old => <[combined := (old ++ text)%string]> f3
                    | None => f3
                    end in
          (inr tt,
           {| fs := filter (λ kv : string * string,
                              String.prefix (db ++ "/") kv.1 = false)
                           (delete fasta f4);
              dirs := filter (λ made, made ≠ db ∧ String.prefix (db ++ "/") made = false)
                             (dirs w);
              stdout := stdout w ++
                [("3Di sequence for " ++ pdb_filename ++
                  " extracted and added to combined file.")%string];
              requests := requests w |})
      | None => (inl (missing_file w2 fasta), w2)
      end
    else (inr tt, {| fs := f2; dirs := dirs w;
                     stdout := stdout w ++ [report convert2fasta rc2];
                     requests := requests w |})
  else (inr tt, {| fs := f1; dirs := dirs w;
                   stdout := stdout w ++ [report createdb rc1];
                   requests := requests w |}).
Proof.
  cbv zeta. unfold extract_one, try_except_CalledProcessError.
  fold (fasta_path output_dir pdb_filename). fold (db_path output_dir).
  unfold bind at 1. unfold subprocess_run_check at 1.
  destruct (shell _ (fs w)) as [rc1 f1]. cbv zeta.
  destruct (rc1 =? 0)%Z; [|done].
  unfold bind at 1. unfold subprocess_run_check at 1. cbn [fs set_fs].
  destruct (shell _ f1) as [rc2 f2]. cbv zeta.
  destruct (rc2 =? 0)%Z; [|done].
  unfold bind at 1. unfold read_text at 1. cbn [fs dirs set_fs stdout requests].
  destruct (f2 !! fasta_path output_dir pdb_filename) as [content|] eqn:Hfasta.
  2:{ by rewrite missing_file_not_cpe. }
  destruct (fasta_path_file output_dir pdb_filename) as [Hpath Hbase].
  unfold bind at 1.
  match goal with
  | |- context [open_w ?path ?text ?w2] =>
      pose proof (open_w_file path text w2 Hpath Hbase) as Hopen
  end.
  unfold writable in Hopen. cbn [fs set_fs] in Hopen. rewrite Hfasta in Hopen.
  rewrite bool_decide_true in Hopen by eauto. cbn [orb] in Hopen. rewrite Hopen.
  cbn [fs dirs set_fs stdout requests].
  unfold bind at 1. unfold read_text at 1. cbn [fs dirs set_fs stdout requests].
  rewrite lookup_insert_eq.
  rewrite (no_cr_universal_newlines _ (rewrite_headers_no_cr content)).
  unfold bind at 1. unfold handle_write at 1. cbn [fs dirs set_fs stdout requests].
  destruct (<[fasta_path output_dir pdb_filename:=_]> f2 !! combined) as [old|] eqn:Hold.
  - cbn [fs dirs set_fs stdout requests].
    unfold bind at 1. unfold remove at 1. cbn [fs dirs set_fs stdout requests].
    destruct (<[combined:=_]> _ !! fasta_path output_dir pdb_filename) eqn:Hpresent.
    + done.
    + apply lookup_insert_None in Hpresent as [Hpresent _].
      by rewrite lookup_insert_eq in Hpresent.
  - unfold bind at 1. unfold remove at 1. cbn [fs dirs set_fs stdout requests].
    by rewrite lookup_insert_eq.
Qed.

Lemma prefix_cancel a x y :
  String.prefix (a ++ x)%string (a ++ y)%string = String.prefix x y.
Proof.
  induction a as [|c a IH]; [done|].
  change (String.prefix (String c (a ++ x)%string) (String c (a ++ y)%string)
          = String.prefix x y).
  cbn [String.prefix]. by destruct (ascii_dec c c).
Qed.

Lemma append_inj_l (a x y : string) : (a ++ x)%string = (a ++ y)%string → x = y.
Proof.
  induction a as [|c a IH]; [done|].
  change (String c (a ++ x) = String c (a ++ y) → x = y)%string.
  intros [= Heq]. by apply IH.
Qed.

Lemma append_inj_suffix (a b s t : string) :
  (a ++ s)%string = (b ++ t)%string → String.length s = String.length t → s = t.
Proof.
  intros Heq Hst.
  assert (String.length a = String.length b) as Hlen.
  { apply (f_equal String.length) in Heq. rewrite !length_append in Heq. lia. }
  revert b Heq Hlen. induction a as [|c a IH]; intros [|d b] Heq Hlen; try done.
  change (String c (a ++ s) = String d (b ++ t))%string in Heq.
  injection Heq as _ Heq. apply (IH b); [done|]. cbn in Hlen. lia.
Qed.

Lemma db_path_prefix output_dir :
  db_path output_dir = (path_join output_dir "" ++ "pdb_db")%string.
Proof. by apply path_join_prefix. Qed.

Lemma combined_path_prefix output_dir :
  combined_path output_dir
  = (path_join output_dir "" ++ "combined_3di_sequences.fasta")%string.
Proof. by apply path_join_prefix. Qed.

Lemma fasta_not_db output_dir pdb_filename :
  fasta_path output_dir pdb_filename ≠ db_path output_dir.
Proof.
  unfold fasta_path, db_path.
  destruct (path_join_suffix output_dir (splitext_root pdb_filename) ".fasta") as [a ->].
  destruct (path_join_suffix output_dir "" "pdb_db") as [b Hb].
  change ("" ++ "pdb_db")%string with "pdb_db"%string in Hb. rewrite Hb.
  by intros Heq%append_inj_suffix.
Qed.

Lemma combined_not_db output_dir : combined_path output_dir ≠ db_path output_dir.
Proof.
  rewrite combined_path_prefix, db_path_prefix.
  by intros Heq%append_inj_l.
Qed.

Lemma combined_outside_db output_dir :
  String.prefix (db_path output_dir ++ "/")%string (combined_path output_dir) = false.
Proof.
  rewrite combined_path_prefix, db_path_prefix, append_assoc. by rewrite prefix_cancel.
Qed.

Lemma db_outside_db output_dir :
  String.prefix (db_path output_dir ++ "/")%string (db_path output_dir) = false.
Proof.
  destruct (String.prefix _ _) eqn:Hprefix; [|done].
  apply prefix_length in Hprefix. rewrite length_append in Hprefix. cbn in Hprefix. lia.
Qed.

(** X15. A foldseek command that exits with a non-zero status is reported
    on one line and swallowed: the iteration returns normally, nothing is
    read, rewritten or added to the combined file, and [convert2fasta] is
    not run after a failed [createdb]. *)
Theorem foldseek_failure_reported pdb_folder_path output_dir combined pdb_filename
        w rc1 f1 rc2 f2 :
  shell (createdb_command (path_join pdb_folder_path pdb_filename) (db_path output_dir))
        (fs w) = (rc1, f1) →
  shell (convert2fasta_command (db_path output_dir) (fasta_path output_dir pdb_filename))
        f1 = (rc2, f2) →
  rc1 ≠ 0%Z ∨ rc2 ≠ 0%Z →
  ∃ detail,
    extract_one shell error_text pdb_folder_path output_dir combined pdb_filename w =
    (inr tt,
     {| fs := if (rc1 =? 0)%Z then f2 else f1;
        dirs := dirs w;
        stdout := stdout w ++
          [("An error occurred during 3Di computation for " ++ pdb_filename ++ ": " ++
            detail)%string];
        requests := requests w |}).
Proof.
  intros Hcreatedb Hconvert Hfailed.
  rewrite extract_one_unfold. cbv zeta. rewrite Hcreatedb.
  destruct (Z.eqb_spec rc1 0) as [->|Hrc1]; [|by eexists].
  rewrite Hconvert.
  destruct (Z.eqb_spec rc2 0) as [->|Hrc2]; [|by eexists].
  by destruct Hfailed.
Qed.

(** X16. When both foldseek commands succeed and leave the FASTA file,
    the iteration appends to the combined file the text of that file as
    read in text mode (carriage returns read as line feeds), with its
    headers rewritten, and removes the FASTA file, but the cleanup does not
    remove the database file: only what lies under a directory
    [output_dir/pdb_db/] goes.  For a FASTA file without a carriage return
    the text appended is that of the file with its headers rewritten. *)
Theorem extracted_fasta_collected pdb_folder_path output_dir pdb_filename
        w f1 f2 content old :
  shell (createdb_command (path_join pdb_folder_path pdb_filename) (db_path output_dir))
        (fs w) = (0%Z, f1) →
  shell (convert2fasta_command (db_path output_dir) (fasta_path output_dir pdb_filename))
        f1 = (0%Z, f2) →
  f2 !! fasta_path output_dir pdb_filename = Some content →
  f2 !! combined_path output_dir = Some old →
  fasta_path output_dir pdb_filename ≠ combined_path output_dir →
  ∃ w',
    extract_one shell error_text pdb_folder_path output_dir (combined_path output_dir)
                pdb_filename w = (inr tt, w') ∧
    fs w' !! combined_path output_dir
      = Some (old ++ rewrite_headers (readlines (universal_newlines content)))%string ∧
    (no_cr content = true →
     fs w' !! combined_path output_dir
       = Some (old ++ rewrite_headers (readlines content))%string) ∧
    fs w' !! fasta_path output_dir pdb_filename = None ∧
    fs w' !! db_path output_dir = f2 !! db_path output_dir ∧
    (∀ path, String.prefix (db_path output_dir ++ "/")%string path = true →
             fs w' !! path = None) ∧
    (∀ path, String.prefix (db_path output_dir ++ "/")%string path = false →
             path ≠ fasta_path output_dir pdb_filename →
             path ≠ combined_path output_dir →
             fs w' !! path = f2 !! path) ∧
    stdout w' = stdout w ++
      [("3Di sequence for " ++ pdb_filename ++
        " extracted and added to combined file.")%string] ∧
    requests w' = requests w.
Proof.
  intros Hcreatedb Hconvert Hfasta Hcombined Hne.
  rewrite extract_one_unfold. cbv zeta. rewrite Hcreatedb. cbn [Z.eqb].
  rewrite Hconvert. cbn [Z.eqb]. rewrite Hfasta.
  rewrite lookup_insert_ne, Hcombined by done.
  eexists. split; [done|]. cbn [fs stdout requests].
  assert (Hlookup : ∀ path (files : gmap string string),
    filter (λ kv : string * string, String.prefix (db_path output_dir ++ "/") kv.1 = false)
           files !! path
    = if String.prefix (db_path output_dir ++ "/") path then None else files !! path).
  { intros path files. destruct (String.prefix _ path) eqn:Hprefix.
    - apply map_lookup_filter_None. right. intros x _. cbn [fst]. congruence.
    - destruct (files !! path) as [x|] eqn:Hx.
      + by apply map_lookup_filter_Some.
      + apply map_lookup_filter_None. by left. }
  assert (Hfinal : filter (λ kv : string * string,
                             String.prefix (db_path output_dir ++ "/") kv.1 = false)
       (delete (fasta_path output_dir pdb_filename)
          (<[combined_path output_dir :=
               (old ++ rewrite_headers (readlines (universal_newlines content)))%string]>
             (<[fasta_path output_dir pdb_filename :=
                  rewrite_headers (readlines (universal_newlines content))]> f2)))
       !! combined_path output_dir
     = Some (old ++ rewrite_headers (readlines (universal_newlines content)))%string).
  { rewrite Hlookup, combined_outside_db.
    rewrite lookup_delete_ne by done. by rewrite lookup_insert_eq. }
  split; [exact Hfinal|]. split; [|split; [|split; [|split; [|split]]]].
  - intros Hcr. rewrite Hfinal. by rewrite (no_cr_universal_newlines _ Hcr).
  - rewrite Hlookup. destruct (String.prefix _ _); [done|]. by rewrite lookup_delete_eq.
  - rewrite Hlookup, db_outside_db.
    rewrite lookup_delete_ne by apply fasta_not_db.
    rewrite lookup_insert_ne by apply combined_not_db.
    rewrite lookup_insert_ne by apply fasta_not_db. done.
  - intros path Hunder. by rewrite Hlookup, Hunder.
  - intros path Hout Hpath1 Hpath2. rewrite Hlookup, Hout.
    by rewrite lookup_delete_ne, !lookup_insert_ne.
  - done.
Qed.

(** An exception that leaves a [try ... except CalledProcessError] whose
    handler returns is no [CalledProcessError]. *)
Lemma try_except_CalledProcessError_raises {A} (body : M A) (handler : exn → M A) w e w' :
  (∀ e0 w0, ∃ a w1, handler e0 w0 = (inr a, w1)) →
  try_except_CalledProcessError body handler w = (inl e, w') →
  is_CalledProcessError e = false.
Proof.
  intros Hhandler. unfold try_except_CalledProcessError.
  destruct (body w) as [[e0|a] w0]; [|done].
  destruct (is_CalledProcessError e0) eqn:He0.
  - destruct (Hhandler e0 w0) as (a & w1 & ->). done.
  - by intros [= <- _].
Qed.

Lemma extract_one_raises pdb_folder_path output_dir combined pdb_filename w e w' :
  extract_one shell error_text pdb_folder_path output_dir combined pdb_filename w
  = (inl e, w') →
  is_CalledProcessError e = false.
Proof.
  unfold extract_one. apply try_except_CalledProcessError_raises.
  intros e0 w0. unfold print. eauto.
Qed.

Lemma for_each_raises {A} (body : A → M unit) (P : exn → Prop) xs :
  (∀ x w e w', body x w = (inl e, w') → P e) →
  ∀ w e w', for_each xs body w = (inl e, w') → P e.
Proof.
  intros Hbody. induction xs as [|x xs IH]; intros w e w'; cbn [for_each].
  - done.
  - unfold bind. destruct (body x w) as [[e1|[]] w1] eqn:Hx.
    + intros [= <- _]. by eapply Hbody.
    + apply IH.
Qed.

Lemma get_3di_sequences_raises pdb_folder_path output_dir w e w' :
  get_3di_sequences shell error_text pdb_folder_path output_dir w = (inl e, w') →
  is_CalledProcessError e = false.
Proof.
  unfold get_3di_sequences. unfold bind at 1. unfold makedirs.
  destruct (fs w !! output_dir); [by intros [= <- _]|].
  unfold bind at 1.
  destruct (listdir pdb_folder_path _) as [[e0|entries] w1] eqn:Hlist.
  { intros [= <- _]. by eapply listdir_not_cpe. }
  destruct (List.filter _ _) as [|pdb_filename pdb_files]; [by intros [= <- _]|].
  unfold bind at 1.
  destruct (open_w _ _ w1) as [[e0|[]] w2] eqn:Hopen.
  { intros [= <- _]. by eapply open_w_not_cpe. }
  unfold bind at 1.
  match goal with
  | |- context [for_each ?xs ?body ?w1] =>
      destruct (for_each xs body w1) as [[e1|[]] w3] eqn:Hloop
  end.
  - intros [= <- _].
    by apply (for_each_raises _ (λ e, is_CalledProcessError e = false) _
                (extract_one_raises _ _ _) _ _ _ Hloop).
  - done.
Qed.

(** X17. [embed_3Di] never lets a failed command surface: whatever the
    exit statuses of foldseek and of the embedding script, no exception
    it raises is a [CalledProcessError]; and once [get_3di_sequences] has
    returned, [embed_3Di] returns, having run the embedding script and
    printed one line, whatever the exit status of the script. *)
Theorem embed_3Di_swallows_failed_commands pdb_path w :
  (∀ e w', embed_3Di shell error_text pdb_path w = (inl e, w') →
           is_CalledProcessError e = false) ∧
  (∀ w1, get_3di_sequences shell error_text pdb_path
           "./src/cathe-predict/3Di_sequence_folder" w = (inr tt, w1) →
         ∃ line,
           embed_3Di shell error_text pdb_path w
           = (inr tt,
              {| fs := (shell (embed_command "./src/cathe-predict/3Di_sequence_folder")
                              (fs w1)).2;
                 dirs := dirs w1;
                 stdout := stdout w1 ++ [line];
                 requests := requests w1 |})).
Proof.
  split.
  - intros e w'. unfold embed_3Di. unfold bind at 1.
    destruct (get_3di_sequences _ _ _ _ w) as [[e1|[]] w1] eqn:Hget.
    + intros [= <- _]. by eapply get_3di_sequences_raises.
    + apply try_except_CalledProcessError_raises.
      intros e0 w0. unfold print. eauto.
  - intros w1 Hget. unfold embed_3Di. unfold bind at 1. rewrite Hget.
    unfold try_except_CalledProcessError, bind, subprocess_run_check.
    destruct (shell _ (fs w1)) as [rc files]. cbv zeta. cbn [snd].
    destruct (rc =? 0)%Z; eexists; reflexivity.
Qed.

Lemma filter_none {A} (f : A → bool) (l : list A) :
  (∀ x, x ∈ l → f x = false) → List.filter f l = [].
Proof.
  induction l as [|x l IH]; intros Hl; [done|]. cbn [List.filter].
  rewrite Hl by by left. apply IH. intros y Hy. apply Hl. by right.
Qed.

(** X18. Once the output directory is made, [get_3di_sequences] lists the
    folder of the PDB files.  When the folder is a directory without an
    entry ending in [.pdb], it raises [FileNotFoundError] with its own
    message before any command is run: no file is written, nothing is
    printed.  When the path of the folder is that of a file, it raises
    [NotADirectoryError], and when nothing is there, [FileNotFoundError]
    or [NotADirectoryError] with the path as message. *)
Theorem no_pdb_file_raises pdb_folder_path output_dir w :
  fs w !! output_dir = None →
  pdb_folder_path ≠ ""%string →
  let w1 := add_dir output_dir w in
  (fs w !! rstrip_slash pdb_folder_path = None →
   dir_exists w1 pdb_folder_path = true →
   (∀ name, name ∈ entries pdb_folder_path w1 → endswith name ".pdb" = false) →
   get_3di_sequences shell error_text pdb_folder_path output_dir w
   = (inl (Raise FileNotFoundError
        "No PDB files found. If the selected input_type is AA+3Di, provide PDB files in ./src/cathe-predict/pdb_folder, from which 3Di sequences will be extracted."),
      w1)) ∧
  (is_Some (fs w !! rstrip_slash pdb_folder_path) →
   get_3di_sequences shell error_text pdb_folder_path output_dir w
   = (inl (Raise (PyError "NotADirectoryError") pdb_folder_path), w1)) ∧
  (fs w !! rstrip_slash pdb_folder_path = None →
   dir_exists w1 pdb_folder_path = false →
   get_3di_sequences shell error_text pdb_folder_path output_dir w
   = (inl (no_entry w1 pdb_folder_path), w1) ∧
   (exn_cls (no_entry w1 pdb_folder_path) = FileNotFoundError ∨
    exn_cls (no_entry w1 pdb_folder_path) = PyError "NotADirectoryError") ∧
   exn_msg (no_entry w1 pdb_folder_path) = pdb_folder_path).
Proof.
  intros Hdir Hpath w1.
  assert (String.eqb pdb_folder_path "" = false) as Hnonempty
    by (by apply String.eqb_neq).
  split_and!.
  - intros Hnofile Hexists Hnone.
    assert (listdir pdb_folder_path w1 = (inr (entries pdb_folder_path w1), w1)) as Hlist.
    { unfold listdir. rewrite Hnonempty. change (fs w1) with (fs w).
      rewrite Hnofile, Hexists. by rewrite bool_decide_false by (by intros [? ?]). }
    unfold get_3di_sequences. unfold bind at 1. unfold makedirs.
    rewrite Hdir. fold (add_dir output_dir w). fold w1.
    unfold bind at 1. rewrite Hlist. by rewrite filter_none.
  - intros Hfile.
    assert (listdir pdb_folder_path w1
            = (inl (Raise (PyError "NotADirectoryError") pdb_folder_path), w1)) as Hlist.
    { unfold listdir. rewrite Hnonempty. change (fs w1) with (fs w).
      by rewrite bool_decide_true. }
    unfold get_3di_sequences. unfold bind at 1. unfold makedirs.
    rewrite Hdir. fold (add_dir output_dir w). fold w1.
    unfold bind at 1. by rewrite Hlist.
  - intros Hnofile Hmissing. split_and!.
    + assert (listdir pdb_folder_path w1 = (inl (no_entry w1 pdb_folder_path), w1))
        as Hlist.
      { unfold listdir. rewrite Hnonempty. change (fs w1) with (fs w).
        rewrite Hnofile, Hmissing. by rewrite bool_decide_false by (by intros [? ?]). }
      unfold get_3di_sequences. unfold bind at 1. unfold makedirs.
      rewrite Hdir. fold (add_dir output_dir w). fold w1.
      unfold bind at 1. by rewrite Hlist.
    + apply no_entry_class.
    + unfold no_entry. by destruct (file_above _ _ _).
Qed.

End Extract3DiProperties.

(** ** The batch generator outside its domain *)

Section GeneratorEdges.
Import AnnTMVec.
Context {Sample : Type}.
Variable num_classes : nat.
Variables (X_t : list Sample) (y_t : list nat).

(** The labels before position [i] are class numbers, the one at [i] is
    missing or too large. *)
Variable i : nat.
Hypothesis in_samples : i < length X_t.
Hypothesis labels_before : ∀ p, p < i → ∃ label, y_t !! p = Some label ∧ label < num_classes.
Hypothesis label_at : y_t !! i = None ∨ ∃ label, y_t !! i = Some label ∧ num_classes ≤ label.

Lemma fill_batch_before j : ∀ val X_batch y_batch,
  val + j ≤ i →
  ∃ X_batch' y_batch',
    fill_batch num_classes X_t y_t j val X_batch y_batch
    = inr (X_batch', y_batch', val + j).
Proof using in_samples labels_before.
  induction j as [|j IH]; intros val X_batch y_batch Hval.
  - exists X_batch, y_batch. by rewrite Nat.add_0_r.
  - cbn [fill_batch].
    destruct (Nat.eqb_spec val (length X_t)) as [Heq|_]; [lia|].
    destruct (lookup_lt_is_Some_2 X_t val) as [x Hx]; [lia|].
    destruct (labels_before val) as (label & Hlabel & Hlt); [lia|].
    unfold get_item. rewrite Hx, Hlabel. unfold encode.
    rewrite length_replicate. destruct (Nat.ltb_spec label num_classes); [|lia].
    destruct (IH (val + 1) (X_batch ++ [x])
                 (y_batch ++ [<[label := 1%Z]> (replicate num_classes 0%Z)]))
      as (X' & y' & ->); [lia|].
    exists X', y'. do 2 f_equal. lia.
Qed.

Lemma fill_batch_at j : ∀ val X_batch y_batch,
  val ≤ i → i < val + j →
  ∃ e, fill_batch num_classes X_t y_t j val X_batch y_batch = inl e ∧
       exn_cls e = IndexError.
Proof using in_samples labels_before label_at.
  induction j as [|j IH]; intros val X_batch y_batch Hval Hi; [lia|].
  cbn [fill_batch].
  destruct (Nat.eqb_spec val (length X_t)) as [Heq|_]; [lia|].
  destruct (lookup_lt_is_Some_2 X_t val) as [x Hx]; [lia|].
  unfold get_item. rewrite Hx.
  destruct (decide (val = i)) as [->|Hne].
  - destruct label_at as [->|(label & -> & Hlarge)]; [by eexists|].
    unfold encode. rewrite length_replicate.
    destruct (Nat.ltb_spec label num_classes); [lia|]. by eexists.
  - destruct (labels_before val) as (label & -> & Hlt); [lia|].
    unfold encode. rewrite length_replicate.
    destruct (Nat.ltb_spec label num_classes); [|lia].
    apply IH; lia.
Qed.

Lemma resume_before batch_size k : ∀ val,
  val + S k * batch_size ≤ i →
  ∃ batch, resume num_classes X_t y_t batch_size k val = inr batch.
Proof using in_samples labels_before.
  induction k as [|k IH]; intros val Hval; cbn [resume].
  - destruct (fill_batch_before batch_size val [] []) as (X' & y' & ->); [lia|].
    by eexists.
  - destruct (fill_batch_before batch_size val [] []) as (X' & y' & ->); [lia|].
    apply IH. lia.
Qed.

Lemma resume_at batch_size k : ∀ val,
  val + k * batch_size ≤ i → i < val + S k * batch_size →
  ∃ e, resume num_classes X_t y_t batch_size k val = inl e ∧ exn_cls e = IndexError.
Proof using in_samples labels_before label_at.
  induction k as [|k IH]; intros val Hval Hi; cbn [resume].
  - destruct (fill_batch_at batch_size val [] []) as (e & -> & He); [lia|lia|].
    by exists e.
  - destruct (fill_batch_before batch_size val [] []) as (X' & y' & ->); [lia|].
    apply IH; lia.
Qed.

(** X19. When the labels run out before the samples do, or a label is
    not below [num_classes], the generator yields the batches that lie
    entirely before the first such position and raises [IndexError] in the
    batch that contains it. *)
Theorem bm_generator_index_error batch_size :
  0 < batch_size →
  (∀ k, k < i / batch_size →
        ∃ batch, bm_generator num_classes X_t y_t batch_size k = inr batch) ∧
  ∃ e, bm_generator num_classes X_t y_t batch_size (i / batch_size) = inl e ∧
       exn_cls e = IndexError.
Proof using in_samples labels_before label_at.
  intros Hbs.
  pose proof (Nat.div_mod_eq i batch_size) as Hdiv.
  pose proof (Nat.mod_upper_bound i batch_size) as Hmod.
  rewrite (Nat.mul_comm batch_size) in Hdiv.
  split.
  - intros k Hk. apply resume_before.
    assert (S k * batch_size ≤ (i / batch_size) * batch_size)
      by (apply Nat.mul_le_mono_r; lia).
    lia.
  - apply resume_at; cbn [Nat.mul]; lia.
Qed.

End GeneratorEdges.

Section GeneratorLengths.
Import AnnTMVec.
Context {Sample : Type}.
Variable num_classes : nat.

Lemma fill_batch_take (X_t : list Sample) y_t j : ∀ val X_batch y_batch,
  val ≤ length X_t →
  fill_batch num_classes X_t y_t j val X_batch y_batch
  = fill_batch num_classes X_t (take (length X_t) y_t) j val X_batch y_batch.
Proof.
  induction j as [|j IH]; intros val X_batch y_batch Hval; [done|].
  cbn [fill_batch].
  set (v := if Nat.eqb val (length X_t) then 0 else val).
  unfold get_item at 1 3.
  destruct (X_t !! v) as [x|] eqn:Hx; [|done].
  apply lookup_lt_Some in Hx.
  unfold get_item. rewrite lookup_take_lt by done.
  destruct (y_t !! v) as [label|]; [|done].
  destruct (encode num_classes label); [done|].
  apply IH. lia.
Qed.

Lemma fill_batch_val (X_t : list Sample) y_t j : ∀ val X_batch y_batch X' y' val',
  val ≤ length X_t →
  fill_batch num_classes X_t y_t j val X_batch y_batch = inr (X', y', val') →
  val' ≤ length X_t.
Proof.
  induction j as [|j IH]; intros val X_batch y_batch X' y' val' Hval; cbn [fill_batch].
  - by intros [= _ _ <-].
  - set (v := if Nat.eqb val (length X_t) then 0 else val).
    unfold get_item.
    destruct (X_t !! v) as [x|] eqn:Hx; [|done].
    apply lookup_lt_Some in Hx.
    destruct (y_t !! v) as [label|]; [|done].
    destruct (encode num_classes label); [done|].
    apply IH. lia.
Qed.

Lemma resume_take (X_t : list Sample) y_t batch_size k : ∀ val,
  val ≤ length X_t →
  resume num_classes X_t y_t batch_size k val
  = resume num_classes X_t (take (length X_t) y_t) batch_size k val.
Proof.
  induction k as [|k IH]; intros val Hval; cbn [resume];
    rewrite <- fill_batch_take by done;
    destruct (fill_batch num_classes X_t y_t batch_size val [] [])
      as [e|[[X' y'] val']] eqn:Hfill; try done.
  apply IH. by eapply fill_batch_val.
Qed.

Lemma resume_no_samples y_t batch_size k val :
  0 < batch_size →
  ∃ e, resume num_classes (@nil Sample) y_t batch_size k val = inl e ∧
       exn_cls e = IndexError.
Proof.
  intros Hbs. destruct batch_size as [|j]; [lia|].
  destruct k; cbn [resume fill_batch length];
    destruct (val =? 0); cbn; by eexists.
Qed.

Lemma resume_no_batch (X_t : list Sample) y_t k : ∀ val,
  resume num_classes X_t y_t 0 k val = inr ([], []).
Proof. induction k as [|k IH]; intros val; cbn [resume fill_batch]; [done|apply IH]. Qed.

(** X20. The generator reads the labels of the first [len(X_t)] positions
    only, so labels in excess go unnoticed; without any sample it yields
    no batch, the first one raising [IndexError]; and with a batch size of
    0 every batch is empty, whatever the samples and labels. *)
Theorem bm_generator_lengths (X_t : list Sample) y_t batch_size k :
  bm_generator num_classes X_t y_t batch_size k
  = bm_generator num_classes X_t (take (length X_t) y_t) batch_size k ∧
  (∀ batch, bm_generator num_classes (@nil Sample) y_t (S batch_size) k ≠ inr batch) ∧
  (∃ e, bm_generator num_classes (@nil Sample) y_t (S batch_size) 0 = inl e ∧
        exn_cls e = IndexError) ∧
  bm_generator num_classes X_t y_t 0 k = inr ([], []).
Proof.
  unfold bm_generator. split; [|split; [|split]].
  - apply resume_take. lia.
  - intros batch.
    destruct (resume_no_samples y_t (S batch_size) k 0) as (e' & -> & _); [lia|].
    done.
  - apply resume_no_samples. lia.
  - apply resume_no_batch.
Qed.

End GeneratorLengths.

(** ** The further properties on concrete inputs *)

Section FurtherExamples.
Import Get3Di.

(** The row of entry 2xyz, answered by a 404. *)
Lemma failed_download_writes_nothing_witness :
  ∃ line w',
    download_and_trim_pdb (Ext := demo_env) Demo.row_404 "out" Demo.empty_world
      = (inr {| sequence_id := 1%Z; pdb_file := None |}, w') ∧
    fs w' = fs Demo.empty_world ∧
    stdout w' = stdout Demo.empty_world ++ [line] ∧
    requests w' = requests Demo.empty_world ++ [row_url Demo.row_404].
Proof.
  apply (failed_download_writes_nothing (Ext := demo_env) Demo.row_404 "out"
           Demo.empty_world).
  - reflexivity.
  - vm_compute. split; [discriminate|reflexivity].
Defined.

(** The row of entry 1abc, whose sequence is found in chain A, downloaded
    into a directory that exists. *)
Lemma answered_download_files_witness :
  let w := Demo.world_in ["out"%string] [] in
  let path := download_path Demo.row_ok "out" in
  ∃ result w',
    download_and_trim_pdb (Ext := demo_env) Demo.row_ok "out" w = (inr result, w') ∧
    sequence_id result = 0%Z ∧
    ((pdb_file result = Some (trimmed_path path) ∧
      fs w' !! path = None ∧
      ∃ text structure',
        fs w' !! trimmed_path path = Some text ∧
        Demo.pdb_parse text = inr structure' ∧
        standard_codes (Ext := demo_env) structure' "A" 0%Z = "AC"%string) ∨
     (pdb_file result = None ∧
      fs w' !! path = Some "SERALAHOHCYSGLY"%string)).
Proof.
  intros w path.
  destruct (answered_download_files (Ext := demo_env) Demo.row_ok "out"
              "AXC" "1abcA00" "A" 0%Z
              {| status_code := 200; reason := "OK";
                 response_url := "https://files.rcsb.org/download/1abc.pdb";
                 text := "SERALAHOHCYSGLY" |} w)
    as (result & w' & Hrun & Hid & Hcases).
  - reflexivity.
  - reflexivity.
  - reflexivity.
  - reflexivity.
  - split; [reflexivity|]. left. reflexivity.
  - assert (writable w (download_path Demo.row_ok "out") = true) as Hwritable
      by (vm_compute; reflexivity).
    rewrite Hwritable in Hcases.
    exists result, w'. split; [exact Hrun|]. split; [exact Hid|exact Hcases].
Defined.

(** The same download into a directory that does not exist: nothing is
    written and the row is recorded without a file. *)
Example download_without_directory :
  download_and_trim_pdb (Ext := demo_env) Demo.row_ok "out" Demo.empty_world
  = (inr {| sequence_id := 0; pdb_file := None |},
     add_line "Other error occurred: out/0_1abc.pdb"
              (add_request "https://files.rcsb.org/download/1abc.pdb" Demo.empty_world)).
Proof. vm_compute. reflexivity. Qed.

(** Three rows, one downloaded and trimmed, one answered by a 404, one
    whose sequence is not in the chain. *)
Lemma process_dataset_leaves_nothing_witness :
  let data := [Demo.row_ok; Demo.row_404; Demo.row_mismatch] in
  let w' := (process_dataset (Ext := demo_env) data "out" "db" "x.fasta"
                             Demo.empty_world).2 in
  (∀ name, plain_name name → fs w' !! path_join "out" name = None) ∧
  fs w' !! output_csv_path "out" = None ∧
  (∀ suffix, suffix ∈ ["_a3m"; "_ss"; "_ss_h"; "_h"]%string →
             fs w' !! ("db" ++ suffix)%string = None).
Proof.
  intros data w'.
  apply (process_dataset_leaves_nothing (Ext := demo_env) data "out" "db" "x.fasta"
           Demo.empty_world w').
  vm_compute. reflexivity.
Defined.

End FurtherExamples.

Section FurtherExamplesEmbed.
Import PredictEmbed.

(** Two sequences, hence one block, with the directory of the archives in
    place. *)
Lemma embed_sequence_writes_blocks_witness :
  let sequences := ["ACD"; "GG"]%string in
  let w := Demo.world_in [embeddings_dir]
                         [("./src/cathe-predict/Dataset.csv", "ACD GG")%string] in
  ∃ w',
    embed_sequence (Ext := Demo.embedder) w = (inr tt, w') ∧
    (∀ k, 1000 * k < length sequences →
          ∃ vs, embedded (Ext := Demo.embedder) (chunk sequences k) vs ∧
                fs w' !! chunk_file k = Some (savez (Externals := Demo.embedder) vs)) ∧
    (∀ path, (∀ k, 1000 * k < length sequences → path ≠ chunk_file k) →
             fs w' !! path = fs w !! path).
Proof.
  intros sequences w.
  apply (proj1 (embed_sequence_writes_blocks (Ext := Demo.embedder) "ACD GG" sequences w
                  eq_refl eq_refl eq_refl
                  (λ seq _, ex_intro _ _ eq_refl))).
  - vm_compute. reflexivity.
  - intros k Hk. assert (k = 0) as -> by (cbn in Hk; lia). vm_compute. reflexivity.
Defined.

(** The same dataset without the directory of the archives. *)
Example embed_sequence_without_directory :
  let w := Demo.world_with [("./src/cathe-predict/Dataset.csv", "ACD GG")%string] in
  (embed_sequence (Ext := Demo.embedder) w).1
  = inl (Raise FileNotFoundError "./src/cathe-predict/Embeddings/T5_0.0.npz") ∧
  fs (embed_sequence (Ext := Demo.embedder) w).2 = fs w.
Proof. vm_compute. done. Qed.

End FurtherExamplesEmbed.

Section FurtherExamplesTraining.
Import Labels.

Lemma sorted_unique_distinct : distinct_values sorted_unique.
Proof.
  intros y. unfold sorted_unique. split.
  - rewrite merge_sort_Permutation. apply NoDup_remove_dups.
  - intros label. rewrite merge_sort_Permutation. apply elem_of_remove_dups.
Qed.

(** Three labels over the three splits. *)
Lemma encode_round_trip_witness :
  let y_train := ["b"; "a"]%string in
  let y_val := ["c"]%string in
  let y_test := ["a"]%string in
  let classes := sorted_unique (y_train ++ y_val ++ y_test) in
  ∃ enc,
    encode sorted_unique sorted_unique y_train y_val y_test = inr enc ∧
    encodes classes y_train (enc_train enc) ∧
    encodes classes y_val (enc_val enc) ∧
    encodes classes y_test (enc_test enc) ∧
    num_classes enc = length classes ∧
    Forall (λ code, code < num_classes enc)
           (enc_train enc ++ enc_val enc ++ enc_test enc) ∧
    (∀ code label label', classes !! code = Some label →
       classes !! code = Some label' → label = label') ∧
    (∀ code code' label, classes !! code = Some label →
       classes !! code' = Some label → code = code') ∧
    ∀ code, code < num_classes enc →
      code ∈ enc_train enc ++ enc_val enc ++ enc_test enc.
Proof.
  intros y_train y_val y_test.
  apply (encode_round_trip sorted_unique sorted_unique y_train y_val y_test);
    apply sorted_unique_distinct.
Defined.

(** The shuffled training split of the same labels. *)
Lemma encoded_generator_yields_witness :
  ∃ X_batch y_batch,
    AnnTMVec.bm_generator 3 [10; 20] [0; 1] 4 7 = inr (X_batch, y_batch) ∧
    length X_batch = 4 ∧ length y_batch = 4.
Proof.
  apply (encoded_generator_yields sorted_unique sorted_unique
           ["b"; "a"]%string ["c"]%string ["a"]%string
           {| enc_train := [1; 0]; enc_val := [2]; enc_test := [0]; num_classes := 3 |}
           [1; 0] [10; 20] [0; 1] 4 7).
  - apply sorted_unique_distinct.
  - apply sorted_unique_distinct.
  - vm_compute. reflexivity.
  - cbn [enc_train]. left.
  - apply perm_swap.
  - reflexivity.
  - cbn. lia.
Defined.

(** Three samples in batches of two, from the second batch on. *)
Lemma epoch_covers_every_sample_witness :
  let steps := steps_per_epoch 3 2 in
  (steps - 1) * 2 < 3 ∧
  ∃ k j X_batch y_batch y_enc,
    k < steps ∧ j < 2 ∧
    AnnTMVec.bm_generator 3 [10; 20; 30] [0; 1; 2] 2 (1 + k) = inr (X_batch, y_batch) ∧
    X_batch !! j = Some 30 ∧ y_batch !! j = Some y_enc ∧ one_hot 3 y_enc 2.
Proof.
  apply (epoch_covers_every_sample 3 [10; 20; 30] [0; 1; 2] 2 1 2 30 2).
  - lia.
  - reflexivity.
  - intros l Hl. rewrite !elem_of_cons, elem_of_nil in Hl. lia.
  - reflexivity.
  - reflexivity.
Defined.

(** Three samples with two labels, in batches of two. *)
Lemma bm_generator_index_error_witness :
  (∀ k, k < 2 / 2 →
        ∃ batch, AnnTMVec.bm_generator 2 [10; 20; 30] [0; 1] 2 k = inr batch) ∧
  ∃ e, AnnTMVec.bm_generator 2 [10; 20; 30] [0; 1] 2 (2 / 2) = inl e ∧
       exn_cls e = IndexError.
Proof.
  apply (bm_generator_index_error 2 [10; 20; 30] [0; 1] 2).
  - cbn. lia.
  - intros [|[|p]] Hp; [by exists 0; split; [|lia]|by exists 1; split; [|lia]|lia].
  - by left.
  - lia.
Defined.

End FurtherExamplesTraining.

Section FurtherExamples3Di.
Import Predict3Di.

(** A machine on which foldseek fails. *)
Lemma foldseek_failure_reported_witness :
  ∃ detail,
    extract_one failing_shell demo_error_text "pdbs" "out"
                (combined_path "out") "a.pdb" demo_pdb_world =
    (inr tt,
     {| fs := fs demo_pdb_world;
        dirs := ∅;
        stdout := [("An error occurred during 3Di computation for a.pdb: " ++
                    detail)%string];
        requests := [] |}).
Proof.
  apply (foldseek_failure_reported failing_shell demo_error_text "pdbs" "out"
           (combined_path "out") "a.pdb" demo_pdb_world
           1%Z (fs demo_pdb_world) 1%Z (fs demo_pdb_world)).
  - reflexivity.
  - reflexivity.
  - left. lia.
Defined.

(** One PDB file, converted into a FASTA record whose header has spaces. *)
Lemma extracted_fasta_collected_witness :
  ∃ w',
    extract_one demo_foldseek demo_error_text "pdbs" "out" (combined_path "out")
                "a.pdb" demo_pdb_world = (inr tt, w') ∧
    fs w' !! "out/combined_3di_sequences.fasta"%string = Some ">a_chain_A
DVLV
"%string ∧
    fs w' !! "out/a.fasta"%string = None ∧
    fs w' !! "out/pdb_db"%string = Some "db"%string.
Proof.
  destruct (extracted_fasta_collected demo_foldseek demo_error_text "pdbs" "out" "a.pdb"
              demo_pdb_world
              (<["out/pdb_db"%string := "db"%string]> (fs demo_pdb_world))
              (<["out/a.fasta"%string := ">a chain A
DVLV
"%string]> (<["out/pdb_db"%string := "db"%string]> (fs demo_pdb_world)))
              ">a chain A
DVLV
"%string ""%string)
    as (w' & Hrun & Hcombined & _ & Hfasta & Hdb & _).
  - reflexivity.
  - reflexivity.
  - vm_compute. reflexivity.
  - vm_compute. reflexivity.
  - vm_compute. discriminate.
  - exists w'. split; [exact Hrun|]. split; [exact Hcombined|]. split; [exact Hfasta|].
    change (fs w' !! db_path "out" = Some "db"%string).
    rewrite Hdb. vm_compute. reflexivity.
Defined.

(** A FASTA file with the line ends of another system: the combined file
    gets line feeds. *)
Example crlf_fasta_collected :
  fs (extract_one demo_foldseek_crlf demo_error_text "pdbs" "out" (combined_path "out")
                  "a.pdb" demo_pdb_world).2
    !! "out/combined_3di_sequences.fasta"%string
  = Some ">a_chain_A
DVLV
"%string.
Proof. vm_compute. reflexivity. Qed.

(** A folder of PDB files that is a file, and one that is not there. *)
Example pdb_folder_not_a_directory :
  (embed_3Di failing_shell demo_error_text "pdbs/a.pdb" demo_pdb_world).1
    = inl (Raise (PyError "NotADirectoryError") "pdbs/a.pdb") ∧
  (embed_3Di failing_shell demo_error_text "nowhere" demo_pdb_world).1
    = inl (Raise FileNotFoundError "nowhere").
Proof. split; vm_compute; reflexivity. Qed.

(** A folder that holds a text file only. *)
Lemma no_pdb_file_raises_witness :
  let w := Demo.world_with [("pdbs/readme.txt", "x")%string] in
  ∃ msg, get_3di_sequences demo_foldseek demo_error_text "pdbs" "out" w
         = (inl (Raise FileNotFoundError msg), add_dir "out" w).
Proof.
  intros w.
  destruct (no_pdb_file_raises demo_foldseek demo_error_text "pdbs" "out" w)
    as (Hnone & _ & _).
  - vm_compute. reflexivity.
  - discriminate.
  - eexists. apply Hnone.
    + vm_compute. reflexivity.
    + vm_compute. reflexivity.
    + intros name Hin.
      assert (entries "pdbs" (add_dir "out" w) = ["readme.txt"%string]) as Hentries
        by (vm_compute; reflexivity).
      rewrite Hentries in Hin. apply list_elem_of_singleton in Hin. rewrite Hin.
      vm_compute. reflexivity.
Defined.

End FurtherExamples3Di.
